(** * FinFlow: row-level authorization, derived savings balance, provisioning

    A shallow embedding of the database layer declared in
    [supabase/migrations/20250722105648-5bb8790f-b049-4b7d-a053-3a2506104ffa.sql]
    (tables, CHECK / UNIQUE / FOREIGN KEY constraints, row-level security
    policies and the three trigger functions) together with the client calls
    of the savings and admin pages that reach it.

    Conventions.
    - [DECIMAL(15,2)] values are integers counting hundredths (cents), with
      the precision bound written out in [numeric_15_2].
    - [UUID] values are compared for equality only; they are kept as text.
    - SQL expressions are three-valued: [None] is NULL, and a policy
      qualification admits a row only when it evaluates to TRUE.
    - The [created_at] / [updated_at] columns and the
      [update_updated_at_column] trigger carry wall-clock time and are not
      stored in the rows; no policy or trigger below reads them, and a
      query that sorts on [created_at] takes the column as a parameter.
    - [transaction_date] and the [date] of a currency rate are [DATE]
      values, kept as day numbers; the text a form sends for one becomes a
      date through the engine's input function, a parameter of the client
      call. [expense_date] and [target_date] travel as the text received:
      the statements that carry them are only shown to fail or to leave
      other rows alone, never to commit.
    - Under row-level security a statement first has the policies of the
      relations it touches expanded; the expansion is decided on the text
      of the policies and can refuse the statement before any row is
      read.
    - A statement either commits and yields the next database state or
      raises an error and leaves the state as it was. *)

From Stdlib Require Import ZArith List Bool String Lia Permutation Sorted.
From stdpp Require Import base option strings gmap.
Import ListNotations.

Local Open Scope string_scope.
Local Open Scope list_scope.
Local Open Scope Z_scope.

(** ** Values *)

Abbreviation uuid := string (only parsing).

(** [CREATE TYPE quarter_period AS ENUM ('Q1', 'Q2', 'Q3', 'Q4')] *)
Inductive quarter_period := Q1 | Q2 | Q3 | Q4.

(** [CREATE TYPE currency_type AS ENUM ('USD', 'GHS')] *)
Inductive currency_type := USD | GHS.

Definition quarter_eqb (a b : quarter_period) : bool :=
  match a, b with
  | Q1, Q1 | Q2, Q2 | Q3, Q3 | Q4, Q4 => true
  | _, _ => false
  end.

Definition currency_eqb (a b : currency_type) : bool :=
  match a, b with
  | USD, USD | GHS, GHS => true
  | _, _ => false
  end.

(** [DECIMAL(15,2)]: at most 15 significant digits, two of them fractional;
    in hundredths the magnitude stays below [10^15]. *)
Definition numeric_15_2 (v : Z) : bool := Z.abs v <? 10 ^ 15.

(** [DATE]: a calendar day, kept as the day number the engine stores
    (days since 2000-01-01). A stored row always holds a day; text sent by
    a client becomes one through the engine's input function, which
    rejects what it cannot read (see [to_date] in the client calls). *)
Abbreviation date := Z (only parsing).

(** [DECIMAL(15,6)], counted in millionths. *)
Definition numeric_15_6 (v : Z) : bool := Z.abs v <? 10 ^ 15.

(** ** Errors *)

Inductive error :=
| AuthorizationDenied     (* new row violates row-level security policy *)
| ConstraintViolation     (* PRIMARY KEY, UNIQUE, FOREIGN KEY, CHECK *)
| NumericFieldOverflow    (* value does not fit DECIMAL(15,2) *)
| InvalidDatetimeFormat   (* invalid input syntax for type date *)
| InfiniteRecursion.      (* infinite recursion detected in policy for relation *)

Inductive result (A : Type) :=
| Ok (a : A)
| Err (e : error).
Arguments Ok {A} a.
Arguments Err {A} e.

Definition bind {A B} (m : result A) (k : A -> result B) : result B :=
  match m with
  | Ok a => k a
  | Err e => Err e
  end.

Definition guard (b : bool) (e : error) : result unit :=
  if b then Ok tt else Err e.

Definition result_map {A B} (f : A -> B) (m : result A) : result B :=
  bind m (fun a => Ok (f a)).

Declare Scope result_scope.
Delimit Scope result_scope with result.
Notation "'let*' x := m 'in' k" := (bind m (fun x => k))
  (at level 10, x name, m at level 100, k at level 200) : result_scope.
Notation "'require' b 'or' e 'in' k" := (bind (guard b e) (fun _ => k))
  (at level 10, b at level 100, e at level 9, k at level 200) : result_scope.
Local Open Scope result_scope.

(** ** Rows *)

(** [auth.users] belongs to the hosting platform and is not declared in the
    migration. *)
Module AuthUser.
(** Modelled from the spec: the identity source supplies
    [(identity_id, email, metadata{full_name?})]; the columns read by
    [handle_new_user] are [id], [email] and [raw_user_meta_data], the
    last one a JSON object whose absent and null members both read as
    NULL under [->>]. *)
Record row := {
  id : uuid;
  email : string;
  raw_user_meta_data : gmap string string;
}.
End AuthUser.

Module Profile.
Record row := {
  id : uuid;
  user_id : uuid;
  full_name : string;
  role : string;
}.
End Profile.

Module IncomeRecord.
Record row := {
  id : uuid;
  user_id : uuid;
  quarter : quarter_period;
  year : Z;
  amount : Z;
  currency : currency_type;
  source : option string;
  description : option string;
}.
End IncomeRecord.

Module ExpenseCategory.
Record row := {
  id : uuid;
  name : string;
  description : option string;
}.
End ExpenseCategory.

Module ExpenseRecord.
Record row := {
  id : uuid;
  user_id : uuid;
  category_id : uuid;
  quarter : quarter_period;
  year : Z;
  amount : Z;
  currency : currency_type;
  description : option string;
  expense_date : string;
}.
End ExpenseRecord.

Module SavingsGoal.
Record row := {
  id : uuid;
  user_id : uuid;
  name : string;
  target_amount : Z;
  current_amount : Z;
  currency : currency_type;
  target_date : option string;
  goal_type : string;
  description : option string;
  is_active : bool;
}.
End SavingsGoal.

Module SavingsTransaction.
Record row := {
  id : uuid;
  savings_goal_id : uuid;
  amount : Z;
  transaction_type : string;
  description : option string;
  transaction_date : date;
}.
End SavingsTransaction.

Module CurrencyRate.
Record row := {
  id : uuid;
  from_currency : currency_type;
  to_currency : currency_type;
  rate : Z;
  date : date;
}.
End CurrencyRate.

(** ** Database state *)

Record db := {
  auth_users : list AuthUser.row;
  profiles : list Profile.row;
  income_records : list IncomeRecord.row;
  expense_categories : list ExpenseCategory.row;
  expense_records : list ExpenseRecord.row;
  savings_goals : list SavingsGoal.row;
  savings_transactions : list SavingsTransaction.row;
  currency_rates : list CurrencyRate.row;
}.

Definition set_profiles (t : list Profile.row) (d : db) : db :=
  {| auth_users := auth_users d; profiles := t;
     income_records := income_records d;
     expense_categories := expense_categories d;
     expense_records := expense_records d;
     savings_goals := savings_goals d;
     savings_transactions := savings_transactions d;
     currency_rates := currency_rates d |}.

Definition set_auth_users (t : list AuthUser.row) (d : db) : db :=
  {| auth_users := t; profiles := profiles d;
     income_records := income_records d;
     expense_categories := expense_categories d;
     expense_records := expense_records d;
     savings_goals := savings_goals d;
     savings_transactions := savings_transactions d;
     currency_rates := currency_rates d |}.

Definition set_income_records (t : list IncomeRecord.row) (d : db) : db :=
  {| auth_users := auth_users d; profiles := profiles d;
     income_records := t;
     expense_categories := expense_categories d;
     expense_records := expense_records d;
     savings_goals := savings_goals d;
     savings_transactions := savings_transactions d;
     currency_rates := currency_rates d |}.

Definition set_expense_records (t : list ExpenseRecord.row) (d : db) : db :=
  {| auth_users := auth_users d; profiles := profiles d;
     income_records := income_records d;
     expense_categories := expense_categories d;
     expense_records := t;
     savings_goals := savings_goals d;
     savings_transactions := savings_transactions d;
     currency_rates := currency_rates d |}.

Definition set_savings_goals (t : list SavingsGoal.row) (d : db) : db :=
  {| auth_users := auth_users d; profiles := profiles d;
     income_records := income_records d;
     expense_categories := expense_categories d;
     expense_records := expense_records d;
     savings_goals := t;
     savings_transactions := savings_transactions d;
     currency_rates := currency_rates d |}.

Definition set_savings_transactions (t : list SavingsTransaction.row) (d : db) : db :=
  {| auth_users := auth_users d; profiles := profiles d;
     income_records := income_records d;
     expense_categories := expense_categories d;
     expense_records := expense_records d;
     savings_goals := savings_goals d;
     savings_transactions := t;
     currency_rates := currency_rates d |}.

Definition set_expense_categories (t : list ExpenseCategory.row) (d : db) : db :=
  {| auth_users := auth_users d; profiles := profiles d;
     income_records := income_records d;
     expense_categories := t;
     expense_records := expense_records d;
     savings_goals := savings_goals d;
     savings_transactions := savings_transactions d;
     currency_rates := currency_rates d |}.

Definition set_currency_rates (t : list CurrencyRate.row) (d : db) : db :=
  {| auth_users := auth_users d; profiles := profiles d;
     income_records := income_records d;
     expense_categories := expense_categories d;
     expense_records := expense_records d;
     savings_goals := savings_goals d;
     savings_transactions := savings_transactions d;
     currency_rates := t |}.

Definition empty_db : db :=
  {| auth_users := []; profiles := []; income_records := [];
     expense_categories := []; expense_records := []; savings_goals := [];
     savings_transactions := []; currency_rates := [] |}.

(** ** SQL three-valued logic *)

Definition sql_bool := option bool.

(** [a = b] on nullable operands. *)
Definition sql_eq (a b : option string) : sql_bool :=
  match a, b with
  | Some x, Some y => Some (String.eqb x y)
  | _, _ => None
  end.

Definition sql_and (a b : sql_bool) : sql_bool :=
  match a, b with
  | Some false, _ | _, Some false => Some false
  | Some true, Some true => Some true
  | _, _ => None
  end.

(** A WHERE clause or a policy qualification keeps a row only on TRUE. *)
Definition is_true (v : sql_bool) : bool :=
  match v with
  | Some true => true
  | _ => false
  end.

(** [EXISTS (SELECT 1 FROM t WHERE w)] is never NULL. *)
Definition sql_exists {R} (t : list R) (w : R -> sql_bool) : sql_bool :=
  Some (existsb (fun r => is_true (w r)) t).

(** ** Row-level security *)

(** A statement runs either as an API role subject to row-level security,
    with [auth.uid()] the caller's identity ([None] when unauthenticated), or
    as a role that is exempt from it (the owner of the tables, under which
    the migration itself and referential actions run; no table is declared
    [FORCE ROW LEVEL SECURITY]). *)
Inductive session :=
| Rls (auth_uid : option uuid)
| BypassRls.

Inductive command := SELECT | INSERT | UPDATE | DELETE.

Inductive policy_command :=
| FOR_ALL | FOR_SELECT | FOR_INSERT | FOR_UPDATE | FOR_DELETE.

(** The relations that carry policies. *)
Inductive relname :=
| PROFILES | INCOME_RECORDS | EXPENSE_CATEGORIES | EXPENSE_RECORDS
| SAVINGS_GOALS | SAVINGS_TRANSACTIONS | CURRENCY_RATES.

Definition relname_eqb (a b : relname) : bool :=
  match a, b with
  | PROFILES, PROFILES | INCOME_RECORDS, INCOME_RECORDS
  | EXPENSE_CATEGORIES, EXPENSE_CATEGORIES | EXPENSE_RECORDS, EXPENSE_RECORDS
  | SAVINGS_GOALS, SAVINGS_GOALS | SAVINGS_TRANSACTIONS, SAVINGS_TRANSACTIONS
  | CURRENCY_RATES, CURRENCY_RATES => true
  | _, _ => false
  end.

Definition all_relnames : list relname :=
  [ PROFILES; INCOME_RECORDS; EXPENSE_CATEGORIES; EXPENSE_RECORDS;
    SAVINGS_GOALS; SAVINGS_TRANSACTIONS; CURRENCY_RATES ].

(** A qualification reads the database (sub-selects), [auth.uid()] and the
    row under test. *)
Definition qual (R : Type) := db -> option uuid -> R -> sql_bool.

(** [sublinks] lists the relations the expressions of the policy read in
    sub-selects, as they stand in its text. *)
Record policy (R : Type) := {
  policy_name : string;
  policy_for : policy_command;
  sublinks : list relname;
  USING : option (qual R);
  WITH_CHECK : option (qual R);
}.
Arguments policy_name {R} p.
Arguments policy_for {R} p.
Arguments sublinks {R} p.
Arguments USING {R} p.
Arguments WITH_CHECK {R} p.

(** The [FOR] clause that names one command. *)
Definition policy_for_of (c : command) : policy_command :=
  match c with
  | SELECT => FOR_SELECT
  | INSERT => FOR_INSERT
  | UPDATE => FOR_UPDATE
  | DELETE => FOR_DELETE
  end.

Definition applies (f : policy_command) (c : command) : bool :=
  match f, c with
  | FOR_ALL, _ => true
  | FOR_SELECT, SELECT => true
  | FOR_INSERT, INSERT => true
  | FOR_UPDATE, UPDATE => true
  | FOR_DELETE, DELETE => true
  | _, _ => false
  end.

Section Engine.
Context {R : Type}.
Variable pols : list (policy R).

(** An omitted USING clause places no restriction. *)
Definition using_qual (p : policy R) : qual R :=
  match USING p with
  | Some q => q
  | None => fun _ _ _ => Some true
  end.

(** An omitted WITH CHECK clause falls back on USING. *)
Definition check_qual (p : policy R) : qual R :=
  match WITH_CHECK p with
  | Some q => q
  | None => using_qual p
  end.

(** Policies are permissive: the ones that apply to the command are
    OR-ed, and with none of them the default is to deny. *)
Definition using_ok (c : command) (d : db) (uid : option uuid) (r : R) : bool :=
  existsb (fun p => applies (policy_for p) c && is_true (using_qual p d uid r)) pols.

Definition check_ok (c : command) (d : db) (uid : option uuid) (r : R) : bool :=
  existsb (fun p => applies (policy_for p) c && is_true (check_qual p d uid r)) pols.

(** Rows a SELECT may return. *)
Definition can_select (s : session) (d : db) (r : R) : bool :=
  match s with
  | BypassRls => true
  | Rls uid => using_ok SELECT d uid r
  end.

(** Rows an UPDATE (resp. DELETE) with a WHERE clause may touch: the
    statement reads the table, so the SELECT policies apply on top of the
    ones of the command. *)
Definition can_update (s : session) (d : db) (r : R) : bool :=
  match s with
  | BypassRls => true
  | Rls uid => using_ok SELECT d uid r && using_ok UPDATE d uid r
  end.

Definition can_delete (s : session) (d : db) (r : R) : bool :=
  match s with
  | BypassRls => true
  | Rls uid => using_ok SELECT d uid r && using_ok DELETE d uid r
  end.

(** New rows an INSERT (resp. UPDATE) may write. *)
Definition can_insert (s : session) (d : db) (r : R) : bool :=
  match s with
  | BypassRls => true
  | Rls uid => check_ok INSERT d uid r
  end.

Definition can_write_updated (s : session) (d : db) (r : R) : bool :=
  match s with
  | BypassRls => true
  | Rls uid => check_ok UPDATE d uid r
  end.

(** [SELECT * FROM t WHERE w] *)
Definition rls_select (s : session) (d : db) (w : R -> bool) (t : list R) : list R :=
  List.filter (fun r => w r && can_select s d r) t.

(** [INSERT INTO t VALUES (r)]: the policy check only; the table's
    constraints are the caller's business. *)
Definition rls_insert (s : session) (d : db) (r : R) (t : list R) : result (list R) :=
  require can_insert s d r or AuthorizationDenied in
  Ok (t ++ [r]).

(** [UPDATE t SET ... WHERE w]: [set] computes the new row from the old
    one; a new row that fails the check aborts the statement. Returns the
    new table and the new versions of the rows it changed. *)
Fixpoint rls_update (s : session) (d : db) (w : R -> bool) (set : R -> R)
    (t : list R) : result (list R * list R) :=
  match t with
  | [] => Ok ([], [])
  | r :: t' =>
      if w r && can_update s d r then
        require can_write_updated s d (set r) or AuthorizationDenied in
        let* rest := rls_update s d w set t' in
        Ok (set r :: fst rest, set r :: snd rest)
      else
        let* rest := rls_update s d w set t' in
        Ok (r :: fst rest, snd rest)
  end.

(** [UPDATE t SET ...] that reads no column of [t]: every row the UPDATE
    policies admit is rewritten. *)
Definition can_update_unread (s : session) (d : db) (r : R) : bool :=
  match s with
  | BypassRls => true
  | Rls uid => using_ok UPDATE d uid r
  end.

Fixpoint rls_update_unread (s : session) (d : db) (set : R -> R) (t : list R)
    : result (list R * list R) :=
  match t with
  | [] => Ok ([], [])
  | r :: t' =>
      if can_update_unread s d r then
        require can_write_updated s d (set r) or AuthorizationDenied in
        let* rest := rls_update_unread s d set t' in
        Ok (set r :: fst rest, set r :: snd rest)
      else
        let* rest := rls_update_unread s d set t' in
        Ok (r :: fst rest, snd rest)
  end.

(** [DELETE FROM t WHERE w]: the rows kept and the rows deleted. *)
Definition rls_delete (s : session) (d : db) (w : R -> bool) (t : list R)
    : list R * list R :=
  (List.filter (fun r => negb (w r && can_delete s d r)) t,
   List.filter (fun r => w r && can_delete s d r) t).
End Engine.

(** ** The policies of the migration *)

(** [EXISTS (SELECT 1 FROM public.profiles
            WHERE user_id = auth.uid() AND role = 'admin')]:
    the value of the expression over the stored table. Whether a statement
    gets as far as evaluating it is settled before any row is read, when
    the policies of the statement are expanded: see [rewrite_policies]. *)
Definition exists_admin_profile (d : db) (uid : option uuid) : sql_bool :=
  sql_exists (profiles d) (fun p =>
    sql_and (sql_eq (Some (Profile.user_id p)) uid)
            (sql_eq (Some (Profile.role p)) (Some "admin"))).

(** [EXISTS (SELECT 1 FROM public.savings_goals
            WHERE id = savings_goal_id AND user_id = auth.uid())]:
    [id] and [user_id] are columns of the goal, [savings_goal_id] the
    column of the transaction under test. *)
Definition exists_own_goal (d : db) (uid : option uuid) (savings_goal_id : uuid)
    : sql_bool :=
  sql_exists (savings_goals d) (fun g =>
    sql_and (sql_eq (Some (SavingsGoal.id g)) (Some savings_goal_id))
            (sql_eq (Some (SavingsGoal.user_id g)) uid)).

Definition profiles_policies : list (policy Profile.row) :=
  [ {| policy_name := "Users can view their own profile";
       policy_for := FOR_SELECT;
       sublinks := [];
       USING := Some (fun _ uid r => sql_eq uid (Some (Profile.user_id r)));
       WITH_CHECK := None |};
    {| policy_name := "Users can update their own profile";
       policy_for := FOR_UPDATE;
       sublinks := [];
       USING := Some (fun _ uid r => sql_eq uid (Some (Profile.user_id r)));
       WITH_CHECK := None |};
    {| policy_name := "Admins can view all profiles";
       policy_for := FOR_SELECT;
       sublinks := [PROFILES];
       USING := Some (fun d uid _ => exists_admin_profile d uid);
       WITH_CHECK := None |};
    {| policy_name := "Admins can create profiles";
       policy_for := FOR_INSERT;
       sublinks := [PROFILES];
       USING := None;
       WITH_CHECK := Some (fun d uid _ => exists_admin_profile d uid) |} ].

Definition income_records_policies : list (policy IncomeRecord.row) :=
  [ {| policy_name := "Users can view their own income records";
       policy_for := FOR_SELECT;
       sublinks := [];
       USING := Some (fun _ uid r => sql_eq uid (Some (IncomeRecord.user_id r)));
       WITH_CHECK := None |};
    {| policy_name := "Users can create their own income records";
       policy_for := FOR_INSERT;
       sublinks := [];
       USING := None;
       WITH_CHECK := Some (fun _ uid r => sql_eq uid (Some (IncomeRecord.user_id r))) |};
    {| policy_name := "Users can update their own income records";
       policy_for := FOR_UPDATE;
       sublinks := [];
       USING := Some (fun _ uid r => sql_eq uid (Some (IncomeRecord.user_id r)));
       WITH_CHECK := None |};
    {| policy_name := "Users can delete their own income records";
       policy_for := FOR_DELETE;
       sublinks := [];
       USING := Some (fun _ uid r => sql_eq uid (Some (IncomeRecord.user_id r)));
       WITH_CHECK := None |} ].

Definition expense_categories_policies : list (policy ExpenseCategory.row) :=
  [ {| policy_name := "Everyone can view expense categories";
       policy_for := FOR_SELECT;
       sublinks := [];
       USING := Some (fun _ _ _ => Some true);
       WITH_CHECK := None |};
    {| policy_name := "Admins can manage expense categories";
       policy_for := FOR_ALL;
       sublinks := [PROFILES];
       USING := Some (fun d uid _ => exists_admin_profile d uid);
       WITH_CHECK := None |} ].

Definition expense_records_policies : list (policy ExpenseRecord.row) :=
  [ {| policy_name := "Users can view their own expense records";
       policy_for := FOR_SELECT;
       sublinks := [];
       USING := Some (fun _ uid r => sql_eq uid (Some (ExpenseRecord.user_id r)));
       WITH_CHECK := None |};
    {| policy_name := "Users can create their own expense records";
       policy_for := FOR_INSERT;
       sublinks := [];
       USING := None;
       WITH_CHECK := Some (fun _ uid r => sql_eq uid (Some (ExpenseRecord.user_id r))) |};
    {| policy_name := "Users can update their own expense records";
       policy_for := FOR_UPDATE;
       sublinks := [];
       USING := Some (fun _ uid r => sql_eq uid (Some (ExpenseRecord.user_id r)));
       WITH_CHECK := None |};
    {| policy_name := "Users can delete their own expense records";
       policy_for := FOR_DELETE;
       sublinks := [];
       USING := Some (fun _ uid r => sql_eq uid (Some (ExpenseRecord.user_id r)));
       WITH_CHECK := None |} ].

Definition savings_goals_policies : list (policy SavingsGoal.row) :=
  [ {| policy_name := "Users can view their own savings goals";
       policy_for := FOR_SELECT;
       sublinks := [];
       USING := Some (fun _ uid r => sql_eq uid (Some (SavingsGoal.user_id r)));
       WITH_CHECK := None |};
    {| policy_name := "Users can create their own savings goals";
       policy_for := FOR_INSERT;
       sublinks := [];
       USING := None;
       WITH_CHECK := Some (fun _ uid r => sql_eq uid (Some (SavingsGoal.user_id r))) |};
    {| policy_name := "Users can update their own savings goals";
       policy_for := FOR_UPDATE;
       sublinks := [];
       USING := Some (fun _ uid r => sql_eq uid (Some (SavingsGoal.user_id r)));
       WITH_CHECK := None |};
    {| policy_name := "Users can delete their own savings goals";
       policy_for := FOR_DELETE;
       sublinks := [];
       USING := Some (fun _ uid r => sql_eq uid (Some (SavingsGoal.user_id r)));
       WITH_CHECK := None |} ].

Definition savings_transactions_policies : list (policy SavingsTransaction.row) :=
  [ {| policy_name := "Users can view their own savings transactions";
       policy_for := FOR_SELECT;
       sublinks := [SAVINGS_GOALS];
       USING := Some (fun d uid r =>
                  exists_own_goal d uid (SavingsTransaction.savings_goal_id r));
       WITH_CHECK := None |};
    {| policy_name := "Users can create their own savings transactions";
       policy_for := FOR_INSERT;
       sublinks := [SAVINGS_GOALS];
       USING := None;
       WITH_CHECK := Some (fun d uid r =>
                  exists_own_goal d uid (SavingsTransaction.savings_goal_id r)) |} ].

Definition currency_rates_policies : list (policy CurrencyRate.row) :=
  [ {| policy_name := "Everyone can view currency rates";
       policy_for := FOR_SELECT;
       sublinks := [];
       USING := Some (fun _ _ _ => Some true);
       WITH_CHECK := None |};
    {| policy_name := "Admins can manage currency rates";
       policy_for := FOR_ALL;
       sublinks := [PROFILES];
       USING := Some (fun d uid _ => exists_admin_profile d uid);
       WITH_CHECK := None |} ].

(** ** Expanding the policies of a statement *)

(** Before a statement runs, the rewriter attaches to each relation the
    statement touches the qualifications of the policies that apply to it,
    and then does the same inside every sub-select of those
    qualifications. A relation whose policies have sub-selects and that is
    reached again while these are being expanded stops the statement with
    "infinite recursion detected in policy for relation". This is decided
    on the text of the policies: it depends neither on the stored rows nor
    on the caller. *)

Definition summary {R : Type} (p : policy R) : policy_command * list relname :=
  (policy_for p, sublinks p).

(** The catalogue: command and sub-selects of every policy of a relation. *)
Definition pg_policies (t : relname) : list (policy_command * list relname) :=
  match t with
  | PROFILES => map summary profiles_policies
  | INCOME_RECORDS => map summary income_records_policies
  | EXPENSE_CATEGORIES => map summary expense_categories_policies
  | EXPENSE_RECORDS => map summary expense_records_policies
  | SAVINGS_GOALS => map summary savings_goals_policies
  | SAVINGS_TRANSACTIONS => map summary savings_transactions_policies
  | CURRENCY_RATES => map summary currency_rates_policies
  end.

(** The sub-selects of the policies attached to [t] when the rights [cs]
    are needed on it. *)
Definition sublinks_of (cs : list command) (t : relname) : list relname :=
  flat_map snd
    (List.filter (fun p => existsb (applies (fst p)) cs) (pg_policies t)).

(** [active] holds the relations whose policies are being expanded. A
    sub-select reads its relation, so inside it the SELECT policies are
    the ones attached. The depth is bounded by the number of relations,
    since a relation enters [active] at most once; [fuel] counts it down. *)
Fixpoint expands (fuel : nat) (active : list relname) (cs : list command)
    (t : relname) : bool :=
  match sublinks_of cs t with
  | [] => true
  | subs =>
      negb (existsb (relname_eqb t) active)
      && match fuel with
         | O => false
         | S n => forallb (expands n (t :: active) [SELECT]) subs
         end
  end.

(** The rights a statement needs on its target, which decide the policies
    attached. An UPDATE or DELETE that reads columns of the rows it
    addresses (a WHERE clause, as in every call of the client) needs the
    SELECT right too; an INSERT without RETURNING needs INSERT only. *)
Definition rights_select : list command := [SELECT].
Definition rights_insert : list command := [INSERT].
Definition rights_update_where : list command := [UPDATE; SELECT].
Definition rights_delete_where : list command := [DELETE; SELECT].
(** An UPDATE without WHERE and RETURNING that assigns constants reads no
    column. *)
Definition rights_update_unread : list command := [UPDATE].

(** A session exempt from row-level security has no policy attached. *)
Definition rewrite_policies (s : session) (cs : list command) (t : relname)
    : result unit :=
  match s with
  | BypassRls => Ok tt
  | Rls _ => guard (expands (length all_relnames) [] cs t) InfiniteRecursion
  end.

(** ** Declared constraints *)

Definition mem (x : string) (l : list string) : bool :=
  existsb (String.eqb x) l.

(** PRIMARY KEY / UNIQUE on a text-valued column. *)
Fixpoint distinct (l : list string) : bool :=
  match l with
  | [] => true
  | x :: l' => negb (mem x l') && distinct l'
  end.

(** [CHECK (role IN ('admin', 'user'))] *)
Definition check_role (r : string) : bool :=
  String.eqb r "admin" || String.eqb r "user".

(** [CHECK (goal_type IN ('vacation', 'car_service', 'tech_stocks',
    'emergency', 'other'))] *)
Definition check_goal_type (g : string) : bool :=
  mem g ["vacation"; "car_service"; "tech_stocks"; "emergency"; "other"].

(** [CHECK (transaction_type IN ('deposit', 'withdrawal'))] *)
Definition check_transaction_type (t : string) : bool :=
  String.eqb t "deposit" || String.eqb t "withdrawal".

Definition profiles_constraints (d : db) : bool :=
  distinct (map Profile.id (profiles d))
  && distinct (map Profile.user_id (profiles d))
  && forallb (fun p =>
       check_role (Profile.role p)
       && mem (Profile.user_id p) (map AuthUser.id (auth_users d)))
     (profiles d).

Definition income_records_constraints (d : db) : bool :=
  distinct (map IncomeRecord.id (income_records d))
  && forallb (fun r =>
       numeric_15_2 (IncomeRecord.amount r)
       && mem (IncomeRecord.user_id r) (map AuthUser.id (auth_users d)))
     (income_records d).

Definition expense_records_constraints (d : db) : bool :=
  distinct (map ExpenseRecord.id (expense_records d))
  && forallb (fun r =>
       numeric_15_2 (ExpenseRecord.amount r)
       && mem (ExpenseRecord.user_id r) (map AuthUser.id (auth_users d))
       && mem (ExpenseRecord.category_id r)
              (map ExpenseCategory.id (expense_categories d)))
     (expense_records d).

(** PRIMARY KEY and [name TEXT NOT NULL UNIQUE]. *)
Definition expense_categories_constraints (d : db) : bool :=
  distinct (map ExpenseCategory.id (expense_categories d))
  && distinct (map ExpenseCategory.name (expense_categories d)).

(** [UNIQUE(from_currency, to_currency, date)] *)
Definition same_rate_key (a b : CurrencyRate.row) : bool :=
  currency_eqb (CurrencyRate.from_currency a) (CurrencyRate.from_currency b)
  && currency_eqb (CurrencyRate.to_currency a) (CurrencyRate.to_currency b)
  && Z.eqb (CurrencyRate.date a) (CurrencyRate.date b).

Fixpoint unique_by {R : Type} (same : R -> R -> bool) (l : list R) : bool :=
  match l with
  | [] => true
  | x :: l' => negb (existsb (same x) l') && unique_by same l'
  end.

Definition currency_rates_constraints (d : db) : bool :=
  distinct (map CurrencyRate.id (currency_rates d))
  && unique_by same_rate_key (currency_rates d)
  && forallb (fun r => numeric_15_6 (CurrencyRate.rate r)) (currency_rates d).

Definition savings_goal_row_ok (d : db) (g : SavingsGoal.row) : bool :=
  check_goal_type (SavingsGoal.goal_type g)
  && numeric_15_2 (SavingsGoal.target_amount g)
  && numeric_15_2 (SavingsGoal.current_amount g)
  && mem (SavingsGoal.user_id g) (map AuthUser.id (auth_users d)).

Definition savings_goals_constraints (d : db) : bool :=
  distinct (map SavingsGoal.id (savings_goals d))
  && forallb (savings_goal_row_ok d) (savings_goals d).

Definition savings_transaction_row_ok (d : db) (t : SavingsTransaction.row) : bool :=
  check_transaction_type (SavingsTransaction.transaction_type t)
  && numeric_15_2 (SavingsTransaction.amount t)
  && mem (SavingsTransaction.savings_goal_id t)
         (map SavingsGoal.id (savings_goals d)).

Definition savings_transactions_constraints (d : db) : bool :=
  distinct (map SavingsTransaction.id (savings_transactions d))
  && forallb (savings_transaction_row_ok d) (savings_transactions d).

(** ** Statements *)

(** The statements on [profiles], [expense_categories] and
    [currency_rates] start with the expansion of their policies. Those on
    the four other relations do not: the policies of [income_records],
    [expense_records] and [savings_goals] have no sub-select and those of
    [savings_transactions] read [savings_goals] only, so their expansion
    always ends (lemma [owner_relations_expand] below). *)

Inductive tg_op := TG_INSERT | TG_UPDATE | TG_DELETE.

(** What a statement leaves behind: the next state, the number of rows it
    touched in its target table, and the invocations of the row trigger
    [update_savings_goal_on_transaction] it caused. *)
Record outcome := {
  state : db;
  rows_affected : nat;
  fired : list (tg_op * SavingsTransaction.row);
}.

Definition unchanged (d : db) : outcome :=
  {| state := d; rows_affected := 0; fired := [] |}.

(** *** income_records *)

Definition select_income_records (s : session) (w : IncomeRecord.row -> bool)
    (d : db) : list IncomeRecord.row :=
  rls_select income_records_policies s d w (income_records d).

Definition insert_income_record (s : session) (r : IncomeRecord.row) (d : db)
    : result outcome :=
  require numeric_15_2 (IncomeRecord.amount r) or NumericFieldOverflow in
  let* t := rls_insert income_records_policies s d r (income_records d) in
  let d1 := set_income_records t d in
  require income_records_constraints d1 or ConstraintViolation in
  Ok {| state := d1; rows_affected := 1; fired := [] |}.

Definition update_income_records (s : session) (w : IncomeRecord.row -> bool)
    (set : IncomeRecord.row -> IncomeRecord.row) (d : db) : result outcome :=
  let* u := rls_update income_records_policies s d w set (income_records d) in
  require forallb (fun r => numeric_15_2 (IncomeRecord.amount r)) (snd u)
    or NumericFieldOverflow in
  let d1 := set_income_records (fst u) d in
  require income_records_constraints d1 or ConstraintViolation in
  Ok {| state := d1; rows_affected := length (snd u); fired := [] |}.

Definition delete_income_records (s : session) (w : IncomeRecord.row -> bool)
    (d : db) : result outcome :=
  let kd := rls_delete income_records_policies s d w (income_records d) in
  Ok {| state := set_income_records (fst kd) d;
        rows_affected := length (snd kd); fired := [] |}.

(** *** expense_records *)

Definition select_expense_records (s : session) (w : ExpenseRecord.row -> bool)
    (d : db) : list ExpenseRecord.row :=
  rls_select expense_records_policies s d w (expense_records d).

Definition insert_expense_record (s : session) (r : ExpenseRecord.row) (d : db)
    : result outcome :=
  require numeric_15_2 (ExpenseRecord.amount r) or NumericFieldOverflow in
  let* t := rls_insert expense_records_policies s d r (expense_records d) in
  let d1 := set_expense_records t d in
  require expense_records_constraints d1 or ConstraintViolation in
  Ok {| state := d1; rows_affected := 1; fired := [] |}.

Definition update_expense_records (s : session) (w : ExpenseRecord.row -> bool)
    (set : ExpenseRecord.row -> ExpenseRecord.row) (d : db) : result outcome :=
  let* u := rls_update expense_records_policies s d w set (expense_records d) in
  require forallb (fun r => numeric_15_2 (ExpenseRecord.amount r)) (snd u)
    or NumericFieldOverflow in
  let d1 := set_expense_records (fst u) d in
  require expense_records_constraints d1 or ConstraintViolation in
  Ok {| state := d1; rows_affected := length (snd u); fired := [] |}.

Definition delete_expense_records (s : session) (w : ExpenseRecord.row -> bool)
    (d : db) : result outcome :=
  let kd := rls_delete expense_records_policies s d w (expense_records d) in
  Ok {| state := set_expense_records (fst kd) d;
        rows_affected := length (snd kd); fired := [] |}.

(** *** expense_categories *)

Definition select_expense_categories (s : session)
    (w : ExpenseCategory.row -> bool) (d : db)
    : result (list ExpenseCategory.row) :=
  let* _ := rewrite_policies s rights_select EXPENSE_CATEGORIES in
  Ok (rls_select expense_categories_policies s d w (expense_categories d)).

Definition insert_expense_category (s : session) (r : ExpenseCategory.row)
    (d : db) : result outcome :=
  let* _ := rewrite_policies s rights_insert EXPENSE_CATEGORIES in
  let* t := rls_insert expense_categories_policies s d r (expense_categories d) in
  let d1 := set_expense_categories t d in
  require expense_categories_constraints d1 or ConstraintViolation in
  Ok {| state := d1; rows_affected := 1; fired := [] |}.

(** [expense_records.category_id] refers to this table without a
    referential action: a category that expenses point at can neither be
    removed nor given another [id]. *)
Definition update_expense_categories (s : session)
    (w : ExpenseCategory.row -> bool)
    (set : ExpenseCategory.row -> ExpenseCategory.row) (d : db)
    : result outcome :=
  let* _ := rewrite_policies s rights_update_where EXPENSE_CATEGORIES in
  let* u := rls_update expense_categories_policies s d w set
              (expense_categories d) in
  let d1 := set_expense_categories (fst u) d in
  require expense_categories_constraints d1 && expense_records_constraints d1
    or ConstraintViolation in
  Ok {| state := d1; rows_affected := length (snd u); fired := [] |}.

Definition delete_expense_categories (s : session)
    (w : ExpenseCategory.row -> bool) (d : db) : result outcome :=
  let* _ := rewrite_policies s rights_delete_where EXPENSE_CATEGORIES in
  let kd := rls_delete expense_categories_policies s d w (expense_categories d) in
  let d1 := set_expense_categories (fst kd) d in
  require expense_records_constraints d1 or ConstraintViolation in
  Ok {| state := d1; rows_affected := length (snd kd); fired := [] |}.

(** *** currency_rates *)

Definition select_currency_rates (s : session) (w : CurrencyRate.row -> bool)
    (d : db) : result (list CurrencyRate.row) :=
  let* _ := rewrite_policies s rights_select CURRENCY_RATES in
  Ok (rls_select currency_rates_policies s d w (currency_rates d)).

Definition insert_currency_rate (s : session) (r : CurrencyRate.row) (d : db)
    : result outcome :=
  let* _ := rewrite_policies s rights_insert CURRENCY_RATES in
  require numeric_15_6 (CurrencyRate.rate r) or NumericFieldOverflow in
  let* t := rls_insert currency_rates_policies s d r (currency_rates d) in
  let d1 := set_currency_rates t d in
  require currency_rates_constraints d1 or ConstraintViolation in
  Ok {| state := d1; rows_affected := 1; fired := [] |}.

Definition update_currency_rates (s : session) (w : CurrencyRate.row -> bool)
    (set : CurrencyRate.row -> CurrencyRate.row) (d : db) : result outcome :=
  let* _ := rewrite_policies s rights_update_where CURRENCY_RATES in
  let* u := rls_update currency_rates_policies s d w set (currency_rates d) in
  require forallb (fun r => numeric_15_6 (CurrencyRate.rate r)) (snd u)
    or NumericFieldOverflow in
  let d1 := set_currency_rates (fst u) d in
  require currency_rates_constraints d1 or ConstraintViolation in
  Ok {| state := d1; rows_affected := length (snd u); fired := [] |}.

Definition delete_currency_rates (s : session) (w : CurrencyRate.row -> bool)
    (d : db) : result outcome :=
  let* _ := rewrite_policies s rights_delete_where CURRENCY_RATES in
  let kd := rls_delete currency_rates_policies s d w (currency_rates d) in
  Ok {| state := set_currency_rates (fst kd) d;
        rows_affected := length (snd kd); fired := [] |}.

(** *** savings_goals *)

Definition select_savings_goals (s : session) (w : SavingsGoal.row -> bool)
    (d : db) : list SavingsGoal.row :=
  rls_select savings_goals_policies s d w (savings_goals d).

Definition insert_savings_goal (s : session) (r : SavingsGoal.row) (d : db)
    : result outcome :=
  require numeric_15_2 (SavingsGoal.target_amount r)
          && numeric_15_2 (SavingsGoal.current_amount r)
    or NumericFieldOverflow in
  let* t := rls_insert savings_goals_policies s d r (savings_goals d) in
  let d1 := set_savings_goals t d in
  require savings_goals_constraints d1 or ConstraintViolation in
  Ok {| state := d1; rows_affected := 1; fired := [] |}.

(** The foreign key of [savings_transactions] has no ON UPDATE action, so a
    goal whose [id] is rewritten while transactions point at it fails the
    statement. *)
Definition update_savings_goals (s : session) (w : SavingsGoal.row -> bool)
    (set : SavingsGoal.row -> SavingsGoal.row) (d : db) : result outcome :=
  let* u := rls_update savings_goals_policies s d w set (savings_goals d) in
  require forallb (fun g => numeric_15_2 (SavingsGoal.target_amount g)
                            && numeric_15_2 (SavingsGoal.current_amount g)) (snd u)
    or NumericFieldOverflow in
  let d1 := set_savings_goals (fst u) d in
  require savings_goals_constraints d1 && savings_transactions_constraints d1
    or ConstraintViolation in
  Ok {| state := d1; rows_affected := length (snd u); fired := [] |}.

(** *** The derived-balance trigger *)

Definition with_current_amount (v : Z) (g : SavingsGoal.row) : SavingsGoal.row :=
  {| SavingsGoal.id := SavingsGoal.id g;
     SavingsGoal.user_id := SavingsGoal.user_id g;
     SavingsGoal.name := SavingsGoal.name g;
     SavingsGoal.target_amount := SavingsGoal.target_amount g;
     SavingsGoal.current_amount := v;
     SavingsGoal.currency := SavingsGoal.currency g;
     SavingsGoal.target_date := SavingsGoal.target_date g;
     SavingsGoal.goal_type := SavingsGoal.goal_type g;
     SavingsGoal.description := SavingsGoal.description g;
     SavingsGoal.is_active := SavingsGoal.is_active g |}.

(** [CASE WHEN r.transaction_type = 'deposit' THEN r.amount ELSE -r.amount END] *)
Definition signed_amount (r : SavingsTransaction.row) : Z :=
  if String.eqb (SavingsTransaction.transaction_type r) "deposit"
  then SavingsTransaction.amount r
  else - SavingsTransaction.amount r.

(** [public.update_savings_goal_amount()]. The function is not SECURITY
    DEFINER: its UPDATE runs in the session of the statement that fired it. *)
Definition update_savings_goal_amount (s : session) (TG_OP : tg_op)
    (NEW OLD : SavingsTransaction.row) (d : db) : result db :=
  match TG_OP with
  | TG_INSERT =>
      result_map state
        (update_savings_goals s
           (fun g => String.eqb (SavingsGoal.id g) (SavingsTransaction.savings_goal_id NEW))
           (fun g => with_current_amount (SavingsGoal.current_amount g + signed_amount NEW) g)
           d)
  | TG_DELETE =>
      result_map state
        (update_savings_goals s
           (fun g => String.eqb (SavingsGoal.id g) (SavingsTransaction.savings_goal_id OLD))
           (fun g => with_current_amount (SavingsGoal.current_amount g - signed_amount OLD) g)
           d)
  | TG_UPDATE => Ok d
  end.

(** [AFTER INSERT OR DELETE ... FOR EACH ROW]: the invocations queued by a
    DELETE run one after the other once its rows are gone. *)
Fixpoint fire_on_deleted (s : session) (rows : list SavingsTransaction.row)
    (d : db) : result db :=
  match rows with
  | [] => Ok d
  | r :: rows' =>
      let* d1 := update_savings_goal_amount s TG_DELETE r r d in
      fire_on_deleted s rows' d1
  end.

(** *** savings_transactions *)

Definition select_savings_transactions (s : session)
    (w : SavingsTransaction.row -> bool) (d : db) : list SavingsTransaction.row :=
  rls_select savings_transactions_policies s d w (savings_transactions d).

Definition insert_savings_transaction (s : session) (r : SavingsTransaction.row)
    (d : db) : result outcome :=
  require numeric_15_2 (SavingsTransaction.amount r) or NumericFieldOverflow in
  let* t := rls_insert savings_transactions_policies s d r (savings_transactions d) in
  let d1 := set_savings_transactions t d in
  require savings_transactions_constraints d1 or ConstraintViolation in
  let* d2 := update_savings_goal_amount s TG_INSERT r r d1 in
  Ok {| state := d2; rows_affected := 1; fired := [(TG_INSERT, r)] |}.

(** No trigger is declared for UPDATE. *)
Definition update_savings_transactions (s : session)
    (w : SavingsTransaction.row -> bool)
    (set : SavingsTransaction.row -> SavingsTransaction.row) (d : db)
    : result outcome :=
  let* u := rls_update savings_transactions_policies s d w set
              (savings_transactions d) in
  require forallb (fun r => numeric_15_2 (SavingsTransaction.amount r)) (snd u)
    or NumericFieldOverflow in
  let d1 := set_savings_transactions (fst u) d in
  require savings_transactions_constraints d1 or ConstraintViolation in
  Ok {| state := d1; rows_affected := length (snd u); fired := [] |}.

Definition delete_savings_transactions (s : session)
    (w : SavingsTransaction.row -> bool) (d : db) : result outcome :=
  let kd := rls_delete savings_transactions_policies s d w (savings_transactions d) in
  let d1 := set_savings_transactions (fst kd) d in
  let* d2 := fire_on_deleted s (snd kd) d1 in
  Ok {| state := d2; rows_affected := length (snd kd);
        fired := map (pair TG_DELETE) (snd kd) |}.

(** [savings_goal_id ... REFERENCES public.savings_goals(id) ON DELETE
    CASCADE]: deleting goals deletes their transactions as a referential
    action, which is exempt from row-level security and fires the row
    trigger for every transaction it removes. *)
Definition delete_savings_goals (s : session) (w : SavingsGoal.row -> bool)
    (d : db) : result outcome :=
  let kd := rls_delete savings_goals_policies s d w (savings_goals d) in
  let d1 := set_savings_goals (fst kd) d in
  let cascade :=
    rls_delete savings_transactions_policies BypassRls d1
      (fun t => mem (SavingsTransaction.savings_goal_id t)
                    (map SavingsGoal.id (snd kd)))
      (savings_transactions d1) in
  let d2 := set_savings_transactions (fst cascade) d1 in
  let* d3 := fire_on_deleted BypassRls (snd cascade) d2 in
  Ok {| state := d3; rows_affected := length (snd kd);
        fired := map (pair TG_DELETE) (snd cascade) |}.

(** *** profiles and the provisioning trigger *)

Definition select_profiles (s : session) (w : Profile.row -> bool) (d : db)
    : result (list Profile.row) :=
  let* _ := rewrite_policies s rights_select PROFILES in
  Ok (rls_select profiles_policies s d w (profiles d)).

Definition insert_profile (s : session) (r : Profile.row) (d : db)
    : result outcome :=
  let* _ := rewrite_policies s rights_insert PROFILES in
  let* t := rls_insert profiles_policies s d r (profiles d) in
  let d1 := set_profiles t d in
  require profiles_constraints d1 or ConstraintViolation in
  Ok {| state := d1; rows_affected := 1; fired := [] |}.

(** [UPDATE public.profiles SET ... WHERE w] *)
Definition update_profiles (s : session) (w : Profile.row -> bool)
    (set : Profile.row -> Profile.row) (d : db) : result outcome :=
  let* _ := rewrite_policies s rights_update_where PROFILES in
  let* u := rls_update profiles_policies s d w set (profiles d) in
  let d1 := set_profiles (fst u) d in
  require profiles_constraints d1 or ConstraintViolation in
  Ok {| state := d1; rows_affected := length (snd u); fired := [] |}.

(** [SET full_name = n, role = r] *)
Definition with_name_role (n r : string) (p : Profile.row) : Profile.row :=
  {| Profile.id := Profile.id p;
     Profile.user_id := Profile.user_id p;
     Profile.full_name := n;
     Profile.role := r |}.

(** [UPDATE public.profiles SET full_name = n, role = r], without WHERE:
    the statement reads no column of the table, so the UPDATE policies are
    the only ones attached and they alone select the rows. *)
Definition assign_profiles (s : session) (n r : string) (d : db)
    : result outcome :=
  let* _ := rewrite_policies s rights_update_unread PROFILES in
  let* u := rls_update_unread profiles_policies s d (with_name_role n r)
              (profiles d) in
  let d1 := set_profiles (fst u) d in
  require profiles_constraints d1 or ConstraintViolation in
  Ok {| state := d1; rows_affected := length (snd u); fired := [] |}.

(** [COALESCE(a, b)] with a non-null last argument. *)
Definition coalesce (a : option string) (b : string) : string :=
  match a with
  | Some x => x
  | None => b
  end.

(** [public.handle_new_user()], SECURITY DEFINER: the INSERT runs as the
    owner of [profiles] whatever the session that created the identity.
    [gen_random_uuid] is the value drawn for the [id] default; the VALUES
    row is kept apart for reference. *)
Definition handle_new_user_values (NEW : AuthUser.row) (gen_random_uuid : uuid)
    : Profile.row :=
  {| Profile.id := gen_random_uuid;
     Profile.user_id := AuthUser.id NEW;
     Profile.full_name :=
       coalesce (AuthUser.raw_user_meta_data NEW !! "full_name")
                (AuthUser.email NEW);
     Profile.role :=
       if String.eqb (AuthUser.email NEW) "admin@fms.com"
       then "admin" else "user" |}.

Definition handle_new_user (NEW : AuthUser.row) (gen_random_uuid : uuid) (d : db)
    : result db :=
  result_map state
    (insert_profile BypassRls (handle_new_user_values NEW gen_random_uuid) d).

(** [on_auth_user_created]: AFTER INSERT ON auth.users FOR EACH ROW. An
    error raised by the trigger aborts the insertion of the identity. *)
Definition insert_auth_user (NEW : AuthUser.row) (gen_random_uuid : uuid) (d : db)
    : result outcome :=
  let d1 := set_auth_users (auth_users d ++ [NEW]) d in
  let* d2 := handle_new_user NEW gen_random_uuid d1 in
  Ok {| state := d2; rows_affected := 1; fired := [] |}.

(** ** Client calls *)

Module GoalForm.
(** [goalFormData] of the savings page. *)
Record data := {
  name : string;
  target_amount : string;
  currency : currency_type;
  target_date : string;
  goal_type : string;
  description : string;
}.
End GoalForm.

Module TransactionForm.
(** [transactionFormData] of the savings page. *)
Record data := {
  amount : string;
  transaction_type : string;
  description : string;
  transaction_date : string;
}.
End TransactionForm.

Module NewUserForm.
(** [newUserForm] of the admin page. *)
Record data := {
  email : string;
  password : string;
  fullName : string;
  role : string;
}.
End NewUserForm.

(** JavaScript's [!s] on a string. *)
Definition falsy (s : string) : bool := String.eqb s "".

(** [s || null] *)
Definition or_null (s : string) : option string :=
  if falsy s then None else Some s.

Section Client.
(** What the server stores for [parseFloat(text)] in a DECIMAL(15,2)
    column, in hundredths; [None] when the text is not a number, which
    travels as JSON null. *)
Variable to_numeric : string -> option Z.

(** The engine's input function for [DATE]: the day a text denotes, [None]
    when the text is not a date (the empty text of a cleared date field is
    not one). *)
Variable to_date : string -> option date.

(** The columns of [goalData] assigned to an existing goal; the columns
    the object does not carry keep their value. *)
Definition goalData_set (user : uuid) (f : GoalForm.data) (target : Z)
    (g : SavingsGoal.row) : SavingsGoal.row :=
  {| SavingsGoal.id := SavingsGoal.id g;
     SavingsGoal.user_id := user;
     SavingsGoal.name := GoalForm.name f;
     SavingsGoal.target_amount := target;
     SavingsGoal.current_amount := SavingsGoal.current_amount g;
     SavingsGoal.currency := GoalForm.currency f;
     SavingsGoal.target_date := or_null (GoalForm.target_date f);
     SavingsGoal.goal_type := GoalForm.goal_type f;
     SavingsGoal.description := Some (GoalForm.description f);
     SavingsGoal.is_active := SavingsGoal.is_active g |}.

(** [goalData] as a new row; the columns the object does not carry take
    their DEFAULT ([gen_random_uuid()], [0], [true]). *)
Definition goalData_row (user : uuid) (f : GoalForm.data) (target : Z)
    (gen_random_uuid : uuid) : SavingsGoal.row :=
  {| SavingsGoal.id := gen_random_uuid;
     SavingsGoal.user_id := user;
     SavingsGoal.name := GoalForm.name f;
     SavingsGoal.target_amount := target;
     SavingsGoal.current_amount := 0;
     SavingsGoal.currency := GoalForm.currency f;
     SavingsGoal.target_date := or_null (GoalForm.target_date f);
     SavingsGoal.goal_type := GoalForm.goal_type f;
     SavingsGoal.description := Some (GoalForm.description f);
     SavingsGoal.is_active := true |}.

(** [handleGoalSubmit]: no statement is sent when validation fails; a
    NULL target amount violates NOT NULL. *)
Definition handleGoalSubmit (user : uuid) (f : GoalForm.data)
    (editingGoal : option SavingsGoal.row) (gen_random_uuid : uuid) (d : db)
    : result outcome :=
  if falsy (GoalForm.name f) || falsy (GoalForm.target_amount f) then
    Ok (unchanged d)
  else
    match to_numeric (GoalForm.target_amount f) with
    | None => Err ConstraintViolation
    | Some target =>
        match editingGoal with
        | Some g =>
            update_savings_goals (Rls (Some user))
              (fun x => String.eqb (SavingsGoal.id x) (SavingsGoal.id g))
              (goalData_set user f target) d
        | None =>
            insert_savings_goal (Rls (Some user))
              (goalData_row user f target gen_random_uuid) d
        end
    end.

(** [handleTransactionSubmit]: the form's date travels as text and is
    read by the server when it builds the row, before any check on the
    row; the date field of the form is not a required one. A NULL amount
    violates NOT NULL. *)
Definition handleTransactionSubmit (user : uuid) (f : TransactionForm.data)
    (selectedGoal : option SavingsGoal.row) (gen_random_uuid : uuid) (d : db)
    : result outcome :=
  match selectedGoal with
  | None => Ok (unchanged d)
  | Some g =>
      if falsy (TransactionForm.amount f) then Ok (unchanged d)
      else
        match to_date (TransactionForm.transaction_date f) with
        | None => Err InvalidDatetimeFormat
        | Some day =>
            match to_numeric (TransactionForm.amount f) with
            | None => Err ConstraintViolation
            | Some a =>
                insert_savings_transaction (Rls (Some user))
                  {| SavingsTransaction.id := gen_random_uuid;
                     SavingsTransaction.savings_goal_id := SavingsGoal.id g;
                     SavingsTransaction.amount := a;
                     SavingsTransaction.transaction_type :=
                       TransactionForm.transaction_type f;
                     SavingsTransaction.description :=
                       Some (TransactionForm.description f);
                     SavingsTransaction.transaction_date := day |}
                  d
            end
        end
  end.
End Client.

(** [handleDeleteGoal] *)
Definition handleDeleteGoal (user : uuid) (id : uuid) (d : db) : result outcome :=
  delete_savings_goals (Rls (Some user))
    (fun g => String.eqb (SavingsGoal.id g) id) d.

(** [createUser] of the admin page: the identity service stores
    [user_metadata] as [raw_user_meta_data] of the new identity, whose id it
    draws itself. *)
Definition createUser (f : NewUserForm.data) (new_id gen_random_uuid : uuid)
    (d : db) : result outcome :=
  insert_auth_user
    {| AuthUser.id := new_id;
       AuthUser.email := NewUserForm.email f;
       AuthUser.raw_user_meta_data :=
         {[ "full_name" := NewUserForm.fullName f;
            "role" := NewUserForm.role f ]} |}
    gen_random_uuid d.

(** ** The balance a goal should show *)

Definition of_goal (g : uuid) (t : SavingsTransaction.row) : bool :=
  String.eqb (SavingsTransaction.savings_goal_id t) g.

Definition sum_amounts (l : list SavingsTransaction.row) : Z :=
  fold_right (fun t acc => SavingsTransaction.amount t + acc) 0 l.

(** Sum of the amounts of the goal's transactions of one type. *)
Definition total_of_type (ty : string) (g : uuid) (d : db) : Z :=
  sum_amounts
    (List.filter (fun t => of_goal g t
                           && String.eqb (SavingsTransaction.transaction_type t) ty)
       (savings_transactions d)).

(** Deposits minus withdrawals. *)
Definition expected_balance (g : uuid) (d : db) : Z :=
  total_of_type "deposit" g d - total_of_type "withdrawal" g d.

(** Every stored goal row with identifier [g] carries the expected balance. *)
Definition balance_ok (g : uuid) (d : db) : Prop :=
  forall G, In G (savings_goals d) -> SavingsGoal.id G = g ->
            SavingsGoal.current_amount G = expected_balance g d.

(** The declared constraints of the two savings tables. *)
Definition savings_constraints (d : db) : bool :=
  savings_goals_constraints d && savings_transactions_constraints d.

(** A statement on [savings_transactions]. *)
Inductive tx_statement :=
| InsertTx (s : session) (r : SavingsTransaction.row)
| DeleteTx (s : session) (w : SavingsTransaction.row -> bool).

Definition run_tx_statement (st : tx_statement) (d : db) : result outcome :=
  match st with
  | InsertTx s r => insert_savings_transaction s r d
  | DeleteTx s w => delete_savings_transactions s w d
  end.

(** The state after a statement: the new one when it commits, the old one
    when it raises. *)
Definition after (st : tx_statement) (d : db) : db :=
  match run_tx_statement st d with
  | Ok o => state o
  | Err _ => d
  end.

(** The states reached after each statement of a sequence. *)
Fixpoint history (sts : list tx_statement) (d : db) : list db :=
  match sts with
  | [] => []
  | st :: sts' => after st d :: history sts' (after st d)
  end.

(** The caller's profile and its role. *)
Definition profile_of (d : db) (u : uuid) : option Profile.row :=
  find (fun p => String.eqb (Profile.user_id p) u) (profiles d).

Definition caller_role (d : db) (uid : option uuid) : option string :=
  match uid with
  | Some u => option_map Profile.role (profile_of d u)
  | None => None
  end.

(** The goal a transaction refers to. *)
Definition goal_of (d : db) (t : SavingsTransaction.row) : option SavingsGoal.row :=
  find (fun g => String.eqb (SavingsGoal.id g) (SavingsTransaction.savings_goal_id t))
       (savings_goals d).

(** ** Ownership isolation, stated once for the owner-scoped tables *)

(** Under [B]'s session, the rows of [table] owned by [A] are out of reach
    of the four statements. *)
Definition isolates {R : Type} (owner : R -> uuid) (table : db -> list R)
    (sel : session -> (R -> bool) -> db -> list R)
    (ins : session -> R -> db -> result outcome)
    (upd : session -> (R -> bool) -> (R -> R) -> db -> result outcome)
    (del : session -> (R -> bool) -> db -> result outcome)
    (A B : uuid) (d : db) : Prop :=
  (forall r w, In r (table d) -> owner r = A ->
     ~ In r (sel (Rls (Some B)) w d))
  /\ (forall w set,
        (forall x, In x (table d) -> w x = true -> owner x = A) ->
        upd (Rls (Some B)) w set d = Ok (unchanged d))
  /\ (forall w,
        (forall x, In x (table d) -> w x = true -> owner x = A) ->
        del (Rls (Some B)) w d = Ok (unchanged d))
  /\ (forall r, owner r <> B -> exists e, ins (Rls (Some B)) r d = Err e).

(** ** A small database used to exercise the statements *)

Module Demo.
Definition user (i e : string) : AuthUser.row :=
  {| AuthUser.id := i; AuthUser.email := e; AuthUser.raw_user_meta_data := ∅ |}.

Definition profile (i u n r : string) : Profile.row :=
  {| Profile.id := i; Profile.user_id := u; Profile.full_name := n;
     Profile.role := r |}.

Definition income (i u : string) (a : Z) : IncomeRecord.row :=
  {| IncomeRecord.id := i; IncomeRecord.user_id := u;
     IncomeRecord.quarter := Q1; IncomeRecord.year := 2025;
     IncomeRecord.amount := a; IncomeRecord.currency := USD;
     IncomeRecord.source := Some "salary"; IncomeRecord.description := None |}.

Definition expense (i u c : string) (a : Z) : ExpenseRecord.row :=
  {| ExpenseRecord.id := i; ExpenseRecord.user_id := u;
     ExpenseRecord.category_id := c; ExpenseRecord.quarter := Q1;
     ExpenseRecord.year := 2025; ExpenseRecord.amount := a;
     ExpenseRecord.currency := GHS; ExpenseRecord.description := None;
     ExpenseRecord.expense_date := "2025-07-22" |}.

Definition goal (i u : string) (current : Z) : SavingsGoal.row :=
  {| SavingsGoal.id := i; SavingsGoal.user_id := u;
     SavingsGoal.name := "Trip"; SavingsGoal.target_amount := 500000;
     SavingsGoal.current_amount := current; SavingsGoal.currency := USD;
     SavingsGoal.target_date := None; SavingsGoal.goal_type := "vacation";
     SavingsGoal.description := None; SavingsGoal.is_active := true |}.

Definition tx (i g ty : string) (a : Z) : SavingsTransaction.row :=
  {| SavingsTransaction.id := i; SavingsTransaction.savings_goal_id := g;
     SavingsTransaction.amount := a;
     SavingsTransaction.transaction_type := ty;
     SavingsTransaction.description := None;
     SavingsTransaction.transaction_date := 9334 |}.

(** Three identities with their profiles, and one goal of ["A"] that has
    not seen any transaction yet. *)
Definition fresh : db :=
  {| auth_users := [ user "A" "ama@example.com"; user "B" "kofi@example.com";
                     user "R" "admin@fms.com" ];
     profiles := [ profile "pA" "A" "Ama" "user"; profile "pB" "B" "Kofi" "user";
                   profile "pR" "R" "Root" "admin" ];
     income_records := [ income "i1" "A" 250000 ];
     expense_categories :=
       [ {| ExpenseCategory.id := "c1"; ExpenseCategory.name := "Housing";
            ExpenseCategory.description := Some "Rent, utilities, maintenance" |} ];
     expense_records := [ expense "e1" "A" "c1" 120000 ];
     savings_goals := [ goal "g1" "A" 0 ];
     savings_transactions := [];
     currency_rates :=
       [ {| CurrencyRate.id := "r1"; CurrencyRate.from_currency := USD;
            CurrencyRate.to_currency := GHS; CurrencyRate.rate := 12000000;
            CurrencyRate.date := 9334 |} ] |}.

(** The same after a deposit of 100.00 and a withdrawal of 30.00. *)
Definition used : db :=
  set_savings_transactions
    [ tx "t1" "g1" "deposit" 10000; tx "t2" "g1" "withdrawal" 3000 ]
    (set_savings_goals [ goal "g1" "A" 7000 ] fresh).

(** In between: the deposit alone. *)
Definition deposited : db :=
  set_savings_transactions [ tx "t1" "g1" "deposit" 10000 ]
    (set_savings_goals [ goal "g1" "A" 10000 ] fresh).

Definition by_id {R} (key : R -> uuid) (i : uuid) (r : R) : bool :=
  String.eqb (key r) i.

(** Deposit 100.00, withdraw 30.00, then remove the withdrawal. *)
Definition statements : list tx_statement :=
  [ InsertTx (Rls (Some "A")) (tx "t1" "g1" "deposit" 10000);
    InsertTx (Rls (Some "A")) (tx "t2" "g1" "withdrawal" 3000);
    DeleteTx BypassRls (by_id SavingsTransaction.id "t2") ].

(** A signup whose metadata asks for the admin role, and its twin that
    asks for the user role. *)
Definition signup (r : string) : AuthUser.row :=
  {| AuthUser.id := "N"; AuthUser.email := "esi@example.com";
     AuthUser.raw_user_meta_data := {[ "full_name" := "Esi"; "role" := r ]} |}.

Definition goal_form : GoalForm.data :=
  {| GoalForm.name := "Trip"; GoalForm.target_amount := "6000";
     GoalForm.currency := USD; GoalForm.target_date := "";
     GoalForm.goal_type := "vacation"; GoalForm.description := "" |}.

End Demo.

(** The decisions of the policy layer on a reference table, for a caller
    under row-level security: reading is free, writing needs [admin]. *)
Definition admin_managed {R : Type} (pols : list (policy R)) (d : db)
    (uid : option uuid) : Prop :=
  (forall r, can_select pols (Rls uid) d r = true)
  /\ (forall r, can_insert pols (Rls uid) d r = true
                <-> caller_role d uid = Some "admin")
  /\ (forall r, can_update pols (Rls uid) d r = true
                <-> caller_role d uid = Some "admin")
  /\ (forall r, can_write_updated pols (Rls uid) d r = true
                <-> caller_role d uid = Some "admin")
  /\ (forall r, can_delete pols (Rls uid) d r = true
                <-> caller_role d uid = Some "admin").

(** ** Bookkeeping used to state what the balance trigger does *)

(** One invocation of the trigger on one goal row: the rows with identifier
    [gid] move by [delta]. *)
Definition adjust (gid : uuid) (delta : Z) (g : SavingsGoal.row) : SavingsGoal.row :=
  if String.eqb (SavingsGoal.id g) gid
  then with_current_amount (SavingsGoal.current_amount g + delta) g
  else g.

(** Signed sum of the transactions of a goal in a list of rows. *)
Definition signed_total (g : uuid) (l : list SavingsTransaction.row) : Z :=
  fold_right (fun t acc => (if of_goal g t then signed_amount t else 0) + acc) 0 l.

(** ** The other pages *)

Module IncomeForm.
(** [formData] of the income page. *)
Record data := {
  quarter : quarter_period;
  year : Z;
  amount : string;
  currency : currency_type;
  source : string;
  description : string;
}.
End IncomeForm.

Module ExpenseForm.
(** [formData] of the expenses page. *)
Record data := {
  category_id : string;
  quarter : quarter_period;
  year : Z;
  amount : string;
  currency : currency_type;
  description : string;
  expense_date : string;
}.
End ExpenseForm.

(** [ORDER BY]: the rows come back in an order that agrees with [le].
    Among rows that [le] does not tell apart the engine is free; the
    insertion below leaves them as it finds them. *)
Fixpoint insert_sorted {R : Type} (le : R -> R -> bool) (x : R) (l : list R)
    : list R :=
  match l with
  | [] => [x]
  | y :: l' => if le x y then x :: l else y :: insert_sorted le x l'
  end.

Definition order_by {R : Type} (le : R -> R -> bool) (l : list R) : list R :=
  fold_right (insert_sorted le) [] l.

(** [.order('created_at', { ascending: false })]. The rows above do not
    carry [created_at]; a query that sorts on it takes the column as
    [created_at], the instant at which each stored row was inserted. *)
Definition newest_first {R : Type} (created_at : R -> Z) (a b : R) : bool :=
  created_at b <=? created_at a.

(** The income page. [to_numeric] is, as on the savings page, what the
    server stores for [parseFloat(text)]. *)
Module IncomePage.
Definition recordData_set (user : uuid) (f : IncomeForm.data) (a : Z)
    (r : IncomeRecord.row) : IncomeRecord.row :=
  {| IncomeRecord.id := IncomeRecord.id r;
     IncomeRecord.user_id := user;
     IncomeRecord.quarter := IncomeForm.quarter f;
     IncomeRecord.year := IncomeForm.year f;
     IncomeRecord.amount := a;
     IncomeRecord.currency := IncomeForm.currency f;
     IncomeRecord.source := Some (IncomeForm.source f);
     IncomeRecord.description := Some (IncomeForm.description f) |}.

Definition recordData_row (user : uuid) (f : IncomeForm.data) (a : Z)
    (gen_random_uuid : uuid) : IncomeRecord.row :=
  {| IncomeRecord.id := gen_random_uuid;
     IncomeRecord.user_id := user;
     IncomeRecord.quarter := IncomeForm.quarter f;
     IncomeRecord.year := IncomeForm.year f;
     IncomeRecord.amount := a;
     IncomeRecord.currency := IncomeForm.currency f;
     IncomeRecord.source := Some (IncomeForm.source f);
     IncomeRecord.description := Some (IncomeForm.description f) |}.

(** [fetchIncomeRecords] *)
Definition fetchIncomeRecords (created_at : IncomeRecord.row -> Z) (user : uuid)
    (d : db) : list IncomeRecord.row :=
  order_by (newest_first created_at)
    (select_income_records (Rls (Some user))
       (fun r => String.eqb (IncomeRecord.user_id r) user) d).

(** [handleSubmit] *)
Definition handleSubmit (to_numeric : string -> option Z) (user : uuid)
    (f : IncomeForm.data) (editingRecord : option IncomeRecord.row)
    (gen_random_uuid : uuid) (d : db) : result outcome :=
  if falsy (IncomeForm.amount f) || falsy (IncomeForm.source f) then
    Ok (unchanged d)
  else
    match to_numeric (IncomeForm.amount f) with
    | None => Err ConstraintViolation
    | Some a =>
        match editingRecord with
        | Some r =>
            update_income_records (Rls (Some user))
              (fun x => String.eqb (IncomeRecord.id x) (IncomeRecord.id r))
              (recordData_set user f a) d
        | None =>
            insert_income_record (Rls (Some user))
              (recordData_row user f a gen_random_uuid) d
        end
    end.

(** [handleDelete] *)
Definition handleDelete (user : uuid) (id : uuid) (d : db) : result outcome :=
  delete_income_records (Rls (Some user))
    (fun r => String.eqb (IncomeRecord.id r) id) d.
End IncomePage.

(** The expenses page. *)
Module ExpensesPage.
Definition recordData_set (user : uuid) (f : ExpenseForm.data) (a : Z)
    (r : ExpenseRecord.row) : ExpenseRecord.row :=
  {| ExpenseRecord.id := ExpenseRecord.id r;
     ExpenseRecord.user_id := user;
     ExpenseRecord.category_id := ExpenseForm.category_id f;
     ExpenseRecord.quarter := ExpenseForm.quarter f;
     ExpenseRecord.year := ExpenseForm.year f;
     ExpenseRecord.amount := a;
     ExpenseRecord.currency := ExpenseForm.currency f;
     ExpenseRecord.description := Some (ExpenseForm.description f);
     ExpenseRecord.expense_date := ExpenseForm.expense_date f |}.

Definition recordData_row (user : uuid) (f : ExpenseForm.data) (a : Z)
    (gen_random_uuid : uuid) : ExpenseRecord.row :=
  {| ExpenseRecord.id := gen_random_uuid;
     ExpenseRecord.user_id := user;
     ExpenseRecord.category_id := ExpenseForm.category_id f;
     ExpenseRecord.quarter := ExpenseForm.quarter f;
     ExpenseRecord.year := ExpenseForm.year f;
     ExpenseRecord.amount := a;
     ExpenseRecord.currency := ExpenseForm.currency f;
     ExpenseRecord.description := Some (ExpenseForm.description f);
     ExpenseRecord.expense_date := ExpenseForm.expense_date f |}.

(** [fetchCategories]: [.order('name')] sorts by the collation of the
    column, [collate a b] telling whether [a] comes no later than [b]. *)
Definition fetchCategories (collate : string -> string -> bool) (user : uuid)
    (d : db) : result (list ExpenseCategory.row) :=
  let* rows := select_expense_categories (Rls (Some user)) (fun _ => true) d in
  Ok (order_by (fun a b => collate (ExpenseCategory.name a) (ExpenseCategory.name b))
        rows).

(** [fetchExpenseRecords]: one query that reads [expense_records] and, for
    the embedded [expense_categories (name)], [expense_categories]; every
    record comes with the name of its category as the caller may read
    it. *)
Definition fetchExpenseRecords (created_at : ExpenseRecord.row -> Z)
    (user : uuid) (d : db) : result (list (ExpenseRecord.row * option string)) :=
  let* categories :=
    select_expense_categories (Rls (Some user)) (fun _ => true) d in
  Ok (map (fun r =>
             (r, option_map ExpenseCategory.name
                   (find (fun c => String.eqb (ExpenseCategory.id c)
                                              (ExpenseRecord.category_id r))
                         categories)))
          (order_by (newest_first created_at)
             (select_expense_records (Rls (Some user))
                (fun r => String.eqb (ExpenseRecord.user_id r) user) d))).

(** [handleSubmit] *)
Definition handleSubmit (to_numeric : string -> option Z) (user : uuid)
    (f : ExpenseForm.data) (editingRecord : option ExpenseRecord.row)
    (gen_random_uuid : uuid) (d : db) : result outcome :=
  if falsy (ExpenseForm.amount f) || falsy (ExpenseForm.category_id f) then
    Ok (unchanged d)
  else
    match to_numeric (ExpenseForm.amount f) with
    | None => Err ConstraintViolation
    | Some a =>
        match editingRecord with
        | Some r =>
            update_expense_records (Rls (Some user))
              (fun x => String.eqb (ExpenseRecord.id x) (ExpenseRecord.id r))
              (recordData_set user f a) d
        | None =>
            insert_expense_record (Rls (Some user))
              (recordData_row user f a gen_random_uuid) d
        end
    end.

(** [handleDelete] *)
Definition handleDelete (user : uuid) (id : uuid) (d : db) : result outcome :=
  delete_expense_records (Rls (Some user))
    (fun r => String.eqb (ExpenseRecord.id r) id) d.
End ExpensesPage.

(** The three queries of [fetchDashboardData]; the totals the page derives
    from them are floating-point sums and stay outside. The queries ask
    for no order: the rows are given as stored, and nothing below relies
    on that. *)
Module DashboardPage.
Definition incomeData (user : uuid) (selectedQuarter : quarter_period)
    (selectedYear : Z) (selectedCurrency : currency_type) (d : db) : list Z :=
  map IncomeRecord.amount
    (select_income_records (Rls (Some user))
       (fun r => String.eqb (IncomeRecord.user_id r) user
                 && quarter_eqb (IncomeRecord.quarter r) selectedQuarter
                 && Z.eqb (IncomeRecord.year r) selectedYear
                 && currency_eqb (IncomeRecord.currency r) selectedCurrency) d).

Definition expenseData (user : uuid) (selectedQuarter : quarter_period)
    (selectedYear : Z) (selectedCurrency : currency_type) (d : db) : list Z :=
  map ExpenseRecord.amount
    (select_expense_records (Rls (Some user))
       (fun r => String.eqb (ExpenseRecord.user_id r) user
                 && quarter_eqb (ExpenseRecord.quarter r) selectedQuarter
                 && Z.eqb (ExpenseRecord.year r) selectedYear
                 && currency_eqb (ExpenseRecord.currency r) selectedCurrency) d).

Definition goalsData (user : uuid) (selectedCurrency : currency_type) (d : db)
    : list SavingsGoal.row :=
  select_savings_goals (Rls (Some user))
    (fun g => String.eqb (SavingsGoal.user_id g) user
              && Bool.eqb (SavingsGoal.is_active g) true
              && currency_eqb (SavingsGoal.currency g) selectedCurrency) d.
End DashboardPage.

(** [fetchSavingsGoals] of the savings page. *)
Definition fetchSavingsGoals (created_at : SavingsGoal.row -> Z) (user : uuid)
    (d : db) : list SavingsGoal.row :=
  order_by (newest_first created_at)
    (select_savings_goals (Rls (Some user))
       (fun g => String.eqb (SavingsGoal.user_id g) user) d).

(** [fetchUsers] of the admin page; the route only asks for a signed-in
    user. *)
Definition fetchUsers (created_at : Profile.row -> Z) (user : uuid) (d : db)
    : result (list Profile.row) :=
  let* rows := select_profiles (Rls (Some user)) (fun _ => true) d in
  Ok (order_by (newest_first created_at) rows).

(** ** Sequences of actions *)

(** What a signed-in user can do on the savings page. *)
Inductive savings_action :=
| GoalSubmit (user : uuid) (f : GoalForm.data)
    (editingGoal : option SavingsGoal.row) (gen_random_uuid : uuid)
| TransactionSubmit (user : uuid) (f : TransactionForm.data)
    (selectedGoal : option SavingsGoal.row) (gen_random_uuid : uuid)
| DeleteGoal (user : uuid) (id : uuid).

Definition run_savings_action (to_numeric : string -> option Z)
    (to_date : string -> option date) (a : savings_action) (d : db)
    : result outcome :=
  match a with
  | GoalSubmit user f editingGoal gen =>
      handleGoalSubmit to_numeric user f editingGoal gen d
  | TransactionSubmit user f selectedGoal gen =>
      handleTransactionSubmit to_numeric to_date user f selectedGoal gen d
  | DeleteGoal user id => handleDeleteGoal user id d
  end.

(** The state after a run of actions; a failed one leaves the state. *)
Fixpoint after_savings_actions (to_numeric : string -> option Z)
    (to_date : string -> option date) (l : list savings_action) (d : db) : db :=
  match l with
  | [] => d
  | a :: l' =>
      after_savings_actions to_numeric to_date l'
        match run_savings_action to_numeric to_date a d with
        | Ok o => state o
        | Err _ => d
        end
  end.

(** Identity-creation events, each with the profile id drawn for it. *)
Fixpoint after_signups (l : list (AuthUser.row * uuid)) (d : db) : db :=
  match l with
  | [] => d
  | (NEW, gen) :: l' =>
      after_signups l'
        match insert_auth_user NEW gen d with
        | Ok o => state o
        | Err _ => d
        end
  end.

(** Every goal shows the balance of its transactions. *)
Definition balances_ok (d : db) : Prop := forall g, balance_ok g d.

(** Profiles and identities go in step: same order, same identity, and the
    role the provisioning hook derives from the email. *)
Definition provisioned_role (u : AuthUser.row) : string :=
  if String.eqb (AuthUser.email u) "admin@fms.com" then "admin" else "user".

Definition in_step (d : db) : Prop :=
  map Profile.user_id (profiles d) = map AuthUser.id (auth_users d).

(** The pairs (identity, role) of the profiles are the ones the hook
    derives from the identities, in the same order. *)
Definition as_provisioned (d : db) : Prop :=
  map (fun p => (Profile.user_id p, Profile.role p)) (profiles d)
  = map (fun u => (AuthUser.id u, provisioned_role u)) (auth_users d).

(** The same transaction booked the other way round: the other type with
    the opposite amount. *)
Definition mirrored (t : SavingsTransaction.row) : SavingsTransaction.row :=
  {| SavingsTransaction.id := SavingsTransaction.id t;
     SavingsTransaction.savings_goal_id := SavingsTransaction.savings_goal_id t;
     SavingsTransaction.amount := - SavingsTransaction.amount t;
     SavingsTransaction.transaction_type :=
       if String.eqb (SavingsTransaction.transaction_type t) "deposit"
       then "withdrawal" else "deposit";
     SavingsTransaction.description := SavingsTransaction.description t;
     SavingsTransaction.transaction_date := SavingsTransaction.transaction_date t |}.

(** ** More data for the small database *)

Module DemoPages.
Definition transaction_form : TransactionForm.data :=
  {| TransactionForm.amount := "6000";
     TransactionForm.transaction_type := "deposit";
     TransactionForm.description := "";
     TransactionForm.transaction_date := "2025-07-22" |}.

(** Kofi opens a goal, Ama deposits into hers and then deletes it. *)
Definition afternoon : list savings_action :=
  [ GoalSubmit "B" Demo.goal_form None "g2";
    TransactionSubmit "A" transaction_form (Some (Demo.goal "g1" "A" 0)) "t1";
    DeleteGoal "A" "g1" ].

Definition income_form : IncomeForm.data :=
  {| IncomeForm.quarter := Q2; IncomeForm.year := 2025;
     IncomeForm.amount := "6000"; IncomeForm.currency := GHS;
     IncomeForm.source := "bonus"; IncomeForm.description := "" |}.
End DemoPages.

(** ** What a caller's statements leave alone *)

(** The rows of [table] that do not belong to [U] are the same after any
    committed INSERT, UPDATE or DELETE issued under [U]'s session. *)
Definition leaves_others {R : Type} (owner : R -> uuid) (table : db -> list R)
    (ins : session -> R -> db -> result outcome)
    (upd : session -> (R -> bool) -> (R -> R) -> db -> result outcome)
    (del : session -> (R -> bool) -> db -> result outcome)
    (U : uuid) (d : db) : Prop :=
  (forall r o, ins (Rls (Some U)) r d = Ok o ->
     List.filter (fun x => negb (String.eqb (owner x) U)) (table (state o))
     = List.filter (fun x => negb (String.eqb (owner x) U)) (table d))
  /\ (forall w set o, upd (Rls (Some U)) w set d = Ok o ->
        List.filter (fun x => negb (String.eqb (owner x) U)) (table (state o))
        = List.filter (fun x => negb (String.eqb (owner x) U)) (table d))
  /\ (forall w o, del (Rls (Some U)) w d = Ok o ->
        List.filter (fun x => negb (String.eqb (owner x) U)) (table (state o))
        = List.filter (fun x => negb (String.eqb (owner x) U)) (table d)).

(** * Properties *)

(** ** Basic facts *)

Lemma set_income_records_same d : set_income_records (income_records d) d = d.
Proof. now destruct d. Qed.

Lemma set_expense_records_same d : set_expense_records (expense_records d) d = d.
Proof. now destruct d. Qed.

Lemma set_savings_goals_same d : set_savings_goals (savings_goals d) d = d.
Proof. now destruct d. Qed.

Lemma set_savings_transactions_same d :
  set_savings_transactions (savings_transactions d) d = d.
Proof. now destruct d. Qed.

Lemma set_profiles_same d : set_profiles (profiles d) d = d.
Proof. now destruct d. Qed.

Lemma mem_In x l : mem x l = true <-> In x l.
Proof.
  unfold mem. rewrite existsb_exists. split.
  - intros (y & Hy & E). apply String.eqb_eq in E. now subst.
  - intros H. exists x. split; [assumption | apply String.eqb_refl].
Qed.

Lemma mem_app x l1 l2 : mem x (l1 ++ l2) = mem x l1 || mem x l2.
Proof. unfold mem. apply existsb_app. Qed.

Lemma distinct_NoDup l : distinct l = true <-> List.NoDup l.
Proof.
  induction l as [|x l IH]; simpl.
  - split; [constructor | reflexivity].
  - rewrite andb_true_iff, negb_true_iff, IH. split.
    + intros [Hm Hd]. constructor; [|assumption].
      intros Hin. apply mem_In in Hin. congruence.
    + intros H. inversion H as [|? ? Hn Hd]; subst. split; [|assumption].
      destruct (mem x l) eqn:E; [|reflexivity].
      apply mem_In in E. contradiction.
Qed.

Lemma distinct_snoc l x :
  distinct (l ++ [x]) = distinct l && negb (mem x l).
Proof.
  induction l as [|y l IH]; simpl.
  - reflexivity.
  - rewrite IH, mem_app. simpl. rewrite orb_false_r.
    rewrite (String.eqb_sym x y).
    destruct (mem y l), (String.eqb y x), (distinct l), (mem x l); reflexivity.
Qed.

Lemma sql_eq_some a b : is_true (sql_eq (Some a) (Some b)) = String.eqb a b.
Proof. simpl. now destruct (String.eqb a b). Qed.

Lemma is_true_Some b : is_true (Some b) = b.
Proof. now destruct b. Qed.

Lemma is_true_sql_and a b : is_true (sql_and a b) = is_true a && is_true b.
Proof. destruct a as [[|]|], b as [[|]|]; reflexivity. Qed.

(** ** Expansion of the policies *)

Lemma relname_eqb_eq a b : relname_eqb a b = true <-> a = b.
Proof. destruct a, b; simpl; split; congruence. Qed.

Lemma active_In t active : existsb (relname_eqb t) active = true <-> In t active.
Proof.
  rewrite existsb_exists. split.
  - intros (x & Hx & E). apply relname_eqb_eq in E. now subst.
  - intros H. exists t. split; [assumption | now apply relname_eqb_eq].
Qed.

Lemma all_relnames_complete t : In t all_relnames.
Proof. destruct t; simpl; tauto. Qed.

(** Once every relation is being expanded, any further one is met again. *)
Lemma active_full (active : list relname) (t : relname) :
  List.NoDup active -> (length all_relnames <= length active)%nat -> In t active.
Proof.
  intros Hnd Hlen.
  assert (Hinc : incl all_relnames active).
  { apply (List.NoDup_length_incl Hnd Hlen). intros x _. apply all_relnames_complete. }
  apply Hinc, all_relnames_complete.
Qed.

Lemma expands_S n active cs t :
  expands (S n) active cs t
  = match sublinks_of cs t with
    | [] => true
    | subs => negb (existsb (relname_eqb t) active)
              && forallb (expands n (t :: active) [SELECT]) subs
    end.
Proof. reflexivity. Qed.

Lemma forallb_same {R} (f g : R -> bool) l :
  (forall x, f x = g x) -> forallb f l = forallb g l.
Proof.
  intros H. induction l as [|x l IH]; cbn [forallb]; [reflexivity|].
  now rewrite H, IH.
Qed.

(** The bound on the depth is not felt: with the relations in [active]
    counted in, more fuel gives the same answer. *)
Lemma expands_fuel n : forall active cs t,
  List.NoDup active ->
  (length all_relnames <= n + length active)%nat ->
  expands (S n) active cs t = expands n active cs t.
Proof.
  induction n as [|n IH]; intros active cs t Hnd Hlen.
  - cbn [expands]. destruct (sublinks_of cs t) as [|x subs]; [reflexivity|].
    assert (In t active) as Hin by (apply active_full; [assumption | lia]).
    apply active_In in Hin. rewrite Hin. reflexivity.
  - rewrite (expands_S (S n)), (expands_S n).
    destruct (sublinks_of cs t) as [|x subs]; [reflexivity|].
    destruct (existsb (relname_eqb t) active) eqn:E; [reflexivity|].
    cbn [negb andb]. apply forallb_same. intros y. apply IH.
    + constructor; [|assumption]. intros Hin. apply active_In in Hin. congruence.
    + cbn [length]. lia.
Qed.

Lemma expands_more_fuel k cs t :
  expands (k + length all_relnames) [] cs t = expands (length all_relnames) [] cs t.
Proof.
  induction k as [|k IH]; [reflexivity|].
  cbn [Nat.add]. rewrite expands_fuel; [exact IH | constructor | cbn [length]; lia].
Qed.

(** The catalogue, read off the policies. *)
Lemma pg_policies_profiles :
  pg_policies PROFILES
  = [ (FOR_SELECT, []); (FOR_UPDATE, []); (FOR_SELECT, [PROFILES]);
      (FOR_INSERT, [PROFILES]) ].
Proof. reflexivity. Qed.

Lemma pg_policies_expense_categories :
  pg_policies EXPENSE_CATEGORIES = [ (FOR_SELECT, []); (FOR_ALL, [PROFILES]) ].
Proof. reflexivity. Qed.

Lemma pg_policies_currency_rates :
  pg_policies CURRENCY_RATES = [ (FOR_SELECT, []); (FOR_ALL, [PROFILES]) ].
Proof. reflexivity. Qed.

Lemma sublinks_of_none cs t :
  (forall p, In p (pg_policies t) -> snd p = []) -> sublinks_of cs t = [].
Proof.
  intros H. unfold sublinks_of. induction (pg_policies t) as [|p l IH];
    cbn [List.filter flat_map]; [reflexivity|].
  assert (IH' := IH (fun q Hq => H q (or_intror Hq))).
  destruct (existsb _ cs); [|exact IH'].
  cbn [flat_map]. now rewrite (H p (or_introl eq_refl)), IH'.
Qed.

Lemma sublinks_of_within cs t x :
  In x (sublinks_of cs t) -> exists p, In p (pg_policies t) /\ In x (snd p).
Proof.
  unfold sublinks_of. intros H. apply in_flat_map in H.
  destruct H as (p & Hp & Hx). apply filter_In in Hp. exists p. tauto.
Qed.

(** The policies of the four owner-scoped relations expand for every
    statement: the statements on these relations never raise the
    recursion error. *)
Lemma owner_relations_expand s cs t :
  In t [INCOME_RECORDS; EXPENSE_RECORDS; SAVINGS_GOALS; SAVINGS_TRANSACTIONS] ->
  rewrite_policies s cs t = Ok tt.
Proof.
  intros Ht. destruct s as [uid|]; [|reflexivity].
  unfold rewrite_policies.
  assert (E : expands (length all_relnames) [] cs t = true); [|now rewrite E].
  assert (Hgoals : forall n active cs', expands n active cs' SAVINGS_GOALS = true).
  { intros n active cs'. destruct n; cbn [expands];
      rewrite sublinks_of_none; try reflexivity;
      intros p Hp; cbn in Hp; intuition (subst; reflexivity). }
  cbn [In] in Ht. destruct Ht as [<- | [<- | [<- | [<- | []]]]].
  - cbn [length all_relnames expands]. rewrite sublinks_of_none; [reflexivity|].
    intros p Hp; cbn in Hp; intuition (subst; reflexivity).
  - cbn [length all_relnames expands]. rewrite sublinks_of_none; [reflexivity|].
    intros p Hp; cbn in Hp; intuition (subst; reflexivity).
  - apply Hgoals.
  - change (length all_relnames) with 7%nat. rewrite expands_S.
    destruct (sublinks_of cs SAVINGS_TRANSACTIONS) as [|x subs] eqn:S; [reflexivity|].
    cbn [existsb negb andb]. rewrite <- S. apply forallb_forall. intros y Hy.
    apply sublinks_of_within in Hy. destruct Hy as (p & Hp & Hy).
    cbn in Hp. destruct Hp as [<- | [<- | []]]; cbn in Hy;
      destruct Hy as [<- | []]; apply Hgoals.
Qed.

(** The policy "Admins can view all profiles" reads [profiles] in a
    sub-select, and so does every policy that asks whether the caller is an
    admin: whatever reaches one of them ends in [profiles] being expanded
    inside its own expansion. *)
Lemma profiles_recursion uid cs :
  In SELECT cs \/ In INSERT cs ->
  rewrite_policies (Rls uid) cs PROFILES = Err InfiniteRecursion.
Proof.
  intros H. unfold rewrite_policies.
  assert (E : expands (length all_relnames) [] cs PROFILES = false);
    [|now rewrite E].
  assert (Hs : forall x, In x (sublinks_of cs PROFILES) -> x = PROFILES).
  { intros x Hx. apply sublinks_of_within in Hx. destruct Hx as (p & Hp & Hx).
    cbn in Hp. destruct Hp as [<- | [<- | [<- | [<- | []]]]]; cbn in Hx;
      intuition. }
  assert (Hne : sublinks_of cs PROFILES <> []).
  { unfold sublinks_of. rewrite pg_policies_profiles.
    assert (Hsel : forall c, In c cs -> existsb (applies (policy_for_of c)) cs = true)
      by (intros c Hc; apply existsb_exists; exists c; split;
          [assumption | destruct c; reflexivity]).
    destruct H as [H | H].
    - pose proof (Hsel SELECT H) as E1. cbn [policy_for_of] in E1.
      cbn [List.filter fst]. rewrite E1.
      destruct (existsb (applies FOR_UPDATE) cs);
        destruct (existsb (applies FOR_INSERT) cs); cbn; discriminate.
    - pose proof (Hsel INSERT H) as E1. cbn [policy_for_of] in E1.
      cbn [List.filter fst]. rewrite E1.
      destruct (existsb (applies FOR_SELECT) cs);
        destruct (existsb (applies FOR_UPDATE) cs); cbn; discriminate. }
  change (length all_relnames) with 7%nat. rewrite expands_S.
  destruct (sublinks_of cs PROFILES) as [|x subs] eqn:S; [congruence|].
  cbn [existsb negb andb forallb].
  assert (x = PROFILES) as -> by (apply Hs; now left).
  assert (expands 6 [PROFILES] [SELECT] PROFILES = false) as -> by reflexivity.
  reflexivity.
Qed.

Lemma reference_recursion uid c cs t :
  t = EXPENSE_CATEGORIES \/ t = CURRENCY_RATES ->
  rewrite_policies (Rls uid) (c :: cs) t = Err InfiniteRecursion.
Proof.
  intros Ht. unfold rewrite_policies.
  assert (S : sublinks_of (c :: cs) t = [PROFILES]).
  { unfold sublinks_of.
    destruct Ht as [-> | ->];
      rewrite ?pg_policies_expense_categories, ?pg_policies_currency_rates;
      cbn [List.filter fst existsb applies orb];
      destruct (_ || _); reflexivity. }
  change (length all_relnames) with 7%nat. rewrite expands_S, S.
  destruct Ht as [-> | ->]; reflexivity.
Qed.

Lemma profiles_unread_update_expands s :
  rewrite_policies s rights_update_unread PROFILES = Ok tt.
Proof. destruct s; reflexivity. Qed.

(** ** The engine on rows it may not touch *)

Section EngineFacts.
Context {R : Type}.
Variable pols : list (policy R).

Lemma rls_update_untouched s d w set t :
  (forall r, In r t -> w r && can_update pols s d r = false) ->
  rls_update pols s d w set t = Ok (t, []).
Proof.
  induction t as [|r t IH]; intros H; simpl.
  - reflexivity.
  - rewrite (H r (or_introl eq_refl)).
    rewrite IH by (intros x Hx; apply H; now right). reflexivity.
Qed.

Lemma filter_all (f : R -> bool) t :
  (forall r, In r t -> f r = true) -> List.filter f t = t.
Proof.
  induction t as [|r t IH]; intros H; simpl.
  - reflexivity.
  - rewrite (H r (or_introl eq_refl)). f_equal. apply IH.
    intros x Hx. apply H. now right.
Qed.

Lemma filter_none (f : R -> bool) t :
  (forall r, In r t -> f r = false) -> List.filter f t = [].
Proof.
  induction t as [|r t IH]; intros H; simpl.
  - reflexivity.
  - rewrite (H r (or_introl eq_refl)). apply IH.
    intros x Hx. apply H. now right.
Qed.

Lemma rls_delete_untouched s d w t :
  (forall r, In r t -> w r && can_delete pols s d r = false) ->
  rls_delete pols s d w t = (t, []).
Proof.
  intros H. unfold rls_delete. f_equal.
  - apply filter_all. intros r Hr. now rewrite (H r Hr).
  - apply filter_none. exact H.
Qed.

Lemma rls_select_hidden s d w t r :
  can_select pols s d r = false -> ~ In r (rls_select pols s d w t).
Proof.
  intros H Hin. unfold rls_select in Hin. apply filter_In in Hin.
  destruct Hin as [_ Hin]. rewrite H, andb_false_r in Hin. discriminate.
Qed.
End EngineFacts.

(** ** What the owner-only policies decide *)

Lemma income_using c d B r :
  using_ok income_records_policies c d (Some B) r
  = match c with INSERT => true | _ => String.eqb B (IncomeRecord.user_id r) end.
Proof.
  unfold using_ok, income_records_policies, using_qual; simpl.
  destruct c; simpl; destruct (String.eqb B (IncomeRecord.user_id r)); reflexivity.
Qed.

Lemma income_check d B r :
  check_ok income_records_policies INSERT d (Some B) r
  = String.eqb B (IncomeRecord.user_id r).
Proof.
  unfold check_ok, income_records_policies, check_qual; simpl.
  destruct (String.eqb B (IncomeRecord.user_id r)); reflexivity.
Qed.

Lemma expense_using c d B r :
  using_ok expense_records_policies c d (Some B) r
  = match c with INSERT => true | _ => String.eqb B (ExpenseRecord.user_id r) end.
Proof.
  unfold using_ok, expense_records_policies, using_qual; simpl.
  destruct c; simpl; destruct (String.eqb B (ExpenseRecord.user_id r)); reflexivity.
Qed.

Lemma expense_check d B r :
  check_ok expense_records_policies INSERT d (Some B) r
  = String.eqb B (ExpenseRecord.user_id r).
Proof.
  unfold check_ok, expense_records_policies, check_qual; simpl.
  destruct (String.eqb B (ExpenseRecord.user_id r)); reflexivity.
Qed.

Lemma goals_using c d uid r :
  using_ok savings_goals_policies c d uid r
  = match c with
    | INSERT => true
    | _ => is_true (sql_eq uid (Some (SavingsGoal.user_id r)))
    end.
Proof.
  unfold using_ok, savings_goals_policies, using_qual; simpl.
  destruct c; simpl;
    destruct (is_true (sql_eq uid (Some (SavingsGoal.user_id r)))); reflexivity.
Qed.

Lemma goals_check c d uid r :
  c = INSERT \/ c = UPDATE ->
  check_ok savings_goals_policies c d uid r
  = is_true (sql_eq uid (Some (SavingsGoal.user_id r))).
Proof.
  unfold check_ok, savings_goals_policies, check_qual, using_qual.
  intros [-> | ->]; simpl;
    destruct (is_true (sql_eq uid (Some (SavingsGoal.user_id r)))); reflexivity.
Qed.

(** ** Ownership isolation *)

Lemma eqb_other (A B x : uuid) : A <> B -> x = A -> String.eqb B x = false.
Proof. intros Hne ->. apply String.eqb_neq. congruence. Qed.

Lemma income_isolated A B d :
  A <> B -> income_records_constraints d = true ->
  isolates IncomeRecord.user_id income_records select_income_records
    insert_income_record update_income_records delete_income_records A B d.
Proof.
  intros Hne Hc. unfold isolates. repeat split.
  - intros r w _ Hr. apply rls_select_hidden. unfold can_select.
    rewrite income_using. now apply (eqb_other A).
  - intros w set Hw. unfold update_income_records.
    rewrite rls_update_untouched.
    + simpl. rewrite set_income_records_same, Hc. reflexivity.
    + intros x Hx. destruct (w x) eqn:E; [|reflexivity]. unfold can_update, can_delete.
      rewrite !income_using, (eqb_other A B) by auto. reflexivity.
  - intros w Hw. unfold delete_income_records.
    rewrite rls_delete_untouched.
    + simpl. now rewrite set_income_records_same.
    + intros x Hx. destruct (w x) eqn:E; [|reflexivity]. unfold can_update, can_delete.
      rewrite !income_using, (eqb_other A B) by auto. reflexivity.
  - intros r Hr. unfold insert_income_record, rls_insert, can_insert.
    rewrite income_check.
    assert (String.eqb B (IncomeRecord.user_id r) = false) as ->
      by (apply String.eqb_neq; congruence).
    destruct (numeric_15_2 (IncomeRecord.amount r)); simpl; eauto.
Qed.

Lemma expense_isolated A B d :
  A <> B -> expense_records_constraints d = true ->
  isolates ExpenseRecord.user_id expense_records select_expense_records
    insert_expense_record update_expense_records delete_expense_records A B d.
Proof.
  intros Hne Hc. unfold isolates. repeat split.
  - intros r w _ Hr. apply rls_select_hidden. unfold can_select.
    rewrite expense_using. now apply (eqb_other A).
  - intros w set Hw. unfold update_expense_records.
    rewrite rls_update_untouched.
    + simpl. rewrite set_expense_records_same, Hc. reflexivity.
    + intros x Hx. destruct (w x) eqn:E; [|reflexivity]. unfold can_update, can_delete.
      rewrite !expense_using, (eqb_other A B) by auto. reflexivity.
  - intros w Hw. unfold delete_expense_records.
    rewrite rls_delete_untouched.
    + simpl. now rewrite set_expense_records_same.
    + intros x Hx. destruct (w x) eqn:E; [|reflexivity]. unfold can_update, can_delete.
      rewrite !expense_using, (eqb_other A B) by auto. reflexivity.
  - intros r Hr. unfold insert_expense_record, rls_insert, can_insert.
    rewrite expense_check.
    assert (String.eqb B (ExpenseRecord.user_id r) = false) as ->
      by (apply String.eqb_neq; congruence).
    destruct (numeric_15_2 (ExpenseRecord.amount r)); simpl; eauto.
Qed.

Lemma goals_isolated A B d :
  A <> B -> savings_constraints d = true ->
  isolates SavingsGoal.user_id savings_goals select_savings_goals
    insert_savings_goal update_savings_goals delete_savings_goals A B d.
Proof.
  intros Hne Hc. unfold savings_constraints in Hc. unfold isolates. repeat split.
  - intros r w _ Hr. apply rls_select_hidden. unfold can_select.
    rewrite goals_using, sql_eq_some. now apply (eqb_other A).
  - intros w set Hw. unfold update_savings_goals.
    rewrite rls_update_untouched.
    + cbn [bind guard forallb fst snd]. rewrite set_savings_goals_same, Hc.
      reflexivity.
    + intros x Hx. destruct (w x) eqn:E; [|reflexivity]. unfold can_update, can_delete.
      rewrite !goals_using, sql_eq_some, (eqb_other A B) by auto. reflexivity.
  - intros w Hw. unfold delete_savings_goals.
    rewrite (rls_delete_untouched savings_goals_policies).
    + cbv zeta. cbn [fst snd map]. rewrite set_savings_goals_same.
      rewrite (rls_delete_untouched savings_transactions_policies) by reflexivity.
      cbn [fst snd bind fire_on_deleted map length].
      now rewrite set_savings_transactions_same.
    + intros x Hx. destruct (w x) eqn:E; [|reflexivity]. unfold can_update, can_delete.
      rewrite !goals_using, sql_eq_some, (eqb_other A B) by auto. reflexivity.
  - intros r Hr. unfold insert_savings_goal, rls_insert, can_insert.
    rewrite goals_check, sql_eq_some by auto.
    assert (String.eqb B (SavingsGoal.user_id r) = false) as ->
      by (apply String.eqb_neq; congruence).
    destruct (numeric_15_2 (SavingsGoal.target_amount r)
              && numeric_15_2 (SavingsGoal.current_amount r)); simpl; eauto.
Qed.

(** C3. For users [A <> B], every income record, expense record and savings
    goal owned by [A] is out of [B]'s reach: [B]'s SELECT never returns it,
    [B]'s UPDATE and DELETE addressed to [A]'s rows (for instance by their
    identifier) affect zero rows and leave the database as it was, and any
    INSERT by [B] of a row whose owner is not [B] is rejected. *)
Theorem ownership_isolation (A B : uuid) (d : db) :
  A <> B ->
  income_records_constraints d = true ->
  expense_records_constraints d = true ->
  savings_constraints d = true ->
  isolates IncomeRecord.user_id income_records select_income_records
    insert_income_record update_income_records delete_income_records A B d
  /\ isolates ExpenseRecord.user_id expense_records select_expense_records
       insert_expense_record update_expense_records delete_expense_records A B d
  /\ isolates SavingsGoal.user_id savings_goals select_savings_goals
       insert_savings_goal update_savings_goals delete_savings_goals A B d.
Proof.
  intros Hne Hi He Hs. split; [|split].
  - now apply income_isolated.
  - now apply expense_isolated.
  - now apply goals_isolated.
Qed.

(** ** Looking rows up by a unique key *)

Section Keys.
Context {R : Type}.
Variable key : R -> string.

Lemma In_mem_key x l : In x l -> mem (key x) (map key l) = true.
Proof. intros H. apply mem_In, in_map, H. Qed.

Lemma find_by_key l k x :
  distinct (map key l) = true -> In x l -> key x = k ->
  find (fun y => String.eqb (key y) k) l = Some x.
Proof.
  induction l as [|y l IH]; simpl; intros Hd Hin Hk; [contradiction|].
  apply andb_true_iff in Hd. destruct Hd as [Hy Hd].
  destruct Hin as [-> | Hin].
  - rewrite Hk, String.eqb_refl. reflexivity.
  - destruct (String.eqb (key y) k) eqn:E.
    + apply String.eqb_eq in E. rewrite E, <- Hk, In_mem_key in Hy by assumption.
      discriminate.
    + now apply IH.
Qed.

Lemma find_key_some l k x :
  find (fun y => String.eqb (key y) k) l = Some x -> In x l /\ key x = k.
Proof.
  intros H. apply find_some in H. destruct H as [Hin E].
  apply String.eqb_eq in E. now split.
Qed.

Lemma key_injective l x y :
  distinct (map key l) = true -> In x l -> In y l -> key x = key y -> x = y.
Proof.
  intros Hd Hx Hy E.
  pose proof (find_by_key l (key y) x Hd Hx E) as Fx.
  pose proof (find_by_key l (key y) y Hd Hy eq_refl) as Fy.
  congruence.
Qed.
End Keys.

(** ** Transitive ownership of savings transactions *)

Lemma exists_own_goal_true d uid gid :
  is_true (exists_own_goal d uid gid) = true <->
  exists g, In g (savings_goals d) /\ SavingsGoal.id g = gid
            /\ uid = Some (SavingsGoal.user_id g).
Proof.
  unfold exists_own_goal, sql_exists. rewrite is_true_Some.
  rewrite existsb_exists. split.
  - intros (g & Hin & Hq). exists g. split; [assumption|].
    rewrite is_true_sql_and, sql_eq_some in Hq.
    apply andb_true_iff in Hq. destruct Hq as [Hid Hu].
    apply String.eqb_eq in Hid. split; [assumption|].
    destruct uid as [u|]; [|discriminate].
    rewrite sql_eq_some in Hu. apply String.eqb_eq in Hu. now subst.
  - intros (g & Hin & Hid & ->). exists g. split; [assumption|].
    rewrite is_true_sql_and, !sql_eq_some, Hid, !String.eqb_refl. reflexivity.
Qed.

Lemma exists_own_goal_owner d uid gid G :
  distinct (map SavingsGoal.id (savings_goals d)) = true ->
  In G (savings_goals d) -> SavingsGoal.id G = gid ->
  (is_true (exists_own_goal d uid gid) = true <-> uid = Some (SavingsGoal.user_id G)).
Proof.
  intros Hd Hin Hid. rewrite exists_own_goal_true. split.
  - intros (g & Hg & Hgid & ->). f_equal. f_equal.
    apply (key_injective SavingsGoal.id (savings_goals d)); try assumption.
    congruence.
  - intros ->. now exists G.
Qed.

Lemma transactions_select_policy d uid T :
  using_ok savings_transactions_policies SELECT d uid T
  = is_true (exists_own_goal d uid (SavingsTransaction.savings_goal_id T)).
Proof.
  unfold using_ok, savings_transactions_policies, using_qual. simpl.
  now rewrite orb_false_r.
Qed.

Lemma transactions_insert_policy d uid T :
  check_ok savings_transactions_policies INSERT d uid T
  = is_true (exists_own_goal d uid (SavingsTransaction.savings_goal_id T)).
Proof.
  unfold check_ok, savings_transactions_policies, check_qual. simpl.
  now rewrite orb_false_r.
Qed.

Lemma transactions_no_update_policy d uid T :
  using_ok savings_transactions_policies UPDATE d uid T = false.
Proof. reflexivity. Qed.

Lemma transactions_no_delete_policy d uid T :
  using_ok savings_transactions_policies DELETE d uid T = false.
Proof. reflexivity. Qed.

(** C4. A savings transaction carries no owner column; under a caller's
    session it can be selected, and it can be inserted, exactly when the
    caller is the owner of the goal it references, found by looking the goal
    up. For any other caller the stored transaction is never returned and the
    insertion is rejected. *)
Theorem transaction_access_follows_goal_owner
    (d : db) (T : SavingsTransaction.row) (G : SavingsGoal.row) (uid : option uuid) :
  savings_goals_constraints d = true ->
  goal_of d T = Some G ->
  (can_select savings_transactions_policies (Rls uid) d T = true
     <-> uid = Some (SavingsGoal.user_id G))
  /\ (can_insert savings_transactions_policies (Rls uid) d T = true
     <-> uid = Some (SavingsGoal.user_id G))
  /\ (In T (savings_transactions d) ->
      (In T (select_savings_transactions (Rls uid) (fun _ => true) d)
         <-> uid = Some (SavingsGoal.user_id G)))
  /\ (uid <> Some (SavingsGoal.user_id G) ->
      exists e, insert_savings_transaction (Rls uid) T d = Err e).
Proof.
  intros Hc Hg.
  apply andb_true_iff in Hc. destruct Hc as [Hd _].
  apply find_key_some in Hg. destruct Hg as [Hin Hid].
  pose proof (exists_own_goal_owner d uid _ G Hd Hin Hid) as Hown.
  assert (Hsel : can_select savings_transactions_policies (Rls uid) d T = true
                 <-> uid = Some (SavingsGoal.user_id G)).
  { unfold can_select. now rewrite transactions_select_policy. }
  assert (Hins : can_insert savings_transactions_policies (Rls uid) d T = true
                 <-> uid = Some (SavingsGoal.user_id G)).
  { unfold can_insert. now rewrite transactions_insert_policy. }
  split; [exact Hsel|]. split; [exact Hins|]. split.
  - intros HT. unfold select_savings_transactions, rls_select.
    rewrite filter_In. cbn [andb]. rewrite Hsel. tauto.
  - intros Hne. unfold insert_savings_transaction, rls_insert.
    destruct (can_insert savings_transactions_policies (Rls uid) d T) eqn:E.
    + exfalso. apply Hne. now apply Hins.
    + destruct (numeric_15_2 (SavingsTransaction.amount T)); simpl; eauto.
Qed.

(** ** Reference tables and the admin role *)

Lemma exists_admin_profile_true d uid :
  is_true (exists_admin_profile d uid) = true <->
  exists u p, uid = Some u /\ In p (profiles d) /\ Profile.user_id p = u
              /\ Profile.role p = "admin".
Proof.
  unfold exists_admin_profile, sql_exists. rewrite is_true_Some.
  rewrite existsb_exists. split.
  - intros (p & Hin & Hq). rewrite is_true_sql_and in Hq.
    apply andb_true_iff in Hq. destruct Hq as [Hu Hr].
    destruct uid as [u|]; [|discriminate].
    rewrite sql_eq_some in Hu, Hr.
    apply String.eqb_eq in Hu. apply String.eqb_eq in Hr.
    exists u, p. auto.
  - intros (u & p & -> & Hin & Hu & Hr). exists p. split; [assumption|].
    rewrite is_true_sql_and, !sql_eq_some, Hu, Hr, !String.eqb_refl. reflexivity.
Qed.

Lemma exists_admin_profile_role d uid :
  distinct (map Profile.user_id (profiles d)) = true ->
  (is_true (exists_admin_profile d uid) = true <-> caller_role d uid = Some "admin").
Proof.
  intros Hd. rewrite exists_admin_profile_true. unfold caller_role, profile_of. split.
  - intros (u & p & -> & Hin & Hu & Hr).
    rewrite (find_by_key Profile.user_id _ u p Hd Hin Hu). simpl. now rewrite Hr.
  - destruct uid as [u|]; [|discriminate].
    destruct (find _ (profiles d)) as [p|] eqn:F; [|discriminate].
    simpl. intros [= Hr]. apply find_key_some in F. destruct F as [Hin Hu].
    exists u, p. auto.
Qed.

Lemma categories_policy c d uid r :
  using_ok expense_categories_policies c d uid r
  = match c with
    | SELECT => true
    | _ => is_true (exists_admin_profile d uid)
    end.
Proof.
  unfold using_ok, expense_categories_policies, using_qual.
  destruct c; simpl; now rewrite ?orb_false_r.
Qed.

Lemma categories_check c d uid r :
  c <> SELECT ->
  check_ok expense_categories_policies c d uid r
  = is_true (exists_admin_profile d uid).
Proof.
  unfold check_ok, expense_categories_policies, check_qual, using_qual.
  destruct c; simpl; intros H; try contradiction; now rewrite ?orb_false_r.
Qed.

Lemma rates_policy c d uid r :
  using_ok currency_rates_policies c d uid r
  = match c with
    | SELECT => true
    | _ => is_true (exists_admin_profile d uid)
    end.
Proof.
  unfold using_ok, currency_rates_policies, using_qual.
  destruct c; simpl; now rewrite ?orb_false_r.
Qed.

Lemma rates_check c d uid r :
  c <> SELECT ->
  check_ok currency_rates_policies c d uid r
  = is_true (exists_admin_profile d uid).
Proof.
  unfold check_ok, currency_rates_policies, check_qual, using_qual.
  destruct c; simpl; intros H; try contradiction; now rewrite ?orb_false_r.
Qed.

Lemma profiles_select_policy d uid p :
  using_ok profiles_policies SELECT d uid p
  = is_true (sql_eq uid (Some (Profile.user_id p)))
    || is_true (exists_admin_profile d uid).
Proof.
  unfold using_ok, profiles_policies, using_qual. simpl.
  now rewrite orb_false_r.
Qed.

(** What the qualifications of these policies say, taken as expressions
    over the stored tables: reading is free, writing asks for the role
    [admin], and an admin reads every profile. This is the rule the
    policies are named after; the statements never get to evaluate it,
    as the theorem after it shows. *)
Lemma reference_quals_as_written (d : db) (uid : option uuid) :
  profiles_constraints d = true ->
  admin_managed expense_categories_policies d uid
  /\ admin_managed currency_rates_policies d uid
  /\ (caller_role d uid = Some "user" ->
      forall c e,
        can_insert expense_categories_policies (Rls uid) d c = false
        /\ can_update expense_categories_policies (Rls uid) d c = false
        /\ can_delete expense_categories_policies (Rls uid) d c = false
        /\ can_insert currency_rates_policies (Rls uid) d e = false
        /\ can_update currency_rates_policies (Rls uid) d e = false
        /\ can_delete currency_rates_policies (Rls uid) d e = false)
  /\ (caller_role d uid = Some "admin" ->
      forall p, can_select profiles_policies (Rls uid) d p = true).
Proof.
  intros Hc. unfold profiles_constraints in Hc.
  apply andb_true_iff in Hc. destruct Hc as [Hc _].
  apply andb_true_iff in Hc. destruct Hc as [_ Hd].
  pose proof (exists_admin_profile_role d uid Hd) as Hadm.
  assert (Hcat : admin_managed expense_categories_policies d uid).
  { unfold admin_managed, can_select, can_insert, can_update, can_delete,
      can_write_updated.
    repeat split; intros; rewrite ?categories_policy, ?categories_check in *
      by discriminate; cbn [andb] in *; try reflexivity; now apply Hadm. }
  assert (Hrat : admin_managed currency_rates_policies d uid).
  { unfold admin_managed, can_select, can_insert, can_update, can_delete,
      can_write_updated.
    repeat split; intros; rewrite ?rates_policy, ?rates_check in *
      by discriminate; cbn [andb] in *; try reflexivity; now apply Hadm. }
  split; [exact Hcat|]. split; [exact Hrat|]. split.
  - intros Hu c e.
    assert (Hn : is_true (exists_admin_profile d uid) = false).
    { destruct (is_true (exists_admin_profile d uid)); [|reflexivity].
      destruct Hadm as [Hadm _]. specialize (Hadm eq_refl). congruence. }
    unfold can_insert, can_update, can_delete.
    rewrite !categories_policy, !rates_policy, !categories_check, !rates_check
      by discriminate.
    rewrite Hn. repeat split; reflexivity.
  - intros Ha p. unfold can_select. rewrite profiles_select_policy.
    apply Hadm in Ha. rewrite Ha. apply orb_true_r.
Qed.

(** C8. The policies of [expense_categories] and [currency_rates] ask
    whether the caller is an admin by a sub-select on [profiles], and the
    policy "Admins can view all profiles" asks the same of [profiles]
    itself. Expanding any of them reaches [profiles] inside the expansion
    of [profiles]: under row-level security every SELECT, INSERT, UPDATE
    and DELETE on the two reference tables, whichever rights it needs, and
    every SELECT on [profiles] is refused with the recursion error,
    whoever the caller is and whatever the tables hold. Only a session
    exempt from row-level security reads the tables. *)
Theorem reference_tables_unreachable (uid : option uuid) (d : db) :
  (forall c cs,
     rewrite_policies (Rls uid) (c :: cs) EXPENSE_CATEGORIES = Err InfiniteRecursion
     /\ rewrite_policies (Rls uid) (c :: cs) CURRENCY_RATES = Err InfiniteRecursion)
  /\ (forall w, select_expense_categories (Rls uid) w d = Err InfiniteRecursion)
  /\ (forall r, insert_expense_category (Rls uid) r d = Err InfiniteRecursion)
  /\ (forall w set,
        update_expense_categories (Rls uid) w set d = Err InfiniteRecursion)
  /\ (forall w, delete_expense_categories (Rls uid) w d = Err InfiniteRecursion)
  /\ (forall w, select_currency_rates (Rls uid) w d = Err InfiniteRecursion)
  /\ (forall r, insert_currency_rate (Rls uid) r d = Err InfiniteRecursion)
  /\ (forall w set,
        update_currency_rates (Rls uid) w set d = Err InfiniteRecursion)
  /\ (forall w, delete_currency_rates (Rls uid) w d = Err InfiniteRecursion)
  /\ (forall w, select_profiles (Rls uid) w d = Err InfiniteRecursion)
  /\ (forall w, select_expense_categories BypassRls w d
                = Ok (List.filter w (expense_categories d)))
  /\ (forall w, select_currency_rates BypassRls w d
                = Ok (List.filter w (currency_rates d)))
  /\ (forall w, select_profiles BypassRls w d = Ok (List.filter w (profiles d))).
Proof.
  assert (Hc : forall c cs,
            rewrite_policies (Rls uid) (c :: cs) EXPENSE_CATEGORIES
            = Err InfiniteRecursion)
    by (intros; apply reference_recursion; now left).
  assert (Hr : forall c cs,
            rewrite_policies (Rls uid) (c :: cs) CURRENCY_RATES
            = Err InfiniteRecursion)
    by (intros; apply reference_recursion; now right).
  assert (Hb : forall {R} (pols : list (policy R)) (w : R -> bool) t,
            rls_select pols BypassRls d w t = List.filter w t).
  { intros R pols w t. unfold rls_select. apply filter_ext. intros r.
    apply andb_true_r. }
  split; [intros c cs; split; [apply Hc | apply Hr]|].
  repeat match goal with |- _ /\ _ => split end; intros.
  - unfold select_expense_categories, rights_select. now rewrite Hc.
  - unfold insert_expense_category, rights_insert. now rewrite Hc.
  - unfold update_expense_categories, rights_update_where. now rewrite Hc.
  - unfold delete_expense_categories, rights_delete_where. now rewrite Hc.
  - unfold select_currency_rates, rights_select. now rewrite Hr.
  - unfold insert_currency_rate, rights_insert. now rewrite Hr.
  - unfold update_currency_rates, rights_update_where. now rewrite Hr.
  - unfold delete_currency_rates, rights_delete_where. now rewrite Hr.
  - unfold select_profiles. rewrite profiles_recursion by (left; now left).
    reflexivity.
  - unfold select_expense_categories. cbn [rewrite_policies bind]. now rewrite Hb.
  - unfold select_currency_rates. cbn [rewrite_policies bind]. now rewrite Hb.
  - unfold select_profiles. cbn [rewrite_policies bind]. now rewrite Hb.
Qed.

(** ** Provisioning *)

Lemma distinct_map_snoc {R} (key : R -> string) l x :
  distinct (map key (l ++ [x]))
  = distinct (map key l) && negb (mem (key x) (map key l)).
Proof. rewrite List.map_app. cbn [map]. apply distinct_snoc. Qed.

Lemma insert_auth_user_eq NEW gen d :
  let d2 := set_profiles (profiles d ++ [handle_new_user_values NEW gen])
              (set_auth_users (auth_users d ++ [NEW]) d) in
  insert_auth_user NEW gen d
  = if profiles_constraints d2
    then Ok {| state := d2; rows_affected := 1; fired := [] |}
    else Err ConstraintViolation.
Proof.
  cbv zeta. unfold insert_auth_user, handle_new_user, insert_profile, rls_insert.
  cbn [can_insert guard bind result_map profiles set_auth_users].
  destruct (profiles_constraints _); reflexivity.
Qed.

Lemma profiles_constraints_parts d :
  profiles_constraints d = true <->
  distinct (map Profile.id (profiles d)) = true
  /\ distinct (map Profile.user_id (profiles d)) = true
  /\ forallb (fun p =>
       check_role (Profile.role p)
       && mem (Profile.user_id p) (map AuthUser.id (auth_users d)))
     (profiles d) = true.
Proof.
  unfold profiles_constraints. rewrite !andb_true_iff. tauto.
Qed.

Lemma filter_key_absent {R} (key : R -> string) k l :
  mem k (map key l) = false ->
  List.filter (fun q => String.eqb (key q) k) l = [].
Proof.
  intros H. apply filter_none. intros r Hr.
  destruct (String.eqb (key r) k) eqn:E; [|reflexivity].
  apply String.eqb_eq in E. subst k.
  now rewrite In_mem_key in H.
Qed.

(** What a committed creation leaves behind. *)
Lemma insert_auth_user_committed NEW gen d o :
  insert_auth_user NEW gen d = Ok o ->
  state o = set_profiles (profiles d ++ [handle_new_user_values NEW gen])
              (set_auth_users (auth_users d ++ [NEW]) d)
  /\ mem (AuthUser.id NEW) (map Profile.user_id (profiles d)) = false.
Proof.
  intros H. rewrite insert_auth_user_eq in H. cbv zeta in H.
  destruct (profiles_constraints _) eqn:C; [|discriminate].
  injection H as <-. split; [reflexivity|].
  apply profiles_constraints_parts in C. destruct C as (_ & Hu & _).
  cbn [profiles set_profiles] in Hu. rewrite distinct_map_snoc in Hu.
  apply andb_true_iff in Hu. destruct Hu as [_ Hu].
  now apply negb_true_iff in Hu.
Qed.

Lemma own_profile_after_creation NEW gen d o :
  insert_auth_user NEW gen d = Ok o ->
  List.filter (fun q => String.eqb (Profile.user_id q) (AuthUser.id NEW))
    (profiles (state o)) = [handle_new_user_values NEW gen].
Proof.
  intros H. apply insert_auth_user_committed in H. destruct H as [-> Hfresh].
  cbn [profiles set_profiles]. rewrite List.filter_app.
  rewrite (filter_key_absent Profile.user_id) by assumption.
  cbn [List.filter handle_new_user_values Profile.user_id].
  now rewrite String.eqb_refl.
Qed.

(** C5. A committed identity creation leaves the new identity together with
    exactly one profile for it: role [admin] exactly for the address
    [admin@fms.com] and [user] otherwise, full name taken from the
    [full_name] metadata with the email as fallback; a second creation event
    for the same identity is rejected by the uniqueness of
    [profiles.user_id]. The creation does commit whenever the drawn profile
    id is unused and the identity has no profile yet. *)
Theorem provisioning_creates_one_profile
    (NEW : AuthUser.row) (gen_random_uuid : uuid) (d : db) :
  (forall o, insert_auth_user NEW gen_random_uuid d = Ok o ->
     auth_users (state o) = auth_users d ++ [NEW]
     /\ exists p,
          profiles (state o) = profiles d ++ [p]
          /\ Profile.user_id p = AuthUser.id NEW
          /\ (Profile.role p = "admin" <-> AuthUser.email NEW = "admin@fms.com")
          /\ (AuthUser.email NEW <> "admin@fms.com" -> Profile.role p = "user")
          /\ Profile.full_name p
             = match AuthUser.raw_user_meta_data NEW !! "full_name" with
               | Some n => n
               | None => AuthUser.email NEW
               end
          /\ List.filter (fun q => String.eqb (Profile.user_id q) (AuthUser.id NEW))
               (profiles (state o)) = [p]
          /\ (forall NEW' gen', AuthUser.id NEW' = AuthUser.id NEW ->
                insert_auth_user NEW' gen' (state o) = Err ConstraintViolation))
  /\ (profiles_constraints d = true ->
      mem gen_random_uuid (map Profile.id (profiles d)) = false ->
      mem (AuthUser.id NEW) (map Profile.user_id (profiles d)) = false ->
      exists o, insert_auth_user NEW gen_random_uuid d = Ok o).
Proof.
  split.
  - intros o H. pose proof (own_profile_after_creation _ _ _ _ H) as Hone.
    apply insert_auth_user_committed in H. destruct H as [Hst Hfresh].
    rewrite Hst in *. cbn [state profiles auth_users set_profiles set_auth_users] in *.
    split; [reflexivity|].
    exists (handle_new_user_values NEW gen_random_uuid).
    cbn [handle_new_user_values Profile.user_id Profile.role Profile.full_name].
    split; [reflexivity|]. split; [reflexivity|].
    split; [|split; [|split; [|split]]].
    + destruct (String.eqb (AuthUser.email NEW) "admin@fms.com") eqn:E.
      * apply String.eqb_eq in E. tauto.
      * apply String.eqb_neq in E. split; [discriminate | contradiction].
    + intros Hne. apply String.eqb_neq in Hne. now rewrite Hne.
    + reflexivity.
    + exact Hone.
    + intros NEW' gen' Hid. rewrite insert_auth_user_eq. cbv zeta.
      unfold profiles_constraints.
      cbn [profiles set_profiles set_auth_users auth_users].
      rewrite (distinct_map_snoc Profile.user_id).
      change (Profile.user_id (handle_new_user_values NEW' gen'))
        with (AuthUser.id NEW').
      rewrite Hid, (List.map_app Profile.user_id), mem_app.
      cbn [map mem existsb handle_new_user_values Profile.user_id].
      rewrite String.eqb_refl, !orb_true_r. cbn [negb].
      now rewrite !andb_false_r.
  - intros C Hgen Hnew. rewrite insert_auth_user_eq. cbv zeta.
    apply profiles_constraints_parts in C. destruct C as (Hi & Hu & Hall).
    match goal with
    | |- context [profiles_constraints ?x] =>
        assert (profiles_constraints x = true) as ->
    end; [|eauto].
    apply profiles_constraints_parts.
    cbn [profiles set_profiles set_auth_users auth_users].
    rewrite !distinct_map_snoc.
    cbn [handle_new_user_values Profile.id Profile.user_id].
    split; [|split].
    { apply andb_true_iff. split; [exact Hi | apply negb_true_iff; exact Hgen]. }
    { apply andb_true_iff. split; [exact Hu | apply negb_true_iff; exact Hnew]. }
    rewrite forallb_app. apply andb_true_iff. split.
    + rewrite forallb_forall in Hall. apply forallb_forall. intros p Hp.
      specialize (Hall p Hp). apply andb_true_iff in Hall. destruct Hall as [Hr Hm].
      rewrite Hr, List.map_app, mem_app, Hm. reflexivity.
    + cbn [forallb handle_new_user_values Profile.role Profile.user_id].
      rewrite List.map_app, mem_app.
      cbn [map mem existsb]. rewrite String.eqb_refl, !orb_true_r.
      destruct (String.eqb (AuthUser.email NEW) "admin@fms.com"); reflexivity.
Qed.

Lemma provisioning_depends_on NEW1 NEW2 gen d :
  AuthUser.id NEW1 = AuthUser.id NEW2 ->
  AuthUser.email NEW1 = AuthUser.email NEW2 ->
  AuthUser.raw_user_meta_data NEW1 !! "full_name"
  = AuthUser.raw_user_meta_data NEW2 !! "full_name" ->
  result_map (fun o => profiles (state o)) (insert_auth_user NEW1 gen d)
  = result_map (fun o => profiles (state o)) (insert_auth_user NEW2 gen d).
Proof.
  intros Hid He Hn. rewrite !insert_auth_user_eq. cbv zeta.
  unfold profiles_constraints, handle_new_user_values.
  cbn [profiles set_profiles set_auth_users auth_users].
  rewrite !(List.map_app AuthUser.id). cbn [map]. rewrite Hid, He, Hn.
  match goal with |- context [if ?c then _ else _] => destruct c end; reflexivity.
Qed.

(** C10. Two identity-creation events that differ only in the [role] member
    of the signup metadata get the same profile: the role written by the
    hook is [admin] when the email is [admin@fms.com] and [user] otherwise,
    whatever role the create-user form of the admin panel passes along. *)
Theorem provisioned_role_ignores_metadata (NEW1 NEW2 : AuthUser.row)
    (gen_random_uuid : uuid) (d : db) :
  AuthUser.id NEW1 = AuthUser.id NEW2 ->
  AuthUser.email NEW1 = AuthUser.email NEW2 ->
  (forall k, k <> "role" ->
     AuthUser.raw_user_meta_data NEW1 !! k = AuthUser.raw_user_meta_data NEW2 !! k) ->
  result_map (fun o => profiles (state o)) (insert_auth_user NEW1 gen_random_uuid d)
  = result_map (fun o => profiles (state o)) (insert_auth_user NEW2 gen_random_uuid d)
  /\ (forall o, insert_auth_user NEW1 gen_random_uuid d = Ok o ->
        caller_role (state o) (Some (AuthUser.id NEW1))
        = Some (if String.eqb (AuthUser.email NEW1) "admin@fms.com"
                then "admin" else "user"))
  /\ (forall f1 f2 new_id,
        NewUserForm.email f1 = NewUserForm.email f2 ->
        NewUserForm.fullName f1 = NewUserForm.fullName f2 ->
        result_map (fun o => profiles (state o)) (createUser f1 new_id gen_random_uuid d)
        = result_map (fun o => profiles (state o)) (createUser f2 new_id gen_random_uuid d)).
Proof.
  intros Hid He Hm. split; [|split].
  - apply provisioning_depends_on; try assumption. now apply Hm.
  - intros o H. pose proof (own_profile_after_creation _ _ _ _ H) as Hone.
    unfold caller_role, profile_of.
    destruct (find _ (profiles (state o))) as [q|] eqn:F.
    + apply find_some in F. destruct F as [Hq Eq].
      assert (In q (List.filter
                 (fun q => String.eqb (Profile.user_id q) (AuthUser.id NEW1))
                 (profiles (state o)))) as Hin by (apply filter_In; auto).
      rewrite Hone in Hin. destruct Hin as [<- | []]. reflexivity.
    + exfalso.
      assert (In (handle_new_user_values NEW1 gen_random_uuid)
                (List.filter
                   (fun q => String.eqb (Profile.user_id q) (AuthUser.id NEW1))
                   (profiles (state o)))) as Hin by (rewrite Hone; now left).
      apply filter_In in Hin. destruct Hin as [Hin E].
      rewrite (find_none _ _ F _ Hin) in E. discriminate.
  - intros f1 f2 new_id E1 En. unfold createUser.
    apply provisioning_depends_on;
      cbn [AuthUser.id AuthUser.email AuthUser.raw_user_meta_data].
    + reflexivity.
    + assumption.
    + rewrite !lookup_insert_eq. now rewrite En.
Qed.

(** ** What an UPDATE does to the rows it may touch *)

Section UpdateFacts.
Context {R : Type}.
Variable pols : list (policy R).

Lemma rls_update_inv s d w set t u :
  rls_update pols s d w set t = Ok u ->
  fst u = map (fun r => if w r && can_update pols s d r then set r else r) t
  /\ snd u = map set (List.filter (fun r => w r && can_update pols s d r) t).
Proof.
  revert u. induction t as [|r t IH]; simpl; intros u H.
  - injection H as <-. now split.
  - destruct (w r && can_update pols s d r).
    + destruct (can_write_updated pols s d (set r)); simpl in H; [|discriminate].
      destruct (rls_update pols s d w set t) as [rest|]; simpl in H; [|discriminate].
      injection H as <-. destruct (IH rest eq_refl) as [-> ->]. now split.
    + destruct (rls_update pols s d w set t) as [rest|]; simpl in H; [|discriminate].
      injection H as <-. destruct (IH rest eq_refl) as [-> ->]. now split.
Qed.

Lemma rls_update_ok s d w set t :
  (forall r, In r t -> w r && can_update pols s d r = true ->
             can_write_updated pols s d (set r) = true) ->
  rls_update pols s d w set t
  = Ok (map (fun r => if w r && can_update pols s d r then set r else r) t,
        map set (List.filter (fun r => w r && can_update pols s d r) t)).
Proof.
  induction t as [|r t IH]; simpl; intros H.
  - reflexivity.
  - rewrite IH by (intros x Hx; apply H; now right).
    destruct (w r && can_update pols s d r) eqn:E.
    + rewrite (H r (or_introl eq_refl) E). reflexivity.
    + reflexivity.
Qed.

Lemma rls_update_unread_inv s d set t u :
  rls_update_unread pols s d set t = Ok u ->
  fst u = map (fun r => if can_update_unread pols s d r then set r else r) t
  /\ snd u = map set (List.filter (can_update_unread pols s d) t).
Proof.
  revert u. induction t as [|r t IH]; cbn [rls_update_unread map List.filter];
    intros u H.
  - match type of H with Ok ?x = Ok _ => assert (u = x) as -> by congruence end.
    now split.
  - destruct (can_update_unread pols s d r).
    + destruct (can_write_updated pols s d (set r)); cbn [guard bind] in H;
        [|discriminate].
      destruct (rls_update_unread pols s d set t) as [rest|]; cbn [bind] in H;
        [|discriminate].
      match type of H with Ok ?x = Ok _ => assert (u = x) as -> by congruence end.
      destruct (IH rest eq_refl) as [E1 E2]. cbn [fst snd map].
      now rewrite E1, E2.
    + destruct (rls_update_unread pols s d set t) as [rest|]; cbn [bind] in H;
        [|discriminate].
      match type of H with Ok ?x = Ok _ => assert (u = x) as -> by congruence end.
      destruct (IH rest eq_refl) as [E1 E2]. cbn [fst snd].
      now rewrite E1, E2.
Qed.

Lemma rls_update_unread_ok s d set t :
  (forall r, In r t -> can_update_unread pols s d r = true ->
             can_write_updated pols s d (set r) = true) ->
  rls_update_unread pols s d set t
  = Ok (map (fun r => if can_update_unread pols s d r then set r else r) t,
        map set (List.filter (can_update_unread pols s d) t)).
Proof.
  induction t as [|r t IH]; cbn [rls_update_unread map List.filter]; intros H.
  - reflexivity.
  - rewrite IH by (intros x Hx; apply H; now right).
    destruct (can_update_unread pols s d r) eqn:E.
    + rewrite (H r (or_introl eq_refl) E). reflexivity.
    + reflexivity.
Qed.
End UpdateFacts.

Lemma goal_can_update s d g :
  can_update savings_goals_policies s d g
  = match s with
    | BypassRls => true
    | Rls uid => is_true (sql_eq uid (Some (SavingsGoal.user_id g)))
    end.
Proof.
  destruct s as [uid|]; [|reflexivity].
  unfold can_update. rewrite !goals_using. apply andb_diag.
Qed.

Lemma goal_can_write_amount s d v g :
  can_update savings_goals_policies s d g = true ->
  can_write_updated savings_goals_policies s d (with_current_amount v g) = true.
Proof.
  rewrite goal_can_update. destruct s as [uid|]; [|reflexivity].
  unfold can_write_updated. rewrite goals_check by auto. trivial.
Qed.

Lemma update_savings_goals_inv s w set d o :
  update_savings_goals s w set d = Ok o ->
  state o = set_savings_goals
              (map (fun g => if w g && can_update savings_goals_policies s d g
                             then set g else g) (savings_goals d)) d
  /\ fired o = []
  /\ savings_constraints (state o) = true.
Proof.
  unfold update_savings_goals. intros H.
  destruct (rls_update savings_goals_policies s d w set (savings_goals d))
    as [u|] eqn:U; simpl in H; [|discriminate].
  apply rls_update_inv in U. destruct U as [U1 _].
  destruct (forallb _ (snd u)); simpl in H; [|discriminate].
  destruct (savings_goals_constraints _ && savings_transactions_constraints _) eqn:C;
    simpl in H; [|discriminate].
  injection H as <-. cbn [state fired]. rewrite <- U1. auto.
Qed.

(** One invocation of the trigger, either side. *)
Lemma trigger_inv s op r d d' :
  update_savings_goal_amount s op r r d = Ok d' ->
  op <> TG_UPDATE ->
  let delta := match op with TG_INSERT => signed_amount r | _ => - signed_amount r end in
  d' = set_savings_goals
         (map (fun g => if can_update savings_goals_policies s d g
                        then adjust (SavingsTransaction.savings_goal_id r) delta g
                        else g)
              (savings_goals d)) d
  /\ savings_constraints d' = true.
Proof.
  intros H Hop. cbv zeta.
  destruct op; [| contradiction |]; cbn [update_savings_goal_amount] in H;
    unfold result_map in H;
    match type of H with
    | bind ?m _ = _ => destruct m as [o|] eqn:U; simpl in H; [|discriminate]
    end;
    injection H as <-; apply update_savings_goals_inv in U;
    destruct U as (HS & _ & C); (split; [|exact C]);
    rewrite HS; f_equal; apply map_ext; intros g; unfold adjust;
    destruct (String.eqb _ _), (can_update _ _ _ _); reflexivity.
Qed.

(** ** The expected balance as one signed sum *)

Lemma check_transaction_type_cases ty :
  check_transaction_type ty = true -> ty = "deposit" \/ ty = "withdrawal".
Proof.
  unfold check_transaction_type. intros H. apply orb_true_iff in H.
  destruct H as [H|H]; apply String.eqb_eq in H; auto.
Qed.

Lemma expected_balance_signed g d :
  forallb (fun t => check_transaction_type (SavingsTransaction.transaction_type t))
    (savings_transactions d) = true ->
  expected_balance g d = signed_total g (savings_transactions d).
Proof.
  unfold expected_balance, total_of_type.
  induction (savings_transactions d) as [|t l IH]; intros H.
  - reflexivity.
  - cbn [forallb] in H. apply andb_true_iff in H. destruct H as [Ht Hl].
    specialize (IH Hl). cbn [List.filter signed_total fold_right].
    fold (signed_total g l). rewrite <- IH. unfold signed_amount.
    destruct (of_goal g t); cbn [andb]; [|lia].
    destruct (check_transaction_type_cases _ Ht) as [-> | ->];
      cbn [String.eqb Ascii.eqb Bool.eqb andb sum_amounts fold_right];
      fold (sum_amounts
              (List.filter
                 (fun t => of_goal g t
                    && String.eqb (SavingsTransaction.transaction_type t) "deposit") l));
      fold (sum_amounts
              (List.filter
                 (fun t => of_goal g t
                    && String.eqb (SavingsTransaction.transaction_type t) "withdrawal") l));
      lia.
Qed.

Lemma transactions_typed d :
  savings_transactions_constraints d = true ->
  forallb (fun t => check_transaction_type (SavingsTransaction.transaction_type t))
    (savings_transactions d) = true.
Proof.
  unfold savings_transactions_constraints, savings_transaction_row_ok.
  intros H. apply andb_true_iff in H. destruct H as [_ H].
  rewrite forallb_forall in *. intros t Ht. specialize (H t Ht).
  now rewrite !andb_true_iff in H.
Qed.

Lemma signed_total_app g l1 l2 :
  signed_total g (l1 ++ l2) = signed_total g l1 + signed_total g l2.
Proof.
  induction l1 as [|t l1 IH]; cbn [app signed_total fold_right].
  - reflexivity.
  - fold (signed_total g (l1 ++ l2)). fold (signed_total g l1). lia.
Qed.

Lemma signed_total_split g p l :
  signed_total g l
  = signed_total g (List.filter (fun t => negb (p t)) l)
    + signed_total g (List.filter p l).
Proof.
  induction l as [|t l IH]; cbn [List.filter signed_total fold_right].
  - reflexivity.
  - fold (signed_total g l). destruct (p t); cbn [negb signed_total fold_right];
      fold (signed_total g (List.filter (fun t => negb (p t)) l));
      fold (signed_total g (List.filter p l)); lia.
Qed.

Lemma savings_constraints_true d :
  savings_constraints d = true <->
  savings_goals_constraints d = true /\ savings_transactions_constraints d = true.
Proof. unfold savings_constraints. apply andb_true_iff. Qed.

Lemma goals_distinct d :
  savings_constraints d = true ->
  distinct (map SavingsGoal.id (savings_goals d)) = true.
Proof.
  intros H. apply savings_constraints_true in H. destruct H as [H _].
  unfold savings_goals_constraints in H. now apply andb_true_iff in H.
Qed.

(** ** Inserting a transaction *)

(** Whoever passed the INSERT check may update the goal the trigger aims at. *)
Lemma inserter_can_update s d r g :
  distinct (map SavingsGoal.id (savings_goals d)) = true ->
  can_insert savings_transactions_policies s d r = true ->
  In g (savings_goals d) ->
  SavingsGoal.id g = SavingsTransaction.savings_goal_id r ->
  forall d', can_update savings_goals_policies s d' g = true.
Proof.
  intros Hd Hins Hg Hid d'. rewrite goal_can_update.
  destruct s as [uid|]; [|reflexivity].
  unfold can_insert in Hins. rewrite transactions_insert_policy in Hins.
  apply (exists_own_goal_owner d uid _ g Hd Hg Hid) in Hins. subst uid.
  rewrite sql_eq_some. apply String.eqb_refl.
Qed.

Lemma insert_savings_transaction_inv s r d o :
  savings_constraints d = true ->
  insert_savings_transaction s r d = Ok o ->
  state o = set_savings_goals
              (map (adjust (SavingsTransaction.savings_goal_id r) (signed_amount r))
                   (savings_goals d))
              (set_savings_transactions (savings_transactions d ++ [r]) d)
  /\ savings_constraints (state o) = true
  /\ check_transaction_type (SavingsTransaction.transaction_type r) = true
  /\ rows_affected o = 1%nat
  /\ fired o = [(TG_INSERT, r)].
Proof.
  intros Hc H. unfold insert_savings_transaction, rls_insert in H.
  destruct (numeric_15_2 _); cbn [bind guard] in H; [|discriminate].
  destruct (can_insert savings_transactions_policies s d r) eqn:Hins;
    cbn [bind guard] in H; [|discriminate].
  destruct (savings_transactions_constraints _) eqn:Ct; cbn [bind guard] in H; [|discriminate].
  match type of H with
  | bind ?m _ = _ => destruct m as [d2|] eqn:T; cbn [bind guard] in H; [|discriminate]
  end.
  injection H as <-. cbn [state rows_affected fired].
  apply trigger_inv in T; [|discriminate]. cbv zeta in T. destruct T as [-> C].
  split; [|split; [exact C|split; [|split; reflexivity]]].
  - f_equal. cbn [savings_goals set_savings_transactions].
    apply map_ext_in. intros g Hg.
    destruct (String.eqb (SavingsGoal.id g) (SavingsTransaction.savings_goal_id r)) eqn:E.
    + apply String.eqb_eq in E.
      now rewrite (inserter_can_update s d r g (goals_distinct d Hc) Hins Hg E).
    + unfold adjust. rewrite E. now destruct (can_update _ _ _ _).
  - apply transactions_typed in Ct. cbn [savings_transactions set_savings_transactions] in Ct.
    rewrite forallb_app in Ct. apply andb_true_iff in Ct. destruct Ct as [_ Ct].
    cbn [forallb] in Ct. now rewrite andb_true_r in Ct.
Qed.

(** ** Deleting transactions *)

Lemma adjust_id gid delta g : SavingsGoal.id (adjust gid delta g) = SavingsGoal.id g.
Proof. unfold adjust. now destruct (String.eqb _ _). Qed.

Lemma adjust_current gid delta g :
  SavingsGoal.current_amount (adjust gid delta g)
  = SavingsGoal.current_amount g
    + (if String.eqb (SavingsGoal.id g) gid then delta else 0).
Proof.
  unfold adjust. destruct (String.eqb _ _); cbn [with_current_amount SavingsGoal.current_amount]; lia.
Qed.

Lemma set_savings_goals_twice x y d :
  set_savings_goals x (set_savings_goals y d) = set_savings_goals x d.
Proof. reflexivity. Qed.

(** Under row-level security nobody holds an UPDATE or a DELETE policy on
    [savings_transactions]. *)
Lemma transactions_cannot_delete uid d r :
  can_delete savings_transactions_policies (Rls uid) d r = false.
Proof. unfold can_delete. rewrite transactions_no_delete_policy. apply andb_false_r. Qed.

Lemma transactions_cannot_update uid d r :
  can_update savings_transactions_policies (Rls uid) d r = false.
Proof. unfold can_update. rewrite transactions_no_update_policy. apply andb_false_r. Qed.

Lemma delete_under_rls uid w d :
  delete_savings_transactions (Rls uid) w d = Ok (unchanged d).
Proof.
  unfold delete_savings_transactions.
  rewrite (rls_delete_untouched savings_transactions_policies)
    by (intros r _; rewrite transactions_cannot_delete; apply andb_false_r).
  cbv zeta. cbn [fst snd fire_on_deleted bind map length].
  now rewrite set_savings_transactions_same.
Qed.

Lemma update_under_rls uid w set d :
  savings_transactions_constraints d = true ->
  update_savings_transactions (Rls uid) w set d = Ok (unchanged d).
Proof.
  intros Hc. unfold update_savings_transactions.
  rewrite (rls_update_untouched savings_transactions_policies)
    by (intros r _; rewrite transactions_cannot_update; apply andb_false_r).
  cbn [bind guard forallb fst snd length].
  rewrite set_savings_transactions_same, Hc. reflexivity.
Qed.

Lemma fire_on_deleted_inv rows : forall d1 d2,
  fire_on_deleted BypassRls rows d1 = Ok d2 ->
  d2 = set_savings_goals
         (fold_left (fun gs r =>
                       map (adjust (SavingsTransaction.savings_goal_id r)
                                   (- signed_amount r)) gs)
                    rows (savings_goals d1)) d1
  /\ (savings_constraints d1 = true -> savings_constraints d2 = true).
Proof.
  induction rows as [|r rows IH]; intros d1 d2 H; cbn [fire_on_deleted] in H.
  - injection H as <-. cbn [fold_left]. now rewrite set_savings_goals_same.
  - destruct (update_savings_goal_amount BypassRls TG_DELETE r r d1) as [d1'|] eqn:T;
      cbn [bind] in H; [|discriminate].
    apply trigger_inv in T; [|discriminate]. cbv zeta in T. destruct T as [E C].
    apply IH in H. destruct H as [-> K]. split; [|auto].
    rewrite E. cbn [fold_left savings_goals set_savings_goals].
    reflexivity.
Qed.

Lemma fold_adjust_member g rows : forall gs G,
  In G (fold_left (fun gs r =>
                     map (adjust (SavingsTransaction.savings_goal_id r)
                                 (- signed_amount r)) gs) rows gs) ->
  SavingsGoal.id G = g ->
  exists G0, In G0 gs /\ SavingsGoal.id G0 = g
             /\ SavingsGoal.current_amount G
                = SavingsGoal.current_amount G0 - signed_total g rows.
Proof.
  induction rows as [|r rows IH]; intros gs G HG Hid; cbn [fold_left] in HG.
  - exists G. cbn [signed_total fold_right]. repeat split; auto. lia.
  - destruct (IH _ G HG Hid) as (G1 & H1 & Hid1 & Hc1).
    apply in_map_iff in H1. destruct H1 as (G0 & <- & H0).
    rewrite adjust_id in Hid1. exists G0. repeat split; auto.
    rewrite Hc1, adjust_current. cbn [signed_total fold_right].
    fold (signed_total g rows). unfold of_goal.
    rewrite Hid1, (String.eqb_sym g). destruct (String.eqb _ g); lia.
Qed.

Lemma mem_filter_false {R} (key : R -> string) (p : R -> bool) k l :
  mem k (map key l) = false -> mem k (map key (List.filter p l)) = false.
Proof.
  intros H. destruct (mem k (map key (List.filter p l))) eqn:E; [|reflexivity].
  apply mem_In, in_map_iff in E. destruct E as (x & <- & Hx).
  apply filter_In in Hx. destruct Hx as [Hx _].
  now rewrite In_mem_key in H.
Qed.

Lemma distinct_filter {R} (key : R -> string) (p : R -> bool) l :
  distinct (map key l) = true -> distinct (map key (List.filter p l)) = true.
Proof.
  induction l as [|x l IH]; cbn [map List.filter distinct]; intros H.
  - reflexivity.
  - apply andb_true_iff in H. destruct H as [Hx Hl].
    destruct (p x); cbn [map distinct]; [|auto].
    apply negb_true_iff in Hx.
    rewrite (mem_filter_false key p _ _ Hx). cbn [negb andb]. auto.
Qed.

Lemma forallb_filter_sub {R} (q p : R -> bool) l :
  forallb q l = true -> forallb q (List.filter p l) = true.
Proof.
  rewrite !forallb_forall. intros H x Hx. apply filter_In in Hx. apply H, Hx.
Qed.

Lemma constraints_after_removal p d :
  savings_constraints d = true ->
  savings_constraints
    (set_savings_transactions (List.filter p (savings_transactions d)) d) = true.
Proof.
  rewrite !savings_constraints_true. intros [Hg Ht]. split; [exact Hg|].
  unfold savings_transactions_constraints in *.
  cbn [savings_transactions set_savings_transactions].
  apply andb_true_iff in Ht. destruct Ht as [Hd Hall].
  apply andb_true_iff. split.
  - now apply distinct_filter.
  - now apply forallb_filter_sub.
Qed.

Lemma delete_bypass_inv w d o :
  delete_savings_transactions BypassRls w d = Ok o ->
  state o = set_savings_goals
              (fold_left (fun gs r =>
                            map (adjust (SavingsTransaction.savings_goal_id r)
                                        (- signed_amount r)) gs)
                 (List.filter w (savings_transactions d)) (savings_goals d))
              (set_savings_transactions
                 (List.filter (fun r => negb (w r)) (savings_transactions d)) d)
  /\ fired o = map (pair TG_DELETE) (List.filter w (savings_transactions d))
  /\ rows_affected o = length (List.filter w (savings_transactions d))
  /\ (savings_constraints d = true -> savings_constraints (state o) = true).
Proof.
  unfold delete_savings_transactions, rls_delete. cbv zeta. cbn [fst snd can_delete].
  rewrite (filter_ext (fun r => w r && true) w) by (intros; apply andb_true_r).
  rewrite (filter_ext (fun r => negb (w r && true)) (fun r => negb (w r)))
    by (intros; now rewrite andb_true_r).
  intros H.
  destruct (fire_on_deleted _ _ _) as [d2|] eqn:F; cbn [bind] in H; [|discriminate].
  injection H as <-. cbn [state fired rows_affected].
  apply fire_on_deleted_inv in F. destruct F as [-> K].
  repeat split; try reflexivity.
  intros Hc. apply K. now apply constraints_after_removal.
Qed.

(** ** The balance invariant *)

Lemma balance_after_insert g s r d o :
  savings_constraints d = true -> balance_ok g d ->
  insert_savings_transaction s r d = Ok o ->
  balance_ok g (state o).
Proof.
  intros Hc Hb H.
  destruct (insert_savings_transaction_inv s r d o Hc H) as (Hs & Hc' & _).
  apply savings_constraints_true in Hc, Hc'.
  destruct Hc as [_ Ht]. destruct Hc' as [_ Ht'].
  intros G HG Hid.
  rewrite (expected_balance_signed g (state o)) by now apply transactions_typed.
  rewrite Hs in HG |- *.
  cbn [savings_goals savings_transactions set_savings_goals set_savings_transactions]
    in HG |- *.
  apply in_map_iff in HG. destruct HG as (G0 & <- & H0).
  rewrite adjust_id in Hid. rewrite adjust_current, (Hb G0 H0 Hid).
  rewrite (expected_balance_signed g d) by now apply transactions_typed.
  rewrite signed_total_app. cbn [signed_total fold_right]. unfold of_goal.
  rewrite Hid, (String.eqb_sym g). destruct (String.eqb _ g); lia.
Qed.

Lemma balance_after_delete g s w d o :
  savings_constraints d = true -> balance_ok g d ->
  delete_savings_transactions s w d = Ok o ->
  balance_ok g (state o) /\ savings_constraints (state o) = true.
Proof.
  intros Hc Hb H. destruct s as [uid|].
  - rewrite delete_under_rls in H. injection H as <-. now split.
  - apply delete_bypass_inv in H. destruct H as (Hs & _ & _ & K).
    specialize (K Hc). split; [|exact K].
    apply savings_constraints_true in Hc, K.
    destruct Hc as [_ Ht]. destruct K as [_ Ht'].
    intros G HG Hid.
    rewrite (expected_balance_signed g (state o)) by now apply transactions_typed.
    rewrite Hs in HG |- *.
    cbn [savings_goals savings_transactions set_savings_goals set_savings_transactions]
      in HG |- *.
    destruct (fold_adjust_member g _ _ G HG Hid) as (G0 & H0 & Hid0 & ->).
    rewrite (Hb G0 H0 Hid0).
    rewrite (expected_balance_signed g d) by now apply transactions_typed.
    rewrite (signed_total_split g w (savings_transactions d)). lia.
Qed.

Lemma step_preserves g st d :
  savings_constraints d = true -> balance_ok g d ->
  savings_constraints (after st d) = true /\ balance_ok g (after st d).
Proof.
  intros Hc Hb. unfold after.
  destruct (run_tx_statement st d) as [o|e] eqn:H; [|now split].
  destruct st as [s r | s w]; cbn [run_tx_statement] in H.
  - split.
    + now destruct (insert_savings_transaction_inv s r d o Hc H) as (_ & C & _).
    + now apply (balance_after_insert g s r d o).
  - destruct (balance_after_delete g s w d o Hc Hb H). now split.
Qed.

Lemma history_preserves g sts : forall d,
  savings_constraints d = true -> balance_ok g d ->
  Forall (balance_ok g) (history sts d).
Proof.
  induction sts as [|st sts IH]; intros d Hc Hb; cbn [history].
  - constructor.
  - destruct (step_preserves g st d Hc Hb) as [Hc' Hb'].
    constructor; [exact Hb' | now apply IH].
Qed.

(** The starting point: a goal that has just been inserted with balance 0
    (the column default, which is what the goal form leaves it to) shows
    the balance of its transactions, of which there are none. *)
Lemma fresh_goal_balance_ok s r d o :
  savings_constraints d = true ->
  SavingsGoal.current_amount r = 0 ->
  insert_savings_goal s r d = Ok o ->
  balance_ok (SavingsGoal.id r) (state o).
Proof.
  intros Hc H0 H. unfold insert_savings_goal, rls_insert in H.
  destruct (_ && _); cbn [bind guard] in H; [|discriminate].
  destruct (can_insert _ _ _ _); cbn [bind guard] in H; [|discriminate].
  destruct (savings_goals_constraints _) eqn:C; cbn [bind guard] in H; [|discriminate].
  match type of H with Ok ?x = Ok _ => assert (o = x) as -> by congruence end.
  clear H. cbn [state].
  unfold savings_goals_constraints in C. apply andb_true_iff in C.
  destruct C as [Hd _]. cbn [savings_goals set_savings_goals] in Hd.
  rewrite distinct_map_snoc in Hd. apply andb_true_iff in Hd.
  destruct Hd as [_ Hnew]. apply negb_true_iff in Hnew.
  apply savings_constraints_true in Hc. destruct Hc as [_ Ct].
  intros G HG Hid. cbn [savings_goals set_savings_goals] in HG.
  apply in_app_or in HG. destruct HG as [HG | [<- | []]].
  - rewrite <- Hid, (In_mem_key SavingsGoal.id) in Hnew by assumption. discriminate.
  - pose proof (transactions_typed d Ct) as Hty.
    rewrite H0, expected_balance_signed by exact Hty.
    cbn [savings_transactions set_savings_goals]. clear Hty.
    unfold savings_transactions_constraints, savings_transaction_row_ok in Ct.
    apply andb_true_iff in Ct. destruct Ct as [_ Ct]. rewrite forallb_forall in Ct.
    induction (savings_transactions d) as [|t l IH]; [reflexivity|].
    cbn [signed_total fold_right]. fold (signed_total (SavingsGoal.id r) l).
    rewrite <- IH by (intros x Hx; apply Ct; now right).
    specialize (Ct t (or_introl eq_refl)). rewrite !andb_true_iff in Ct.
    destruct Ct as [_ Hfk]. unfold of_goal.
    destruct (String.eqb _ _) eqn:E; [|reflexivity].
    apply String.eqb_eq in E. rewrite E in Hfk. congruence.
Qed.

(** C1. Starting from a state in which goal [g] shows the balance of its
    transactions (as a goal created with the column default does), after
    each statement of any sequence of insertions and deletions on
    [savings_transactions] (committed or rejected, by any session) the
    stored [current_amount] of [g] equals the sum of its deposits minus the
    sum of its withdrawals. In particular a committed insertion of [T]
    leaves, in one and the same new state, the row [T] and the referenced
    goal moved by [+T.amount] for a deposit and by [-T.amount] for a
    withdrawal. *)
Theorem balance_follows_transactions (g : uuid) (d : db) (sts : list tx_statement) :
  savings_constraints d = true ->
  balance_ok g d ->
  Forall (balance_ok g) (history sts d)
  /\ (forall s T o,
        insert_savings_transaction s T d = Ok o ->
        exists delta,
          (SavingsTransaction.transaction_type T = "deposit"
             /\ delta = SavingsTransaction.amount T
           \/ SavingsTransaction.transaction_type T = "withdrawal"
             /\ delta = - SavingsTransaction.amount T)
          /\ savings_transactions (state o) = savings_transactions d ++ [T]
          /\ savings_goals (state o)
             = map (fun G =>
                      if String.eqb (SavingsGoal.id G)
                                    (SavingsTransaction.savings_goal_id T)
                      then with_current_amount
                             (SavingsGoal.current_amount G + delta) G
                      else G)
                   (savings_goals d)).
Proof.
  intros Hc Hb. split; [now apply history_preserves|].
  intros s T o H.
  destruct (insert_savings_transaction_inv s T d o Hc H) as (Hs & _ & Hty & _).
  exists (signed_amount T). split; [|split].
  - unfold signed_amount.
    destruct (check_transaction_type_cases _ Hty) as [E | E]; rewrite E; auto.
  - now rewrite Hs.
  - now rewrite Hs.
Qed.

(** ** Deleting what was just inserted *)

Lemma with_current_amount_same g :
  with_current_amount (SavingsGoal.current_amount g) g = g.
Proof. now destruct g. Qed.

Lemma undo_adjust gid x g :
  (if String.eqb (SavingsGoal.id (adjust gid x g)) gid && true
   then with_current_amount
          (SavingsGoal.current_amount (adjust gid x g) - x) (adjust gid x g)
   else adjust gid x g) = g.
Proof.
  rewrite adjust_id. unfold adjust.
  destruct (String.eqb (SavingsGoal.id g) gid); cbn [andb]; [|reflexivity].
  destruct g. unfold with_current_amount. simpl. f_equal. lia.
Qed.

Lemma undo_adjust_rows gid x gs :
  map (fun g => with_current_amount (SavingsGoal.current_amount g - x) g)
      (List.filter (fun g => String.eqb (SavingsGoal.id g) gid && true)
                   (map (adjust gid x) gs))
  = List.filter (fun g => String.eqb (SavingsGoal.id g) gid) gs.
Proof.
  induction gs as [|g gs IH]; cbn [map List.filter]; [reflexivity|].
  pose proof (undo_adjust gid x g) as U. rewrite adjust_id in *.
  destruct (String.eqb (SavingsGoal.id g) gid); cbn [andb] in *.
  - cbn [map]. now rewrite U, IH.
  - exact IH.
Qed.

Lemma goal_rows_numeric d p :
  savings_goals_constraints d = true ->
  forallb (fun g => numeric_15_2 (SavingsGoal.target_amount g)
                    && numeric_15_2 (SavingsGoal.current_amount g))
          (List.filter p (savings_goals d)) = true.
Proof.
  unfold savings_goals_constraints, savings_goal_row_ok. intros H.
  apply andb_true_iff in H. destruct H as [_ H].
  apply forallb_filter_sub. rewrite forallb_forall in *. intros g Hg.
  specialize (H g Hg). rewrite !andb_true_iff in H. rewrite andb_true_iff. tauto.
Qed.

Lemma filter_key_unique {R} (key : R -> string) l x :
  distinct (map key l) = true -> In x l ->
  List.filter (fun y => String.eqb (key y) (key x)) l = [x].
Proof.
  induction l as [|y l IH]; cbn [map distinct List.filter]; intros Hd Hin;
    [contradiction|].
  apply andb_true_iff in Hd. destruct Hd as [Hy Hd].
  apply negb_true_iff in Hy. destruct Hin as [-> | Hin].
  - rewrite String.eqb_refl. f_equal. now apply filter_key_absent.
  - destruct (String.eqb (key y) (key x)) eqn:E.
    + apply String.eqb_eq in E. rewrite E, In_mem_key in Hy by assumption.
      discriminate.
    + now apply IH.
Qed.

Lemma back_to_start gs ts d :
  set_savings_goals (savings_goals d)
    (set_savings_transactions (savings_transactions d)
       (set_savings_goals gs (set_savings_transactions ts d))) = d.
Proof. now destruct d. Qed.

(** C2. Deleting a transaction takes back exactly what its insertion added:
    the adjustment is [-T.amount] for a deposit and [+T.amount] for a
    withdrawal, and a deletion that follows the insertion of [T] commits
    and gives back the database as it was before the insertion, balance
    included. *)
Theorem delete_reverses_insert (s : session) (T : SavingsTransaction.row)
    (d : db) (o : outcome) :
  savings_constraints d = true ->
  insert_savings_transaction s T d = Ok o ->
  delete_savings_transactions BypassRls
    (fun t => String.eqb (SavingsTransaction.id t) (SavingsTransaction.id T))
    (state o)
  = Ok {| state := d; rows_affected := 1; fired := [(TG_DELETE, T)] |}
  /\ (forall T' o',
        In T' (savings_transactions d) ->
        delete_savings_transactions BypassRls
          (fun t => String.eqb (SavingsTransaction.id t) (SavingsTransaction.id T')) d
        = Ok o' ->
        exists delta,
          (SavingsTransaction.transaction_type T' = "deposit"
             /\ delta = SavingsTransaction.amount T'
           \/ SavingsTransaction.transaction_type T' = "withdrawal"
             /\ delta = - SavingsTransaction.amount T')
          /\ savings_goals (state o')
             = map (fun G =>
                      if String.eqb (SavingsGoal.id G)
                                    (SavingsTransaction.savings_goal_id T')
                      then with_current_amount
                             (SavingsGoal.current_amount G - delta) G
                      else G)
                   (savings_goals d)).
Proof.
  intros Hc H.
  destruct (insert_savings_transaction_inv s T d o Hc H) as (Hs & Hc' & _).
  pose proof Hc as Hc0. apply savings_constraints_true in Hc0. destruct Hc0 as [Hg Ht].
  split.
  - apply savings_constraints_true in Hc'. destruct Hc' as [_ Ht'].
    unfold savings_transactions_constraints in Ht'.
    apply andb_true_iff in Ht'. destruct Ht' as [Hd' _].
    rewrite Hs in Hd'. cbn [savings_transactions set_savings_goals
                              set_savings_transactions] in Hd'.
    rewrite distinct_map_snoc in Hd'. apply andb_true_iff in Hd'.
    destruct Hd' as [_ Hfresh]. apply negb_true_iff in Hfresh.
    unfold delete_savings_transactions, rls_delete. cbv zeta.
    rewrite Hs.
    cbn [fst snd can_delete savings_transactions set_savings_goals
           set_savings_transactions].
    rewrite !List.filter_app. cbn [List.filter].
    rewrite String.eqb_refl. cbn [andb negb].
    rewrite (filter_none _ (savings_transactions d)).
    2:{ intros r Hr. rewrite andb_true_r.
        destruct (String.eqb _ _) eqn:E; [|reflexivity].
        apply String.eqb_eq in E.
        rewrite <- E, (In_mem_key SavingsTransaction.id) in Hfresh by assumption.
        discriminate. }
    rewrite (filter_all _ (savings_transactions d)).
    2:{ intros r Hr. rewrite andb_true_r.
        destruct (String.eqb _ _) eqn:E; [|reflexivity].
        apply String.eqb_eq in E.
        rewrite <- E, (In_mem_key SavingsTransaction.id) in Hfresh by assumption.
        discriminate. }
    rewrite app_nil_r. cbn [app map length fire_on_deleted].
    cbn [update_savings_goal_amount]. unfold update_savings_goals.
    rewrite (rls_update_ok savings_goals_policies) by reflexivity.
    cbn [fst snd can_update savings_goals savings_transactions
           set_savings_goals set_savings_transactions].
    rewrite map_map. rewrite (map_ext _ (fun g => g))
      by (intros g; apply undo_adjust).
    rewrite map_id, undo_adjust_rows. cbn [bind fst snd].
    rewrite goal_rows_numeric by assumption.
    cbn [guard bind]. rewrite back_to_start, Hg, Ht.
    reflexivity.
  - intros T' o' HT' Hdel.
    apply delete_bypass_inv in Hdel. destruct Hdel as (Hs' & _).
    assert (Hd : distinct (map SavingsTransaction.id (savings_transactions d)) = true).
    { unfold savings_transactions_constraints in Ht. now apply andb_true_iff in Ht. }
    rewrite (filter_key_unique SavingsTransaction.id _ T' Hd HT') in Hs'.
    cbn [fold_left] in Hs'. exists (signed_amount T'). split.
    + apply transactions_typed in Ht. rewrite forallb_forall in Ht.
      specialize (Ht T' HT'). unfold signed_amount.
      destruct (check_transaction_type_cases _ Ht) as [E | E]; rewrite E; auto.
    + rewrite Hs'. cbn [savings_goals set_savings_goals].
      apply map_ext. intros G. unfold adjust.
      destruct (String.eqb _ _); reflexivity.
Qed.

(** ** Savings transactions cannot be rewritten or removed by API callers *)

(** *** What the deletion of goals leaves behind *)

Lemma update_no_match s w set d :
  savings_constraints d = true ->
  (forall g, In g (savings_goals d) -> w g = false) ->
  update_savings_goals s w set d = Ok (unchanged d).
Proof.
  intros Hc Hw. unfold update_savings_goals.
  rewrite (rls_update_untouched savings_goals_policies)
    by (intros g Hg; now rewrite (Hw g Hg)).
  cbn [bind guard forallb fst snd length]. rewrite set_savings_goals_same.
  unfold savings_constraints in Hc. rewrite Hc. reflexivity.
Qed.

Lemma fire_nowhere s rows : forall d,
  savings_constraints d = true ->
  (forall r g, In r rows -> In g (savings_goals d) ->
     String.eqb (SavingsGoal.id g) (SavingsTransaction.savings_goal_id r) = false) ->
  fire_on_deleted s rows d = Ok d.
Proof.
  induction rows as [|r rows IH]; intros d Hc H; cbn [fire_on_deleted].
  - reflexivity.
  - cbn [update_savings_goal_amount].
    rewrite update_no_match; [|assumption|].
    + cbn [result_map bind unchanged state]. apply IH; [assumption|].
      intros r' g Hr' Hg. apply H; [now right | assumption].
    + intros g Hg. apply H; [now left | assumption].
Qed.

Lemma mem_kept {R} (key : R -> string) (p : R -> bool) k l :
  mem k (map key l) = true ->
  mem k (map key (List.filter p l)) = false ->
  mem k (map key (List.filter (fun x => negb (p x)) l)) = true.
Proof.
  intros Hin Hout. apply mem_In, in_map_iff in Hin. destruct Hin as (x & <- & Hx).
  apply In_mem_key. apply filter_In. split; [assumption|].
  destruct (p x) eqn:E; [|reflexivity].
  rewrite In_mem_key in Hout by (apply filter_In; auto). discriminate.
Qed.

Lemma constraints_after_goal_removal (p : SavingsGoal.row -> bool) d :
  savings_constraints d = true ->
  savings_constraints
    (set_savings_transactions
       (List.filter
          (fun t => negb (mem (SavingsTransaction.savings_goal_id t)
                              (map SavingsGoal.id (List.filter p (savings_goals d)))))
          (savings_transactions d))
       (set_savings_goals (List.filter (fun g => negb (p g)) (savings_goals d)) d))
  = true.
Proof.
  intros Hc. apply savings_constraints_true in Hc. destruct Hc as [Cg Ct].
  apply savings_constraints_true. split.
  - unfold savings_goals_constraints in *.
    cbn [savings_goals set_savings_goals set_savings_transactions].
    apply andb_true_iff in Cg. destruct Cg as [Hd Hall].
    apply andb_true_iff. split; [now apply distinct_filter|].
    now apply forallb_filter_sub.
  - unfold savings_transactions_constraints in *.
    cbn [savings_goals savings_transactions set_savings_goals set_savings_transactions].
    apply andb_true_iff in Ct. destruct Ct as [Hd Hall].
    apply andb_true_iff. split; [now apply distinct_filter|].
    rewrite forallb_forall in *. intros t Ht. apply filter_In in Ht.
    destruct Ht as [Ht Hkeep]. specialize (Hall t Ht).
    unfold savings_transaction_row_ok in *.
    cbn [savings_goals set_savings_goals set_savings_transactions].
    rewrite !andb_true_iff in *. destruct Hall as [[H1 H2] H3].
    repeat split; try assumption.
    apply negb_true_iff in Hkeep. now apply mem_kept.
Qed.

Lemma delete_goals_commits s w d :
  savings_constraints d = true ->
  let p := fun g => w g && can_delete savings_goals_policies s d g in
  let gone := fun t => mem (SavingsTransaction.savings_goal_id t)
                           (map SavingsGoal.id (List.filter p (savings_goals d))) in
  delete_savings_goals s w d
  = Ok {| state :=
            set_savings_transactions
              (List.filter (fun t => negb (gone t)) (savings_transactions d))
              (set_savings_goals
                 (List.filter (fun g => negb (p g)) (savings_goals d)) d);
          rows_affected := length (List.filter p (savings_goals d));
          fired := map (pair TG_DELETE) (List.filter gone (savings_transactions d)) |}.
Proof.
  intros Hc p gone. pose proof (goals_distinct d Hc) as Hd.
  unfold delete_savings_goals, rls_delete. cbv zeta.
  cbn [fst snd savings_goals savings_transactions set_savings_goals
         set_savings_transactions].
  fold p.
  rewrite (filter_ext
             (fun r => mem (SavingsTransaction.savings_goal_id r)
                           (map SavingsGoal.id (List.filter p (savings_goals d)))
                       && can_delete savings_transactions_policies BypassRls
                            (set_savings_goals
                               (List.filter (fun r0 => negb (p r0)) (savings_goals d)) d) r)
             gone)
    by (intros t; apply andb_true_r).
  rewrite (filter_ext
             (fun r => negb (mem (SavingsTransaction.savings_goal_id r)
                           (map SavingsGoal.id (List.filter p (savings_goals d)))
                       && can_delete savings_transactions_policies BypassRls
                            (set_savings_goals
                               (List.filter (fun r0 => negb (p r0)) (savings_goals d)) d) r))
             (fun t => negb (gone t)))
    by (intros t; unfold gone; now rewrite andb_true_r).
  rewrite fire_nowhere.
  - reflexivity.
  - apply (constraints_after_goal_removal p d Hc).
  - intros r g Hr Hg. cbn [savings_goals set_savings_goals set_savings_transactions] in Hg.
    apply filter_In in Hr. destruct Hr as [_ Hr]. unfold gone in Hr.
    apply mem_In, in_map_iff in Hr. destruct Hr as (g' & Hid & Hg').
    apply filter_In in Hg. destruct Hg as [Hg Hkeep].
    apply filter_In in Hg'. destruct Hg' as [Hg' Hgone].
    destruct (String.eqb _ _) eqn:E; [|reflexivity].
    apply String.eqb_eq in E. rewrite <- Hid in E.
    assert (g = g') as -> by (apply (key_injective SavingsGoal.id (savings_goals d)); auto).
    unfold p in Hgone. rewrite Hgone in Hkeep. discriminate.
Qed.

(** C7 (amended). Under row-level security no caller, whoever owns the
    referenced goal, holds an UPDATE or a DELETE policy on
    [savings_transactions]: such a statement affects zero rows, changes
    nothing and does not fire the balance trigger. The DELETE branch of the
    trigger still runs from a caller's statement: a DELETE on
    [savings_goals] commits, removes the selected goals the caller owns
    and, through the cascade, exactly the transactions that refer to them,
    and the row trigger runs once for each removed transaction, in table
    order, finding no goal row left to adjust. *)
Theorem transactions_append_only_for_callers (uid : option uuid) (d : db) :
  savings_constraints d = true ->
  (forall r, can_update savings_transactions_policies (Rls uid) d r = false
             /\ can_delete savings_transactions_policies (Rls uid) d r = false)
  /\ (forall w set,
        update_savings_transactions (Rls uid) w set d = Ok (unchanged d))
  /\ (forall w, delete_savings_transactions (Rls uid) w d = Ok (unchanged d))
  /\ (forall w,
        let deleted := fun g =>
          w g && is_true (sql_eq uid (Some (SavingsGoal.user_id g))) in
        let removed := fun t =>
          mem (SavingsTransaction.savings_goal_id t)
              (map SavingsGoal.id (List.filter deleted (savings_goals d))) in
        exists o,
          delete_savings_goals (Rls uid) w d = Ok o
          /\ savings_goals (state o)
             = List.filter (fun g => negb (deleted g)) (savings_goals d)
          /\ savings_transactions (state o)
             = List.filter (fun t => negb (removed t)) (savings_transactions d)
          /\ fired o
             = map (pair TG_DELETE) (List.filter removed (savings_transactions d))).
Proof.
  intros Hc. split; [|split; [|split]].
  - intros r. split; [apply transactions_cannot_update | apply transactions_cannot_delete].
  - intros w set. apply update_under_rls.
    now apply savings_constraints_true in Hc.
  - intros w. apply delete_under_rls.
  - intros w deleted removed.
    pose proof (delete_goals_commits (Rls uid) w d Hc) as H. cbv zeta in H.
    assert (Hp : forall g,
              w g && can_delete savings_goals_policies (Rls uid) d g = deleted g).
    { intros g. unfold deleted, can_delete. rewrite !goals_using.
      now rewrite andb_diag. }
    assert (Hgone : List.filter
                      (fun g => w g && can_delete savings_goals_policies (Rls uid) d g)
                      (savings_goals d)
                    = List.filter deleted (savings_goals d))
      by (apply filter_ext; exact Hp).
    rewrite Hgone in H. fold removed in H.
    eexists. split; [exact H|].
    cbn [state fired savings_goals savings_transactions set_savings_goals
           set_savings_transactions].
    split; [|split; reflexivity].
    apply filter_ext. intros g. now rewrite Hp.
Qed.

(** ** Who may update a profile *)

Lemma profiles_update_policy d uid p :
  using_ok profiles_policies UPDATE d uid p
  = is_true (sql_eq uid (Some (Profile.user_id p))).
Proof.
  unfold using_ok, profiles_policies, using_qual. simpl.
  now rewrite orb_false_r.
Qed.

Lemma profiles_update_check d uid p :
  check_ok profiles_policies UPDATE d uid p
  = is_true (sql_eq uid (Some (Profile.user_id p))).
Proof.
  unfold check_ok, profiles_policies, check_qual, using_qual. simpl.
  now rewrite orb_false_r.
Qed.

Lemma is_true_sql_eq_own uid u :
  is_true (sql_eq uid (Some u)) = true <-> uid = Some u.
Proof.
  destruct uid as [v|]; simpl.
  - destruct (String.eqb v u) eqn:E.
    + apply String.eqb_eq in E. subst. tauto.
    + apply String.eqb_neq in E. split; [discriminate | congruence].
  - split; discriminate.
Qed.

Lemma profile_can_write d uid p :
  can_write_updated profiles_policies (Rls uid) d p = true
  <-> uid = Some (Profile.user_id p).
Proof.
  unfold can_write_updated. rewrite profiles_update_check.
  apply is_true_sql_eq_own.
Qed.

Lemma filter_and {R} (a b : R -> bool) l :
  List.filter (fun x => a x && b x) l = List.filter b (List.filter a l).
Proof.
  induction l as [|x l IH]; cbn [List.filter]; [reflexivity|].
  destruct (a x); cbn [andb List.filter]; [|exact IH].
  destruct (b x); now rewrite IH.
Qed.

Lemma with_name_role_table n r (c : Profile.row -> bool) l :
  map Profile.id (map (fun q => if c q then with_name_role n r q else q) l)
  = map Profile.id l
  /\ map Profile.user_id (map (fun q => if c q then with_name_role n r q else q) l)
     = map Profile.user_id l.
Proof.
  rewrite !map_map. split; apply map_ext; intros q; now destruct (c q).
Qed.

Lemma profile_can_update_unread d uid p :
  can_update_unread profiles_policies (Rls uid) d p = true
  <-> uid = Some (Profile.user_id p).
Proof.
  unfold can_update_unread. rewrite profiles_update_policy.
  apply is_true_sql_eq_own.
Qed.

Lemma assign_profiles_inv s n r d o :
  assign_profiles s n r d = Ok o ->
  profiles (state o)
  = map (fun q => if can_update_unread profiles_policies s d q
                  then with_name_role n r q else q) (profiles d).
Proof.
  unfold assign_profiles. rewrite profiles_unread_update_expands. cbn [bind].
  destruct (rls_update_unread _ _ _ _ _) as [u|] eqn:U; cbn [bind]; [|discriminate].
  destruct (profiles_constraints _); cbn [guard bind]; [|discriminate].
  intros H. match type of H with Ok ?x = Ok _ => assert (o = x) as -> by congruence end.
  cbn [state profiles set_profiles].
  now destruct (rls_update_unread_inv _ _ _ _ _ _ U) as [-> _].
Qed.

(** C9 (amended). The UPDATE policy on [profiles] looks at the row only: it
    admits a profile exactly when it is the caller's own, accepts the
    updated row exactly when it still is, and singles out no column. Where
    this policy is the one that decides, in an UPDATE that needs no SELECT
    right, the owner rewrites [full_name] and [role] alike (any role the
    CHECK admits) and exactly the owner's profile is rewritten. No policy
    gives a caller with role [admin] an UPDATE right on the profiles of
    others: whatever such an UPDATE assigns, the profiles the caller does
    not own stay as they are. *)
Theorem profile_update_rights (d : db) (uid : option uuid) :
  profiles_constraints d = true ->
  (forall p, can_update_unread profiles_policies (Rls uid) d p = true
             <-> uid = Some (Profile.user_id p))
  /\ (forall p, can_write_updated profiles_policies (Rls uid) d p = true
                <-> uid = Some (Profile.user_id p))
  /\ (forall p n r,
        In p (profiles d) -> uid = Some (Profile.user_id p) ->
        check_role r = true ->
        assign_profiles (Rls uid) n r d
        = Ok {| state :=
                  set_profiles
                    (map (fun q => if String.eqb (Profile.id q) (Profile.id p)
                                   then with_name_role n r q else q)
                         (profiles d)) d;
                rows_affected := 1;
                fired := [] |})
  /\ (forall n r o,
        assign_profiles (Rls uid) n r d = Ok o ->
        List.filter (fun q => negb (is_true (sql_eq uid (Some (Profile.user_id q)))))
          (profiles (state o))
        = List.filter (fun q => negb (is_true (sql_eq uid (Some (Profile.user_id q)))))
            (profiles d)).
Proof.
  intros Hc. split; [|split; [|split]].
  - intros p. apply profile_can_update_unread.
  - intros p. apply profile_can_write.
  - intros p n r Hp Hu Hr.
    apply profiles_constraints_parts in Hc. destruct Hc as (Hi & Hus & Hall).
    assert (Hsel : forall q, In q (profiles d) ->
              can_update_unread profiles_policies (Rls uid) d q
              = String.eqb (Profile.id q) (Profile.id p)).
    { intros q Hq. destruct (String.eqb _ _) eqn:E.
      - apply String.eqb_eq in E.
        assert (q = p) as -> by (apply (key_injective Profile.id (profiles d)); auto).
        now apply profile_can_update_unread.
      - destruct (can_update_unread profiles_policies (Rls uid) d q) eqn:U;
          [|reflexivity].
        apply profile_can_update_unread in U.
        assert (q = p) as ->
          by (apply (key_injective Profile.user_id (profiles d)); auto; congruence).
        rewrite String.eqb_refl in E. discriminate. }
    unfold assign_profiles. rewrite profiles_unread_update_expands. cbn [bind].
    rewrite (rls_update_unread_ok profiles_policies).
    2:{ intros q Hq Hs. apply profile_can_write.
        cbn [with_name_role Profile.user_id].
        now apply profile_can_update_unread in Hs. }
    cbn [bind fst snd].
    rewrite (map_ext_in
               (fun q => if can_update_unread profiles_policies (Rls uid) d q
                         then with_name_role n r q else q)
               (fun q => if String.eqb (Profile.id q) (Profile.id p)
                         then with_name_role n r q else q))
      by (intros q Hq; now rewrite Hsel).
    rewrite (filter_ext_in (can_update_unread profiles_policies (Rls uid) d)
               (fun q => String.eqb (Profile.id q) (Profile.id p)))
      by (intros q Hq; now apply Hsel).
    rewrite (filter_key_unique Profile.id _ p Hi Hp). cbn [map length].
    match goal with
    | |- context [profiles_constraints ?x] =>
        assert (profiles_constraints x = true) as ->; [|reflexivity]
    end.
    apply profiles_constraints_parts.
    cbn [profiles auth_users set_profiles].
    destruct (with_name_role_table n r
                (fun q => String.eqb (Profile.id q) (Profile.id p)) (profiles d))
      as [-> ->].
    split; [exact Hi|]. split; [exact Hus|].
    rewrite forallb_forall in *. intros q Hq. apply in_map_iff in Hq.
    destruct Hq as (q0 & <- & Hq0). specialize (Hall q0 Hq0).
    destruct (String.eqb _ _); [|exact Hall].
    cbn [with_name_role Profile.role Profile.user_id].
    apply andb_true_iff in Hall. destruct Hall as [_ Hm]. now rewrite Hr, Hm.
  - intros n r o H. rewrite (assign_profiles_inv _ _ _ _ _ H).
    unfold can_update_unread. clear H.
    induction (profiles d) as [|q l IH]; cbn [map List.filter]; [reflexivity|].
    rewrite profiles_update_policy.
    destruct (is_true (sql_eq uid (Some (Profile.user_id q)))) eqn:E.
    + cbn [with_name_role Profile.user_id]. rewrite E. cbn [negb]. exact IH.
    + rewrite E. cbn [negb]. now rewrite IH.
Qed.

(** ** Who writes [current_amount] *)

Lemma with_current_amount_ids v (c : SavingsGoal.row -> bool) l :
  map SavingsGoal.id (map (fun x => if c x then with_current_amount v x else x) l)
  = map SavingsGoal.id l.
Proof. rewrite map_map. apply map_ext. intros x. now destruct (c x). Qed.

Lemma goal_row_ok_amount d v g :
  savings_goal_row_ok d g = true -> numeric_15_2 v = true ->
  savings_goal_row_ok d (with_current_amount v g) = true.
Proof.
  unfold savings_goal_row_ok. cbn [with_current_amount SavingsGoal.goal_type
    SavingsGoal.target_amount SavingsGoal.current_amount SavingsGoal.user_id].
  rewrite !andb_true_iff. intros [[[H1 H2] _] H4] Hv. auto.
Qed.

(** C6 (amended). The goal form of the savings page never carries
    [current_amount]: editing a goal leaves every stored balance as it was
    and a new goal starts from the column default 0. The policy layer,
    however, decides on the row and not on the column: the owner's UPDATE
    that assigns [current_amount] directly is accepted and changes the
    balance without any transaction being written. *)
Theorem current_amount_writes (to_numeric : string -> option Z) (user : uuid)
    (f : GoalForm.data) (editingGoal : option SavingsGoal.row)
    (gen_random_uuid : uuid) (d : db) :
  savings_constraints d = true ->
  (forall o,
     handleGoalSubmit to_numeric user f editingGoal gen_random_uuid d = Ok o ->
     map SavingsGoal.current_amount (savings_goals (state o))
     = map SavingsGoal.current_amount (savings_goals d)
     \/ (editingGoal = None
         /\ map SavingsGoal.current_amount (savings_goals (state o))
            = map SavingsGoal.current_amount (savings_goals d) ++ [0]))
  /\ (forall g v,
        In g (savings_goals d) -> numeric_15_2 v = true ->
        update_savings_goals (Rls (Some (SavingsGoal.user_id g)))
          (fun x => String.eqb (SavingsGoal.id x) (SavingsGoal.id g))
          (with_current_amount v) d
        = Ok {| state :=
                  set_savings_goals
                    (map (fun x => if String.eqb (SavingsGoal.id x) (SavingsGoal.id g)
                                   then with_current_amount v x else x)
                         (savings_goals d)) d;
                rows_affected := 1;
                fired := [] |}).
Proof.
  intros Hc. split.
  - intros o H. unfold handleGoalSubmit in H.
    destruct (falsy (GoalForm.name f) || falsy (GoalForm.target_amount f)).
    { left. match type of H with Ok ?x = Ok _ => assert (o = x) as -> by congruence end.
      reflexivity. }
    destruct (to_numeric (GoalForm.target_amount f)) as [target|]; [|discriminate].
    destruct editingGoal as [g|].
    + left. apply update_savings_goals_inv in H. destruct H as (-> & _).
      cbn [savings_goals set_savings_goals]. rewrite map_map.
      apply map_ext. intros x. now destruct (_ && _).
    + right. split; [reflexivity|].
      unfold insert_savings_goal, rls_insert in H.
      destruct (_ && _); cbn [bind guard] in H; [|discriminate].
      destruct (can_insert _ _ _ _); cbn [bind guard] in H; [|discriminate].
      destruct (savings_goals_constraints _); cbn [bind guard] in H; [|discriminate].
      match type of H with Ok ?x = Ok _ => assert (o = x) as -> by congruence end.
      cbn [state savings_goals set_savings_goals]. now rewrite List.map_app.
  - intros g v Hg Hv.
    pose proof (goals_distinct d Hc) as Hd.
    apply savings_constraints_true in Hc. destruct Hc as [Cg Ct].
    assert (Hrows : forallb (savings_goal_row_ok d) (savings_goals d) = true).
    { unfold savings_goals_constraints in Cg. now apply andb_true_iff in Cg. }
    assert (Hsel : forall x, In x (savings_goals d) ->
              String.eqb (SavingsGoal.id x) (SavingsGoal.id g)
              && can_update savings_goals_policies
                   (Rls (Some (SavingsGoal.user_id g))) d x
              = String.eqb (SavingsGoal.id x) (SavingsGoal.id g)).
    { intros x Hx. destruct (String.eqb _ _) eqn:E; [|reflexivity].
      apply String.eqb_eq in E.
      assert (x = g) as -> by (apply (key_injective SavingsGoal.id (savings_goals d)); auto).
      rewrite goal_can_update, sql_eq_some. cbn [andb]. apply String.eqb_refl. }
    unfold update_savings_goals. rewrite (rls_update_ok savings_goals_policies).
    2:{ intros x Hx Hs. apply goal_can_write_amount.
        apply andb_true_iff in Hs. tauto. }
    cbn [bind fst snd].
    rewrite (map_ext_in
               (fun x => if String.eqb (SavingsGoal.id x) (SavingsGoal.id g)
                            && can_update savings_goals_policies
                                 (Rls (Some (SavingsGoal.user_id g))) d x
                         then with_current_amount v x else x)
               (fun x => if String.eqb (SavingsGoal.id x) (SavingsGoal.id g)
                         then with_current_amount v x else x))
      by (intros x Hx; now rewrite Hsel).
    rewrite (filter_ext_in _ (fun x => String.eqb (SavingsGoal.id x) (SavingsGoal.id g)))
      by (intros x Hx; now apply Hsel).
    rewrite (filter_key_unique SavingsGoal.id _ g Hd Hg).
    rewrite forallb_forall in Hrows. pose proof (Hrows g Hg) as Hrow.
    pose proof (goal_row_ok_amount d v g Hrow Hv) as Hrow'.
    cbn [map length forallb with_current_amount SavingsGoal.target_amount
           SavingsGoal.current_amount].
    unfold savings_goal_row_ok in Hrow. rewrite !andb_true_iff in Hrow.
    destruct Hrow as [[[_ Htarget] _] _]. rewrite Htarget, Hv. cbn [andb guard bind].
    match goal with
    | |- context [savings_goals_constraints ?x && savings_transactions_constraints ?x] =>
        assert (savings_goals_constraints x && savings_transactions_constraints x
                = true) as ->; [|reflexivity]
    end.
    apply andb_true_iff. split.
    + unfold savings_goals_constraints.
      cbn [savings_goals set_savings_goals].
      rewrite with_current_amount_ids. apply andb_true_iff. split; [exact Hd|].
      apply forallb_forall. intros x Hx. apply in_map_iff in Hx.
      destruct Hx as (x0 & <- & Hx0).
      destruct (String.eqb _ _).
      * now apply (goal_row_ok_amount d v x0 (Hrows x0 Hx0) Hv).
      * exact (Hrows x0 Hx0).
    + unfold savings_transactions_constraints, savings_transaction_row_ok in *.
      cbn [savings_goals savings_transactions set_savings_goals].
      now rewrite with_current_amount_ids.
Qed.

(** * The statements at work on the small database *)

Example demo_constraints :
  profiles_constraints Demo.fresh = true
  /\ income_records_constraints Demo.fresh = true
  /\ expense_records_constraints Demo.fresh = true
  /\ savings_constraints Demo.fresh = true
  /\ savings_constraints Demo.deposited = true
  /\ savings_constraints Demo.used = true.
Proof. vm_compute. repeat split; reflexivity. Qed.

(** Balance 0, deposit 100.00 gives 100.00, withdrawal 30.00 gives 70.00,
    removing the withdrawal restores 100.00. *)
Example demo_balances :
  map (fun d => map SavingsGoal.current_amount (savings_goals d))
      (history Demo.statements Demo.fresh)
  = [[10000]; [7000]; [10000]].
Proof. vm_compute. reflexivity. Qed.

Example demo_history :
  history Demo.statements Demo.fresh = [Demo.deposited; Demo.used; Demo.deposited].
Proof. vm_compute. reflexivity. Qed.

(** A stranger who names the goal gets nothing and changes nothing. *)
Example demo_stranger :
  select_savings_goals (Rls (Some "B")) (Demo.by_id SavingsGoal.id "g1") Demo.used = []
  /\ update_savings_goals (Rls (Some "B")) (Demo.by_id SavingsGoal.id "g1")
       (with_current_amount 1) Demo.used = Ok (unchanged Demo.used)
  /\ handleDeleteGoal "B" "g1" Demo.used = Ok (unchanged Demo.used)
  /\ insert_savings_transaction (Rls (Some "B"))
       (Demo.tx "t9" "g1" "withdrawal" 7000) Demo.used = Err AuthorizationDenied
  /\ select_savings_transactions (Rls (Some "B")) (fun _ => true) Demo.used = []
  /\ select_savings_transactions (Rls (Some "A")) (fun _ => true) Demo.used
     = savings_transactions Demo.used.
Proof. vm_compute. repeat split; reflexivity. Qed.

(** C1, witness. *)
Lemma balance_follows_transactions_witness :
  Forall (balance_ok "g1") (history Demo.statements Demo.fresh).
Proof.
  refine (proj1 (balance_follows_transactions "g1" Demo.fresh Demo.statements _ _)).
  - vm_compute. reflexivity.
  - intros G [<- | []] _. vm_compute. reflexivity.
Defined.

(** C2, witness: the withdrawal of 30.00 is inserted, then removed. *)
Lemma delete_reverses_insert_witness :
  delete_savings_transactions BypassRls
    (fun t => String.eqb (SavingsTransaction.id t) "t2") Demo.used
  = Ok {| state := Demo.deposited; rows_affected := 1;
          fired := [(TG_DELETE, Demo.tx "t2" "g1" "withdrawal" 3000)] |}.
Proof.
  refine (proj1 (delete_reverses_insert (Rls (Some "A"))
                   (Demo.tx "t2" "g1" "withdrawal" 3000) Demo.deposited
                   {| state := Demo.used; rows_affected := 1;
                      fired := [(TG_INSERT, Demo.tx "t2" "g1" "withdrawal" 3000)] |}
                   _ _)).
  - vm_compute. reflexivity.
  - vm_compute. reflexivity.
Defined.

(** C3, witness. *)
Lemma ownership_isolation_witness :
  isolates IncomeRecord.user_id income_records select_income_records
    insert_income_record update_income_records delete_income_records
    "A" "B" Demo.fresh
  /\ isolates ExpenseRecord.user_id expense_records select_expense_records
       insert_expense_record update_expense_records delete_expense_records
       "A" "B" Demo.fresh
  /\ isolates SavingsGoal.user_id savings_goals select_savings_goals
       insert_savings_goal update_savings_goals delete_savings_goals
       "A" "B" Demo.fresh.
Proof.
  apply (ownership_isolation "A" "B" Demo.fresh).
  - discriminate.
  - vm_compute. reflexivity.
  - vm_compute. reflexivity.
  - vm_compute. reflexivity.
Defined.

(** C4, witness: the owner's and a stranger's view of the deposit. *)
Lemma transaction_access_follows_goal_owner_witness :
  can_select savings_transactions_policies (Rls (Some "A")) Demo.used
    (Demo.tx "t1" "g1" "deposit" 10000) = true
  /\ exists e, insert_savings_transaction (Rls (Some "B"))
                 (Demo.tx "t1" "g1" "deposit" 10000) Demo.used = Err e.
Proof.
  destruct (transaction_access_follows_goal_owner Demo.used
              (Demo.tx "t1" "g1" "deposit" 10000) (Demo.goal "g1" "A" 7000)
              (Some "A")) as (Hsel & _).
  { vm_compute. reflexivity. }
  { vm_compute. reflexivity. }
  destruct (transaction_access_follows_goal_owner Demo.used
              (Demo.tx "t1" "g1" "deposit" 10000) (Demo.goal "g1" "A" 7000)
              (Some "B")) as (_ & _ & _ & Hins).
  { vm_compute. reflexivity. }
  { vm_compute. reflexivity. }
  split.
  - apply Hsel. reflexivity.
  - apply Hins. discriminate.
Defined.

(** C5, witness: a signup named Esi whose metadata asks for [admin]. *)
Lemma provisioning_creates_one_profile_witness :
  exists o,
    insert_auth_user (Demo.signup "admin") "pN" Demo.fresh = Ok o
    /\ profiles (state o)
       = profiles Demo.fresh ++ [Demo.profile "pN" "N" "Esi" "user"]
    /\ insert_auth_user (Demo.signup "admin") "pM" (state o)
       = Err ConstraintViolation.
Proof.
  destruct (provisioning_creates_one_profile (Demo.signup "admin") "pN" Demo.fresh)
    as [Hdone Hcan].
  destruct Hcan as [o Ho].
  { vm_compute. reflexivity. }
  { vm_compute. reflexivity. }
  { vm_compute. reflexivity. }
  exists o. split; [exact Ho|].
  destruct (Hdone o Ho) as (_ & p & _ & _ & _ & _ & _ & _ & Hagain).
  split.
  - clear Hagain. vm_compute in Ho. injection Ho as Ho. subst o.
    vm_compute. reflexivity.
  - apply Hagain. reflexivity.
Defined.

(** C6, witness: editing the goal through the form, and writing the balance
    directly. *)
Lemma current_amount_writes_witness :
  (forall o,
     handleGoalSubmit (fun _ => Some 600000) "A" Demo.goal_form
       (Some (Demo.goal "g1" "A" 7000)) "g2" Demo.used = Ok o ->
     map SavingsGoal.current_amount (savings_goals (state o)) = [7000])
  /\ update_savings_goals (Rls (Some "A")) (Demo.by_id SavingsGoal.id "g1")
       (with_current_amount 99900) Demo.used
     = Ok {| state := set_savings_goals [Demo.goal "g1" "A" 99900] Demo.used;
             rows_affected := 1; fired := [] |}.
Proof.
  destruct (current_amount_writes (fun _ => Some 600000) "A" Demo.goal_form
              (Some (Demo.goal "g1" "A" 7000)) "g2" Demo.used) as [Hform Hdirect].
  { vm_compute. reflexivity. }
  split.
  - intros o Ho. destruct (Hform o Ho) as [H | [H _]]; [exact H | discriminate H].
  - exact (Hdirect (Demo.goal "g1" "A" 7000) 99900 (or_introl eq_refl) eq_refl).
Defined.

(** C7, witness: the owner tries to rewrite and to remove her own deposit,
    and then deletes the goal itself. *)
Lemma transactions_append_only_for_callers_witness :
  update_savings_transactions (Rls (Some "A")) (Demo.by_id SavingsTransaction.id "t1")
    (fun t => t) Demo.used = Ok (unchanged Demo.used)
  /\ delete_savings_transactions (Rls (Some "A"))
       (Demo.by_id SavingsTransaction.id "t1") Demo.used = Ok (unchanged Demo.used)
  /\ exists o,
       delete_savings_goals (Rls (Some "A")) (Demo.by_id SavingsGoal.id "g1")
         Demo.used = Ok o
       /\ savings_transactions (state o) = []
       /\ fired o = [ (TG_DELETE, Demo.tx "t1" "g1" "deposit" 10000);
                      (TG_DELETE, Demo.tx "t2" "g1" "withdrawal" 3000) ].
Proof.
  destruct (transactions_append_only_for_callers (Some "A") Demo.used)
    as (_ & Hup & Hdel & Hgoal).
  { vm_compute. reflexivity. }
  split; [apply Hup|]. split; [apply Hdel|].
  destruct (Hgoal (Demo.by_id SavingsGoal.id "g1")) as (o & Ho & _ & Ht & Hf).
  exists o. split; [exact Ho|]. split.
  - rewrite Ht. reflexivity.
  - rewrite Hf. reflexivity.
Defined.

(** C9, witness: Kofi promotes himself; the admin cannot rename Ama. *)
Lemma profile_update_rights_witness :
  assign_profiles (Rls (Some "B")) "Kofi" "admin" Demo.fresh
  = Ok {| state :=
            set_profiles
              [ Demo.profile "pA" "A" "Ama" "user";
                Demo.profile "pB" "B" "Kofi" "admin";
                Demo.profile "pR" "R" "Root" "admin" ] Demo.fresh;
          rows_affected := 1; fired := [] |}
  /\ (forall o, assign_profiles (Rls (Some "R")) "Renamed" "user" Demo.fresh = Ok o ->
        List.filter (fun q => negb (String.eqb (Profile.user_id q) "R"))
          (profiles (state o))
        = [ Demo.profile "pA" "A" "Ama" "user"; Demo.profile "pB" "B" "Kofi" "user" ]).
Proof.
  destruct (profile_update_rights Demo.fresh (Some "B")) as (_ & _ & Hown & _).
  { vm_compute. reflexivity. }
  destruct (profile_update_rights Demo.fresh (Some "R")) as (_ & _ & _ & Hother).
  { vm_compute. reflexivity. }
  split.
  - exact (Hown (Demo.profile "pB" "B" "Kofi" "user") "Kofi" "admin"
             (or_intror (or_introl eq_refl)) eq_refl eq_refl).
  - intros o Ho. apply Hother in Ho.
    rewrite (filter_ext
               (fun q => negb (String.eqb (Profile.user_id q) "R"))
               (fun q => negb (is_true (sql_eq (Some "R") (Some (Profile.user_id q))))))
      by (intros q; rewrite sql_eq_some; f_equal; apply String.eqb_sym).
    exact Ho.
Defined.

(** C10, witness: the same signup asking for [admin] and for [user]. *)
Lemma provisioned_role_ignores_metadata_witness :
  result_map (fun o => profiles (state o))
    (insert_auth_user (Demo.signup "admin") "pN" Demo.fresh)
  = result_map (fun o => profiles (state o))
      (insert_auth_user (Demo.signup "user") "pN" Demo.fresh).
Proof.
  refine (proj1 (provisioned_role_ignores_metadata
                   (Demo.signup "admin") (Demo.signup "user") "pN" Demo.fresh _ _ _)).
  - reflexivity.
  - reflexivity.
  - intros k Hk. unfold Demo.signup. cbn [AuthUser.raw_user_meta_data].
    destruct (decide (k = "full_name")) as [-> | Hn].
    + now rewrite !lookup_insert_eq.
    + rewrite !lookup_insert_ne by congruence.
      now rewrite !lookup_singleton_ne by congruence.
Defined.

(** * Where the code departs from the specification *)

(** C6, counterexample. On a goal without any transaction the owner assigns
    [current_amount] directly; were direct writes disallowed, the stored
    balances would be as before. *)
Lemma direct_balance_write_accepted :
  ~ (forall o,
       update_savings_goals (Rls (Some "A")) (Demo.by_id SavingsGoal.id "g1")
         (with_current_amount 99900) Demo.fresh = Ok o ->
       map SavingsGoal.current_amount (savings_goals (state o))
       = map SavingsGoal.current_amount (savings_goals Demo.fresh)).
Proof.
  intros H.
  specialize (H {| state := set_savings_goals [Demo.goal "g1" "A" 99900] Demo.fresh;
                   rows_affected := 1; fired := [] |}).
  assert (E : [99900] = [0]) by (apply H; vm_compute; reflexivity).
  discriminate E.
Qed.

(** C7, counterexample. The owner deletes her goal from the savings page;
    were the DELETE branch of the trigger out of reach of regular users, no
    invocation would be recorded. *)
Lemma goal_deletion_fires_delete_branch :
  ~ (forall o, handleDeleteGoal "A" "g1" Demo.used = Ok o -> fired o = []).
Proof.
  intros H.
  specialize (H {| state := set_savings_transactions []
                              (set_savings_goals [] Demo.used);
                   rows_affected := 1;
                   fired := [ (TG_DELETE, Demo.tx "t1" "g1" "deposit" 10000);
                              (TG_DELETE, Demo.tx "t2" "g1" "withdrawal" 3000) ] |}).
  assert (E : [ (TG_DELETE, Demo.tx "t1" "g1" "deposit" 10000);
                (TG_DELETE, Demo.tx "t2" "g1" "withdrawal" 3000) ] = [])
    by (apply H; vm_compute; reflexivity).
  discriminate E.
Qed.

(** C9, counterexample. An ordinary user rewrites the [role] of his own
    profile, which "name only" excludes; and the admin, by the UPDATE with
    a WHERE clause as by the one without, does not get another user's
    profile renamed, which "any field of any profile" excludes. *)
Lemma profile_rights_differ :
  ~ (forall o,
       assign_profiles (Rls (Some "B")) "Kofi" "admin" Demo.fresh = Ok o ->
       map Profile.role (profiles (state o))
       = map Profile.role (profiles Demo.fresh))
  /\ ~ (exists o,
          (update_profiles (Rls (Some "R")) (Demo.by_id Profile.user_id "A")
             (with_name_role "Renamed" "user") Demo.fresh = Ok o
           \/ assign_profiles (Rls (Some "R")) "Renamed" "user" Demo.fresh = Ok o)
          /\ In (Demo.profile "pA" "A" "Renamed" "user") (profiles (state o))).
Proof.
  split.
  - intros H.
    specialize (H {| state :=
                       set_profiles
                         [ Demo.profile "pA" "A" "Ama" "user";
                           Demo.profile "pB" "B" "Kofi" "admin";
                           Demo.profile "pR" "R" "Root" "admin" ] Demo.fresh;
                     rows_affected := 1; fired := [] |}).
    assert (E : ["user"; "admin"; "admin"] = ["user"; "user"; "admin"])
      by (apply H; vm_compute; reflexivity).
    discriminate E.
  - intros (o & [Ho | Ho] & Hin).
    + assert (E : update_profiles (Rls (Some "R")) (Demo.by_id Profile.user_id "A")
                    (with_name_role "Renamed" "user") Demo.fresh
                  = Err InfiniteRecursion) by (vm_compute; reflexivity).
      rewrite E in Ho. discriminate Ho.
    + assert (E : assign_profiles (Rls (Some "R")) "Renamed" "user" Demo.fresh
                  = Ok {| state :=
                            set_profiles
                              [ Demo.profile "pA" "A" "Ama" "user";
                                Demo.profile "pB" "B" "Kofi" "user";
                                Demo.profile "pR" "R" "Renamed" "user" ] Demo.fresh;
                          rows_affected := 1; fired := [] |})
        by (vm_compute; reflexivity).
      rewrite E in Ho.
      match type of Ho with Ok ?x = Ok _ => assert (o = x) as -> by congruence end.
      cbn [state profiles set_profiles In] in Hin.
      destruct Hin as [Hin | [Hin | [Hin | []]]]; discriminate Hin.
Qed.

(** * Further properties of the pages and of the schema *)

(** ** What the fetches return *)

Section OrderBy.
Context {R : Type}.
Variable le : R -> R -> bool.

Lemma insert_sorted_perm x l : Permutation (insert_sorted le x l) (x :: l).
Proof.
  induction l as [|y l IH]; cbn [insert_sorted]; [reflexivity|].
  destruct (le x y); [reflexivity|].
  rewrite IH. apply perm_swap.
Qed.

Lemma order_by_perm l : Permutation (order_by le l) l.
Proof.
  induction l as [|x l IH]; cbn [order_by fold_right]; [reflexivity|].
  fold (order_by le l). rewrite insert_sorted_perm. now apply perm_skip.
Qed.

(** A row that comes strictly before all the others comes out first. *)
Lemma order_by_first x l acc :
  (forall y, In y l -> le y x = false) ->
  fold_right (insert_sorted le) (x :: acc) l
  = x :: fold_right (insert_sorted le) acc l.
Proof.
  induction l as [|y l IH]; intros H; cbn [fold_right]; [reflexivity|].
  rewrite IH by (intros z Hz; apply H; now right).
  cbn [insert_sorted]. now rewrite (H y (or_introl eq_refl)).
Qed.

Lemma order_by_snoc x l :
  (forall y, In y l -> le y x = false) ->
  order_by le (l ++ [x]) = x :: order_by le l.
Proof.
  intros H. unfold order_by. rewrite fold_right_app. cbn [fold_right insert_sorted].
  now apply order_by_first.
Qed.
End OrderBy.

Section NewestFirst.
Context {R : Type}.
Variable created_at : R -> Z.

Lemma insert_newest_first x l :
  StronglySorted (fun a b => created_at b <= created_at a) l ->
  StronglySorted (fun a b => created_at b <= created_at a)
    (insert_sorted (newest_first created_at) x l).
Proof.
  induction l as [|y l IH]; intros Hs; cbn [insert_sorted].
  - constructor; constructor.
  - apply StronglySorted_inv in Hs. destruct Hs as [Hs Hy].
    destruct (newest_first created_at x y) eqn:E; unfold newest_first in E.
    + apply Z.leb_le in E. constructor.
      * now constructor.
      * constructor; [assumption|].
        revert Hy. apply List.Forall_impl. intros z Hz. lia.
    + apply Z.leb_gt in E. constructor; [now apply IH|].
      apply (Permutation_Forall (Permutation_sym (insert_sorted_perm _ x l))).
      constructor; [lia | assumption].
Qed.

Lemma order_by_newest_first l :
  StronglySorted (fun a b => created_at b <= created_at a)
    (order_by (newest_first created_at) l).
Proof.
  induction l as [|x l IH]; cbn [order_by fold_right]; [constructor|].
  now apply insert_newest_first.
Qed.
End NewestFirst.

Lemma own_income_visible u p d :
  select_income_records (Rls (Some u)) p d
  = List.filter (fun r => String.eqb (IncomeRecord.user_id r) u && p r)
      (income_records d).
Proof.
  unfold select_income_records, rls_select. apply filter_ext. intros r.
  unfold can_select. rewrite income_using, (String.eqb_sym u).
  destruct (String.eqb _ u), (p r); reflexivity.
Qed.

Lemma own_expenses_visible u p d :
  select_expense_records (Rls (Some u)) p d
  = List.filter (fun r => String.eqb (ExpenseRecord.user_id r) u && p r)
      (expense_records d).
Proof.
  unfold select_expense_records, rls_select. apply filter_ext. intros r.
  unfold can_select. rewrite expense_using, (String.eqb_sym u).
  destruct (String.eqb _ u), (p r); reflexivity.
Qed.

Lemma own_goals_visible u p d :
  select_savings_goals (Rls (Some u)) p d
  = List.filter (fun r => String.eqb (SavingsGoal.user_id r) u && p r)
      (savings_goals d).
Proof.
  unfold select_savings_goals, rls_select. apply filter_ext. intros r.
  unfold can_select. rewrite goals_using, sql_eq_some, (String.eqb_sym u).
  destruct (String.eqb _ u), (p r); reflexivity.
Qed.

Lemma filter_twice {R} (f : R -> bool) l :
  List.filter (fun x => f x && f x) l = List.filter f l.
Proof. apply filter_ext. intros x. apply andb_diag. Qed.

(** X1. The list fetches of the income and savings pages return the
    caller's rows, all of them and no row of anybody else, the newest
    first; the three queries of the dashboard return, in some order, the
    caller's rows that match the selected quarter, year and currency; and
    a query that leaves the owner filter out returns the same rows, the
    policy supplying it. *)
Theorem fetches_return_own_rows (user : uuid) (d : db) :
  (forall created_at,
     Permutation (IncomePage.fetchIncomeRecords created_at user d)
       (List.filter (fun r => String.eqb (IncomeRecord.user_id r) user)
          (income_records d))
     /\ StronglySorted (fun a b => created_at b <= created_at a)
          (IncomePage.fetchIncomeRecords created_at user d))
  /\ (forall created_at,
        Permutation (fetchSavingsGoals created_at user d)
          (List.filter (fun g => String.eqb (SavingsGoal.user_id g) user)
             (savings_goals d))
        /\ StronglySorted (fun a b => created_at b <= created_at a)
             (fetchSavingsGoals created_at user d))
  /\ (forall q y c,
        Permutation (DashboardPage.incomeData user q y c d)
          (map IncomeRecord.amount
             (List.filter
                (fun r => String.eqb (IncomeRecord.user_id r) user
                          && quarter_eqb (IncomeRecord.quarter r) q
                          && Z.eqb (IncomeRecord.year r) y
                          && currency_eqb (IncomeRecord.currency r) c)
                (income_records d)))
        /\ Permutation (DashboardPage.expenseData user q y c d)
             (map ExpenseRecord.amount
                (List.filter
                   (fun r => String.eqb (ExpenseRecord.user_id r) user
                             && quarter_eqb (ExpenseRecord.quarter r) q
                             && Z.eqb (ExpenseRecord.year r) y
                             && currency_eqb (ExpenseRecord.currency r) c)
                   (expense_records d)))
        /\ Permutation (DashboardPage.goalsData user c d)
             (List.filter
                (fun g => String.eqb (SavingsGoal.user_id g) user
                          && Bool.eqb (SavingsGoal.is_active g) true
                          && currency_eqb (SavingsGoal.currency g) c)
                (savings_goals d)))
  /\ (forall p,
        Permutation (select_income_records (Rls (Some user)) p d)
          (select_income_records (Rls (Some user))
             (fun r => String.eqb (IncomeRecord.user_id r) user && p r) d))
  /\ (forall p,
        Permutation (select_expense_records (Rls (Some user)) p d)
          (select_expense_records (Rls (Some user))
             (fun r => String.eqb (ExpenseRecord.user_id r) user && p r) d))
  /\ (forall p,
        Permutation (select_savings_goals (Rls (Some user)) p d)
          (select_savings_goals (Rls (Some user))
             (fun g => String.eqb (SavingsGoal.user_id g) user && p g) d)).
Proof.
  split; [|split; [|split; [|split; [|split]]]].
  - intros created_at. unfold IncomePage.fetchIncomeRecords. split.
    + rewrite order_by_perm, own_income_visible, filter_twice. reflexivity.
    + apply order_by_newest_first.
  - intros created_at. unfold fetchSavingsGoals. split.
    + rewrite order_by_perm, own_goals_visible, filter_twice. reflexivity.
    + apply order_by_newest_first.
  - intros q y c. split; [|split].
    + unfold DashboardPage.incomeData. rewrite own_income_visible.
      apply Permutation_map.
      rewrite (filter_ext _
                 (fun r => String.eqb (IncomeRecord.user_id r) user
                           && quarter_eqb (IncomeRecord.quarter r) q
                           && Z.eqb (IncomeRecord.year r) y
                           && currency_eqb (IncomeRecord.currency r) c));
        [reflexivity|].
      intros r. now destruct (String.eqb _ user).
    + unfold DashboardPage.expenseData. rewrite own_expenses_visible.
      apply Permutation_map.
      rewrite (filter_ext _
                 (fun r => String.eqb (ExpenseRecord.user_id r) user
                           && quarter_eqb (ExpenseRecord.quarter r) q
                           && Z.eqb (ExpenseRecord.year r) y
                           && currency_eqb (ExpenseRecord.currency r) c));
        [reflexivity|].
      intros r. now destruct (String.eqb _ user).
    + unfold DashboardPage.goalsData. rewrite own_goals_visible.
      rewrite (filter_ext _
                 (fun g => String.eqb (SavingsGoal.user_id g) user
                           && Bool.eqb (SavingsGoal.is_active g) true
                           && currency_eqb (SavingsGoal.currency g) c));
        [reflexivity|].
      intros r. now destruct (String.eqb _ user).
  - intros p. rewrite !own_income_visible.
    rewrite (filter_ext
               (fun r => String.eqb (IncomeRecord.user_id r) user
                         && (String.eqb (IncomeRecord.user_id r) user && p r))
               (fun r => String.eqb (IncomeRecord.user_id r) user && p r));
      [reflexivity|].
    intros r. now destruct (String.eqb _ user).
  - intros p. rewrite !own_expenses_visible.
    rewrite (filter_ext
               (fun r => String.eqb (ExpenseRecord.user_id r) user
                         && (String.eqb (ExpenseRecord.user_id r) user && p r))
               (fun r => String.eqb (ExpenseRecord.user_id r) user && p r));
      [reflexivity|].
    intros r. now destruct (String.eqb _ user).
  - intros p. rewrite !own_goals_visible.
    rewrite (filter_ext
               (fun r => String.eqb (SavingsGoal.user_id r) user
                         && (String.eqb (SavingsGoal.user_id r) user && p r))
               (fun r => String.eqb (SavingsGoal.user_id r) user && p r));
      [reflexivity|].
    intros r. now destruct (String.eqb _ user).
Qed.

(** X2. Three fetches never return: the category list and the expense list
    of the expenses page, the second because it embeds the category name,
    and the user list of the admin page. Each reads a relation whose
    policies end in the sub-select of [profiles] on [profiles], so the
    query is refused with the recursion error for every signed-in user,
    admin or not, whatever the tables hold. *)
Theorem recursive_policies_fail_fetches (user : uuid) (d : db) :
  (forall collate,
     ExpensesPage.fetchCategories collate user d = Err InfiniteRecursion)
  /\ (forall created_at,
        ExpensesPage.fetchExpenseRecords created_at user d = Err InfiniteRecursion)
  /\ (forall created_at, fetchUsers created_at user d = Err InfiniteRecursion).
Proof.
  split; [|split]; intros k.
  - unfold ExpensesPage.fetchCategories, select_expense_categories, rights_select.
    rewrite reference_recursion by now left. reflexivity.
  - unfold ExpensesPage.fetchExpenseRecords, select_expense_categories,
      rights_select.
    rewrite reference_recursion by now left. reflexivity.
  - unfold fetchUsers, select_profiles.
    rewrite profiles_recursion by (left; now left). reflexivity.
Qed.


(** ** When the insertion of a transaction commits *)

Lemma with_amounts_ids (f : SavingsGoal.row -> Z) (c : SavingsGoal.row -> bool) l :
  map SavingsGoal.id (map (fun x => if c x then with_current_amount (f x) x else x) l)
  = map SavingsGoal.id l.
Proof. rewrite map_map. apply map_ext. intros x. now destruct (c x). Qed.

Lemma goal_rows_ok d :
  savings_goals_constraints d = true ->
  forall g, In g (savings_goals d) -> savings_goal_row_ok d g = true.
Proof.
  unfold savings_goals_constraints. intros H. apply andb_true_iff in H.
  destruct H as [_ H]. now rewrite forallb_forall in H.
Qed.

(** Moving the balance of one goal the session may update. *)
Lemma update_goal_amount_commits s d G (f : SavingsGoal.row -> Z) :
  savings_constraints d = true ->
  In G (savings_goals d) ->
  can_update savings_goals_policies s d G = true ->
  numeric_15_2 (f G) = true ->
  update_savings_goals s
    (fun x => String.eqb (SavingsGoal.id x) (SavingsGoal.id G))
    (fun x => with_current_amount (f x) x) d
  = Ok {| state :=
            set_savings_goals
              (map (fun x => if String.eqb (SavingsGoal.id x) (SavingsGoal.id G)
                             then with_current_amount (f x) x else x)
                   (savings_goals d)) d;
          rows_affected := 1;
          fired := [] |}.
Proof.
  intros Hc HG Hcan Hv.
  pose proof (goals_distinct d Hc) as Hd.
  apply savings_constraints_true in Hc. destruct Hc as [Cg Ct].
  pose proof (goal_rows_ok d Cg) as Hrows.
  assert (Hsel : forall x, In x (savings_goals d) ->
            String.eqb (SavingsGoal.id x) (SavingsGoal.id G)
            && can_update savings_goals_policies s d x
            = String.eqb (SavingsGoal.id x) (SavingsGoal.id G)).
  { intros x Hx. destruct (String.eqb _ _) eqn:E; [|reflexivity].
    apply String.eqb_eq in E.
    assert (x = G) as -> by (apply (key_injective SavingsGoal.id (savings_goals d)); auto).
    now rewrite Hcan. }
  unfold update_savings_goals. rewrite (rls_update_ok savings_goals_policies).
  2:{ intros x Hx Hs. apply goal_can_write_amount.
      apply andb_true_iff in Hs. tauto. }
  cbn [bind fst snd].
  rewrite (map_ext_in
             (fun x => if String.eqb (SavingsGoal.id x) (SavingsGoal.id G)
                          && can_update savings_goals_policies s d x
                       then with_current_amount (f x) x else x)
             (fun x => if String.eqb (SavingsGoal.id x) (SavingsGoal.id G)
                       then with_current_amount (f x) x else x))
    by (intros x Hx; now rewrite Hsel).
  rewrite (filter_ext_in _ (fun x => String.eqb (SavingsGoal.id x) (SavingsGoal.id G)))
    by (intros x Hx; now apply Hsel).
  rewrite (filter_key_unique SavingsGoal.id _ G Hd HG).
  pose proof (Hrows G HG) as Hrow.
  cbn [map length forallb with_current_amount SavingsGoal.target_amount
         SavingsGoal.current_amount].
  unfold savings_goal_row_ok in Hrow. rewrite !andb_true_iff in Hrow.
  destruct Hrow as [[[_ Htarget] _] _]. rewrite Htarget, Hv. cbn [andb guard bind].
  match goal with
  | |- context [savings_goals_constraints ?x && savings_transactions_constraints ?x] =>
      assert (savings_goals_constraints x && savings_transactions_constraints x
              = true) as ->; [|reflexivity]
  end.
  apply andb_true_iff. split.
  - unfold savings_goals_constraints.
    cbn [savings_goals set_savings_goals].
    rewrite with_amounts_ids. apply andb_true_iff. split; [exact Hd|].
    apply forallb_forall. intros x Hx. apply in_map_iff in Hx.
    destruct Hx as (x0 & <- & Hx0).
    destruct (String.eqb _ _) eqn:E; [|exact (Hrows x0 Hx0)].
    apply String.eqb_eq in E.
    assert (x0 = G) as -> by (apply (key_injective SavingsGoal.id (savings_goals d)); auto).
    now apply goal_row_ok_amount; [apply Hrows|].
  - unfold savings_transactions_constraints, savings_transaction_row_ok in *.
    cbn [savings_goals savings_transactions set_savings_goals].
    now rewrite with_amounts_ids.
Qed.

Lemma new_balance_in_range d g :
  savings_constraints d = true -> In g (savings_goals d) ->
  numeric_15_2 (SavingsGoal.current_amount g) = true.
Proof.
  intros Hc Hg. apply savings_constraints_true in Hc. destruct Hc as [Cg _].
  pose proof (goal_rows_ok d Cg g Hg) as H. unfold savings_goal_row_ok in H.
  rewrite !andb_true_iff in H. tauto.
Qed.

Lemma insert_commits s r d G :
  savings_constraints d = true ->
  numeric_15_2 (SavingsTransaction.amount r) = true ->
  check_transaction_type (SavingsTransaction.transaction_type r) = true ->
  mem (SavingsTransaction.id r)
      (map SavingsTransaction.id (savings_transactions d)) = false ->
  In G (savings_goals d) ->
  SavingsGoal.id G = SavingsTransaction.savings_goal_id r ->
  (s = BypassRls \/ s = Rls (Some (SavingsGoal.user_id G))) ->
  numeric_15_2 (SavingsGoal.current_amount G + signed_amount r) = true ->
  insert_savings_transaction s r d
  = Ok {| state :=
            set_savings_goals
              (map (adjust (SavingsTransaction.savings_goal_id r) (signed_amount r))
                   (savings_goals d))
              (set_savings_transactions (savings_transactions d ++ [r]) d);
          rows_affected := 1;
          fired := [(TG_INSERT, r)] |}.
Proof.
  intros Hc Hnum Hty Hfresh HG Hid Hs Hnew.
  pose proof (goals_distinct d Hc) as Hd.
  pose proof Hc as Hc0. apply savings_constraints_true in Hc0.
  destruct Hc0 as [Cg Ct].
  assert (Hins : can_insert savings_transactions_policies s d r = true).
  { destruct Hs as [-> | ->]; [reflexivity|]. unfold can_insert.
    rewrite transactions_insert_policy.
    now apply (exists_own_goal_owner d _ _ G Hd HG Hid). }
  assert (Hupd : forall d', can_update savings_goals_policies s d' G = true).
  { intros d'. rewrite goal_can_update. destruct Hs as [-> | ->]; [reflexivity|].
    rewrite sql_eq_some. apply String.eqb_refl. }
  assert (C1 : savings_constraints
                 (set_savings_transactions (savings_transactions d ++ [r]) d) = true).
  { apply savings_constraints_true. split; [exact Cg|].
    unfold savings_transactions_constraints in *.
    cbn [savings_transactions savings_goals set_savings_transactions].
    apply andb_true_iff in Ct. destruct Ct as [Ctd Ctr].
    rewrite distinct_map_snoc, Ctd, Hfresh, forallb_app.
    cbn [negb andb forallb]. rewrite andb_true_r. apply andb_true_iff. split.
    - exact Ctr.
    - unfold savings_transaction_row_ok.
      cbn [savings_goals set_savings_transactions].
      rewrite Hty, Hnum, <- Hid, In_mem_key by assumption. reflexivity. }
  unfold insert_savings_transaction, rls_insert.
  rewrite Hnum, Hins. cbn [guard bind].
  apply savings_constraints_true in C1 as C1'. destruct C1' as [_ ->].
  cbn [guard bind update_savings_goal_amount]. rewrite <- Hid.
  rewrite (update_goal_amount_commits s _ G
             (fun g => SavingsGoal.current_amount g + signed_amount r) C1 HG (Hupd _) Hnew).
  reflexivity.
Qed.

Lemma insert_conditions s r d o :
  savings_constraints d = true ->
  insert_savings_transaction s r d = Ok o ->
  numeric_15_2 (SavingsTransaction.amount r) = true
  /\ check_transaction_type (SavingsTransaction.transaction_type r) = true
  /\ mem (SavingsTransaction.id r)
         (map SavingsTransaction.id (savings_transactions d)) = false
  /\ exists G, In G (savings_goals d)
       /\ SavingsGoal.id G = SavingsTransaction.savings_goal_id r
       /\ (s = BypassRls \/ s = Rls (Some (SavingsGoal.user_id G)))
       /\ numeric_15_2 (SavingsGoal.current_amount G + signed_amount r) = true.
Proof.
  intros Hc H.
  destruct (insert_savings_transaction_inv s r d o Hc H) as (Hs & Hc' & Hty & _).
  pose proof (goals_distinct d Hc) as Hd.
  unfold insert_savings_transaction, rls_insert in H.
  destruct (numeric_15_2 _) eqn:Hnum; cbn [bind guard] in H; [|discriminate].
  destruct (can_insert savings_transactions_policies s d r) eqn:Hins;
    cbn [bind guard] in H; [|discriminate].
  destruct (savings_transactions_constraints _) eqn:Ct; cbn [bind guard] in H;
    [|discriminate].
  clear H. split; [reflexivity|]. split; [exact Hty|].
  unfold savings_transactions_constraints in Ct.
  cbn [savings_transactions savings_goals set_savings_transactions] in Ct.
  apply andb_true_iff in Ct. destruct Ct as [Ctd Ctr].
  rewrite distinct_map_snoc in Ctd. apply andb_true_iff in Ctd.
  destruct Ctd as [_ Hfresh]. apply negb_true_iff in Hfresh.
  split; [exact Hfresh|].
  rewrite forallb_app in Ctr. apply andb_true_iff in Ctr. destruct Ctr as [_ Hrow].
  cbn [forallb] in Hrow. rewrite andb_true_r in Hrow.
  unfold savings_transaction_row_ok in Hrow. rewrite !andb_true_iff in Hrow.
  destruct Hrow as [_ Hfk]. cbn [savings_goals set_savings_transactions] in Hfk.
  apply mem_In, in_map_iff in Hfk. destruct Hfk as (G & Hid & HG).
  exists G. split; [exact HG|]. split; [exact Hid|]. split.
  - destruct s as [uid|]; [right | now left].
    unfold can_insert in Hins. rewrite transactions_insert_policy in Hins.
    apply (exists_own_goal_owner d uid _ G Hd HG Hid) in Hins. now subst.
  - assert (HG' : In (adjust (SavingsTransaction.savings_goal_id r) (signed_amount r) G)
                     (savings_goals (state o))).
    { rewrite Hs. cbn [savings_goals set_savings_goals]. now apply in_map. }
    pose proof (new_balance_in_range _ _ Hc' HG') as Hrange.
    rewrite adjust_current, Hid, String.eqb_refl in Hrange. exact Hrange.
Qed.



Lemma signed_amount_mirrored t :
  check_transaction_type (SavingsTransaction.transaction_type t) = true ->
  signed_amount (mirrored t) = signed_amount t
  /\ check_transaction_type (SavingsTransaction.transaction_type (mirrored t)) = true.
Proof.
  intros H. unfold signed_amount, mirrored.
  cbn [SavingsTransaction.transaction_type SavingsTransaction.amount].
  destruct (check_transaction_type_cases _ H) as [-> | ->]; cbn; split;
    try reflexivity; lia.
Qed.

(** X5. The sign of an amount is not checked: whenever a transaction
    commits, so does the same transaction booked the other way round (a
    deposit of [-a] for a withdrawal of [a] and conversely), and both leave
    the same balances. *)
Theorem mirrored_transaction_same_balance (s : session)
    (t : SavingsTransaction.row) (d : db) (o : outcome) :
  savings_constraints d = true ->
  insert_savings_transaction s t d = Ok o ->
  exists o',
    insert_savings_transaction s (mirrored t) d = Ok o'
    /\ savings_goals (state o') = savings_goals (state o).
Proof.
  intros Hc H.
  destruct (insert_savings_transaction_inv s t d o Hc H) as (Hs & _).
  destruct (insert_conditions s t d o Hc H)
    as (Hnum & Hty & Hfresh & G & HG & Hid & Hsess & Hnew).
  destruct (signed_amount_mirrored t Hty) as [Hsig Hty'].
  eexists. split.
  - apply (insert_commits s (mirrored t) d G); auto.
    + unfold numeric_15_2 in *. cbn [mirrored SavingsTransaction.amount].
      now rewrite Z.abs_opp.
    + now rewrite Hsig.
  - rewrite Hs, Hsig. reflexivity.
Qed.

(** X5, witness: depositing -30.00 instead of withdrawing 30.00. *)
Lemma mirrored_transaction_same_balance_witness :
  exists o',
    insert_savings_transaction (Rls (Some "A"))
      (Demo.tx "t2" "g1" "deposit" (-3000)) Demo.deposited = Ok o'
    /\ map SavingsGoal.current_amount (savings_goals (state o')) = [7000].
Proof.
  destruct (mirrored_transaction_same_balance (Rls (Some "A"))
              (Demo.tx "t2" "g1" "withdrawal" 3000) Demo.deposited
              {| state := Demo.used; rows_affected := 1;
                 fired := [(TG_INSERT, Demo.tx "t2" "g1" "withdrawal" 3000)] |})
    as (o' & Ho' & Hg).
  - vm_compute. reflexivity.
  - vm_compute. reflexivity.
  - exists o'. split; [exact Ho'|]. now rewrite Hg.
Defined.

(** ** Deleting a goal *)

Lemma filter_filter_sub {R} (f k : R -> bool) l :
  (forall x, In x l -> f x = true -> k x = true) ->
  List.filter f (List.filter k l) = List.filter f l.
Proof.
  induction l as [|x l IH]; intros H; cbn [List.filter]; [reflexivity|].
  assert (IH' := IH (fun y Hy => H y (or_intror Hy))).
  destruct (k x) eqn:K; cbn [List.filter].
  - now rewrite IH'.
  - rewrite IH'. destruct (f x) eqn:F; [|reflexivity].
    rewrite (H x (or_introl eq_refl) F) in K. discriminate.
Qed.

Lemma balance_after_goal_removal s w d o g :
  savings_constraints d = true -> balance_ok g d ->
  delete_savings_goals s w d = Ok o ->
  balance_ok g (state o) /\ savings_constraints (state o) = true.
Proof.
  intros Hc Hb H. pose proof (goals_distinct d Hc) as Hd.
  rewrite (delete_goals_commits s w d Hc) in H. cbv zeta in H.
  match type of H with Ok ?x = Ok _ => assert (o = x) as -> by congruence end.
  clear H. cbn [state]. split; [|now apply constraints_after_goal_removal].
  intros G HG Hid.
  cbn [savings_goals set_savings_goals set_savings_transactions] in HG.
  apply filter_In in HG. destruct HG as [HG Hkeep].
  rewrite (Hb G HG Hid). unfold expected_balance, total_of_type.
  cbn [savings_transactions set_savings_transactions].
  assert (Hsub : forall ty t, In t (savings_transactions d) ->
            of_goal g t && String.eqb (SavingsTransaction.transaction_type t) ty = true ->
            negb (mem (SavingsTransaction.savings_goal_id t)
                      (map SavingsGoal.id
                         (List.filter
                            (fun g0 => w g0 && can_delete savings_goals_policies s d g0)
                            (savings_goals d)))) = true).
  { intros ty t _ Ht. apply andb_true_iff in Ht. destruct Ht as [Ht _].
    unfold of_goal in Ht. apply String.eqb_eq in Ht.
    apply negb_true_iff.
    destruct (mem _ _) eqn:M; [|reflexivity].
    apply mem_In, in_map_iff in M. destruct M as (g' & Hid' & Hg').
    apply filter_In in Hg'. destruct Hg' as [Hg' Hgone].
    assert (G = g') as -> by
      (apply (key_injective SavingsGoal.id (savings_goals d)); auto; congruence).
    rewrite Hgone in Hkeep. discriminate. }
  now rewrite !filter_filter_sub by (apply Hsub).
Qed.

(** X6. When the owner deletes a goal from the savings page the statement
    commits; the goal and exactly its transactions are gone, the trigger
    ran once for each of them, and what is left still satisfies the
    declared constraints, every remaining goal keeping the balance of its
    transactions. *)
Theorem owner_deletes_goal (user gid : uuid) (G : SavingsGoal.row) (d : db) :
  savings_constraints d = true ->
  In G (savings_goals d) ->
  SavingsGoal.id G = gid ->
  SavingsGoal.user_id G = user ->
  exists o,
    handleDeleteGoal user gid d = Ok o
    /\ rows_affected o = 1%nat
    /\ savings_goals (state o)
       = List.filter (fun g => negb (String.eqb (SavingsGoal.id g) gid))
           (savings_goals d)
    /\ savings_transactions (state o)
       = List.filter
           (fun t => negb (String.eqb (SavingsTransaction.savings_goal_id t) gid))
           (savings_transactions d)
    /\ fired o
       = map (pair TG_DELETE)
           (List.filter
              (fun t => String.eqb (SavingsTransaction.savings_goal_id t) gid)
              (savings_transactions d))
    /\ savings_constraints (state o) = true
    /\ (forall g, balance_ok g d -> balance_ok g (state o)).
Proof.
  intros Hc HG Hid Hu. pose proof (goals_distinct d Hc) as Hd.
  unfold handleDeleteGoal.
  assert (Hp : forall g, In g (savings_goals d) ->
            String.eqb (SavingsGoal.id g) gid
            && can_delete savings_goals_policies (Rls (Some user)) d g
            = String.eqb (SavingsGoal.id g) gid).
  { intros g Hg. destruct (String.eqb _ gid) eqn:E; [|reflexivity].
    apply String.eqb_eq in E.
    assert (g = G) as -> by
      (apply (key_injective SavingsGoal.id (savings_goals d)); auto; congruence).
    unfold can_delete. rewrite !goals_using, sql_eq_some, Hu, String.eqb_refl.
    reflexivity. }
  assert (Hdel : List.filter
                   (fun g => String.eqb (SavingsGoal.id g) gid
                             && can_delete savings_goals_policies (Rls (Some user)) d g)
                   (savings_goals d) = [G]).
  { rewrite (filter_ext_in _ (fun g => String.eqb (SavingsGoal.id g) (SavingsGoal.id G)))
      by (intros g Hg; rewrite Hid; now apply Hp).
    now apply filter_key_unique. }
  assert (E2 : forall t,
            mem (SavingsTransaction.savings_goal_id t) (map SavingsGoal.id [G])
            = String.eqb (SavingsTransaction.savings_goal_id t) gid).
  { intros t. cbn [map mem existsb]. now rewrite Hid, orb_false_r. }
  pose proof (delete_goals_commits (Rls (Some user))
                (fun g => String.eqb (SavingsGoal.id g) gid) d Hc) as Hcommit.
  cbv zeta in Hcommit.
  eexists. split; [exact Hcommit|].
  cbn [state rows_affected fired savings_goals savings_transactions
         set_savings_goals set_savings_transactions].
  split; [now rewrite Hdel|]. split.
  { apply filter_ext_in. intros g Hg. now rewrite Hp. }
  split.
  { rewrite Hdel. apply filter_ext. intros t. now rewrite E2. }
  split.
  { rewrite Hdel. f_equal. apply filter_ext. intros t. now rewrite E2. }
  split.
  - apply (constraints_after_goal_removal _ d Hc).
  - intros g Hb.
    now destruct (balance_after_goal_removal _ _ d _ g Hc Hb Hcommit).
Qed.

(** ** The savings page keeps the balances *)

Lemma goal_submit_preserves to_numeric user f editingGoal gen d o :
  savings_constraints d = true -> balances_ok d ->
  handleGoalSubmit to_numeric user f editingGoal gen d = Ok o ->
  savings_constraints (state o) = true /\ balances_ok (state o).
Proof.
  intros Hc Hb H. unfold handleGoalSubmit in H.
  destruct (falsy (GoalForm.name f) || falsy (GoalForm.target_amount f)).
  { match type of H with Ok ?x = Ok _ => assert (o = x) as -> by congruence end.
    now split. }
  destruct (to_numeric (GoalForm.target_amount f)) as [target|]; [|discriminate].
  destruct editingGoal as [g0|].
  - apply update_savings_goals_inv in H. destruct H as (Hs & _ & C).
    split; [exact C|]. intros g G HG Hid. rewrite Hs in HG |- *.
    cbn [savings_goals set_savings_goals] in HG.
    apply in_map_iff in HG. destruct HG as (G0 & E & HG0).
    change (expected_balance g (set_savings_goals
              (map (fun g1 =>
                      if String.eqb (SavingsGoal.id g1) (SavingsGoal.id g0)
                         && can_update savings_goals_policies (Rls (Some user)) d g1
                      then goalData_set user f target g1 else g1)
                   (savings_goals d)) d))
      with (expected_balance g d).
    rewrite <- (Hb g G0 HG0).
    + subst G. now destruct (_ && _).
    + subst G. now destruct (_ && _).
  - pose proof (fresh_goal_balance_ok (Rls (Some user))
                  (goalData_row user f target gen) d o Hc eq_refl H) as Hnew.
    unfold insert_savings_goal, rls_insert in H.
    destruct (_ && _); cbn [bind guard] in H; [|discriminate].
    destruct (can_insert _ _ _ _); cbn [bind guard] in H; [|discriminate].
    destruct (savings_goals_constraints _) eqn:C; cbn [bind guard] in H; [|discriminate].
    match type of H with Ok ?x = Ok _ => assert (o = x) as -> by congruence end.
    clear H. cbn [state] in *. split.
    + apply savings_constraints_true. split; [exact C|].
      apply savings_constraints_true in Hc. destruct Hc as [_ Ct].
      unfold savings_transactions_constraints, savings_transaction_row_ok in *.
      cbn [savings_goals savings_transactions set_savings_goals].
      apply andb_true_iff in Ct. destruct Ct as [Ctd Ctr].
      rewrite Ctd. cbn [andb]. rewrite forallb_forall in *. intros t Ht.
      specialize (Ctr t Ht). rewrite !andb_true_iff in *.
      destruct Ctr as [[H1 H2] H3]. repeat split; try assumption.
      rewrite List.map_app, mem_app, H3. reflexivity.
    + intros g G HG Hid. cbn [savings_goals set_savings_goals] in HG.
      apply in_app_or in HG. destruct HG as [HG | [<- | []]].
      * now rewrite (Hb g G HG Hid).
      * subst g. apply Hnew; [|reflexivity].
        cbn [savings_goals set_savings_goals]. apply in_or_app. right. now left.
Qed.

Lemma transaction_submit_preserves to_numeric to_date user f selectedGoal gen d o :
  savings_constraints d = true -> balances_ok d ->
  handleTransactionSubmit to_numeric to_date user f selectedGoal gen d = Ok o ->
  savings_constraints (state o) = true /\ balances_ok (state o).
Proof.
  intros Hc Hb H. unfold handleTransactionSubmit in H.
  destruct selectedGoal as [g0|].
  2:{ match type of H with Ok ?x = Ok _ => assert (o = x) as -> by congruence end.
      now split. }
  destruct (falsy (TransactionForm.amount f)).
  { match type of H with Ok ?x = Ok _ => assert (o = x) as -> by congruence end.
    now split. }
  destruct (to_date (TransactionForm.transaction_date f)) as [day|]; [|discriminate].
  destruct (to_numeric (TransactionForm.amount f)) as [a|]; [|discriminate].
  split.
  - now destruct (insert_savings_transaction_inv _ _ _ _ Hc H) as (_ & C & _).
  - intros g. exact (balance_after_insert g _ _ d o Hc (Hb g) H).
Qed.

Lemma savings_action_preserves to_numeric to_date a d o :
  savings_constraints d = true -> balances_ok d ->
  run_savings_action to_numeric to_date a d = Ok o ->
  savings_constraints (state o) = true /\ balances_ok (state o).
Proof.
  intros Hc Hb H. destruct a as [user f e gen | user f sel gen | user gid];
    cbn [run_savings_action] in H.
  - now apply (goal_submit_preserves to_numeric user f e gen d).
  - now apply (transaction_submit_preserves to_numeric to_date user f sel gen d).
  - unfold handleDeleteGoal in H. split.
    + now destruct (balance_after_goal_removal _ _ d o "" Hc (Hb "") H).
    + intros g. now destruct (balance_after_goal_removal _ _ d o g Hc (Hb g) H).
Qed.

(** X7. Whatever signed-in users do on the savings page, in any order and
    whether each action commits or fails (saving a goal, new or edited,
    recording a deposit or a withdrawal, deleting a goal), the database
    keeps its declared constraints and every goal keeps showing the
    balance of its transactions. *)
Theorem savings_page_keeps_balances (to_numeric : string -> option Z)
    (to_date : string -> option date) (l : list savings_action) (d : db) :
  savings_constraints d = true ->
  balances_ok d ->
  savings_constraints (after_savings_actions to_numeric to_date l d) = true
  /\ balances_ok (after_savings_actions to_numeric to_date l d).
Proof.
  revert d. induction l as [|a l IH]; intros d Hc Hb; cbn [after_savings_actions].
  - now split.
  - destruct (run_savings_action to_numeric to_date a d) as [o|e] eqn:H.
    + destruct (savings_action_preserves to_numeric to_date a d o Hc Hb H) as [Hc' Hb'].
      now apply IH.
    + now apply IH.
Qed.

(** X7, witness. *)
Lemma savings_page_keeps_balances_witness :
  balances_ok (after_savings_actions (fun _ => Some 600000) (fun _ => Some 9334)
       DemoPages.afternoon Demo.fresh).
Proof.
  refine (proj2 (savings_page_keeps_balances (fun _ => Some 600000)
                   (fun _ => Some 9334) DemoPages.afternoon Demo.fresh _ _)).
  - vm_compute. reflexivity.
  - intros g G [<- | []] <-. vm_compute. reflexivity.
Defined.

Example demo_afternoon :
  map (fun g => (SavingsGoal.id g, SavingsGoal.user_id g, SavingsGoal.current_amount g))
      (savings_goals
         (after_savings_actions (fun _ => Some 600000) (fun _ => Some 9334)
       DemoPages.afternoon Demo.fresh))
  = [("g2", "B", 0)]
  /\ savings_transactions
       (after_savings_actions (fun _ => Some 600000) (fun _ => Some 9334)
       DemoPages.afternoon Demo.fresh) = [].
Proof. vm_compute. split; reflexivity. Qed.

(** ** Identities and profiles go in step *)

Lemma insert_auth_user_keeps_constraints NEW gen d o :
  insert_auth_user NEW gen d = Ok o -> profiles_constraints (state o) = true.
Proof.
  rewrite insert_auth_user_eq. cbv zeta.
  destruct (profiles_constraints _) eqn:C; [|discriminate].
  intros H. match type of H with Ok ?x = Ok _ => assert (o = x) as -> by congruence end.
  exact C.
Qed.

Lemma signup_keeps_in_step NEW gen d o :
  as_provisioned d -> insert_auth_user NEW gen d = Ok o -> as_provisioned (state o).
Proof.
  unfold as_provisioned. intros Hp H.
  apply insert_auth_user_committed in H. destruct H as [-> _].
  cbn [profiles auth_users set_profiles set_auth_users].
  rewrite !List.map_app, Hp. reflexivity.
Qed.

Lemma signups_preserve l : forall d,
  as_provisioned d -> profiles_constraints d = true ->
  as_provisioned (after_signups l d)
  /\ profiles_constraints (after_signups l d) = true.
Proof.
  induction l as [|[NEW gen] l IH]; intros d Hp Hc; cbn [after_signups].
  - now split.
  - destruct (insert_auth_user NEW gen d) as [o|e] eqn:H.
    + apply IH.
      * now apply (signup_keeps_in_step NEW gen d).
      * now apply (insert_auth_user_keeps_constraints NEW gen d).
    + now apply IH.
Qed.

Lemma provisioned_role_found d u :
  as_provisioned d -> profiles_constraints d = true ->
  In u (auth_users d) ->
  caller_role d (Some (AuthUser.id u)) = Some (provisioned_role u).
Proof.
  unfold as_provisioned. intros Hp Hc Hu.
  apply profiles_constraints_parts in Hc. destruct Hc as (_ & Hd & _).
  assert (Hin : In (AuthUser.id u, provisioned_role u)
                  (map (fun p => (Profile.user_id p, Profile.role p)) (profiles d))).
  { rewrite Hp. apply (in_map (fun u => (AuthUser.id u, provisioned_role u))), Hu. }
  apply in_map_iff in Hin. destruct Hin as (p & E & Hin). injection E as E1 E2.
  unfold caller_role, profile_of.
  rewrite (find_by_key Profile.user_id _ _ p Hd Hin E1). cbn [option_map].
  now rewrite E2.
Qed.

(** X8. After any run of identity-creation events, committed or rejected,
    from a database whose profiles were all provisioned by the hook (the
    empty one to begin with), profiles and identities still go in step:
    the same identities in the same order, each with exactly the role the
    hook derives from its email, so that an identity is an admin exactly
    when its email is [admin@fms.com]. *)
Theorem signups_keep_profiles_in_step (l : list (AuthUser.row * uuid)) (d : db) :
  as_provisioned d ->
  profiles_constraints d = true ->
  as_provisioned (after_signups l d)
  /\ profiles_constraints (after_signups l d) = true
  /\ (forall u, In u (auth_users (after_signups l d)) ->
        (caller_role (after_signups l d) (Some (AuthUser.id u)) = Some "admin"
         <-> AuthUser.email u = "admin@fms.com")).
Proof.
  intros Hp Hc. destruct (signups_preserve l d Hp Hc) as [Hp' Hc'].
  split; [exact Hp'|]. split; [exact Hc'|].
  intros u Hu. rewrite (provisioned_role_found _ u Hp' Hc' Hu).
  unfold provisioned_role.
  destruct (String.eqb (AuthUser.email u) "admin@fms.com") eqn:E.
  - apply String.eqb_eq in E. tauto.
  - apply String.eqb_neq in E. split; [discriminate | contradiction].
Qed.

(** X8, witness: three sign-ups on the empty database, the second one a
    repetition of the first. *)
Lemma signups_keep_profiles_in_step_witness :
  as_provisioned
    (after_signups [ (Demo.signup "admin", "pN"); (Demo.signup "user", "pM");
                     (Demo.user "R" "admin@fms.com", "pR") ] empty_db).
Proof.
  refine (proj1 (signups_keep_profiles_in_step
                   [ (Demo.signup "admin", "pN"); (Demo.signup "user", "pM");
                     (Demo.user "R" "admin@fms.com", "pR") ] empty_db _ _)).
  - reflexivity.
  - reflexivity.
Defined.

Example demo_signups :
  map (fun p => (Profile.id p, Profile.user_id p, Profile.full_name p, Profile.role p))
    (profiles
       (after_signups [ (Demo.signup "admin", "pN"); (Demo.signup "user", "pM");
                        (Demo.user "R" "admin@fms.com", "pR") ] empty_db))
  = [ ("pN", "N", "Esi", "user"); ("pR", "R", "admin@fms.com", "admin") ].
Proof. vm_compute. reflexivity. Qed.

(** X9. As long as profiles and identities go in step, the INSERT policy
    "Admins can create profiles" never adds a row: whoever the caller and
    whatever the row, a direct insertion into [profiles] is rejected, by
    the policy (under row-level security already by its expansion), by the
    foreign key to the identities or by the uniqueness of [user_id]. *)
Theorem direct_profile_insert_never_commits (s : session) (r : Profile.row) (d : db) :
  in_step d ->
  exists e, insert_profile s r d = Err e.
Proof.
  unfold in_step. intros Hstep. unfold insert_profile, rls_insert.
  destruct (rewrite_policies s rights_insert PROFILES); cbn [bind]; [|eauto].
  destruct (can_insert profiles_policies s d r); cbn [guard bind]; [|eauto].
  assert (profiles_constraints (set_profiles (profiles d ++ [r]) d) = false) as ->;
    [|cbn [guard bind]; eauto].
  unfold profiles_constraints. cbn [profiles auth_users set_profiles].
  rewrite (distinct_map_snoc Profile.user_id), forallb_app.
  cbn [forallb]. rewrite Hstep.
  destruct (mem (Profile.user_id r) (map AuthUser.id (auth_users d))).
  - cbn [negb]. now rewrite !andb_false_r.
  - now rewrite !andb_false_r.
Qed.

(** X9, witness: the admin of the small database tries to add a second
    profile for Kofi. *)
Lemma direct_profile_insert_never_commits_witness :
  exists e,
    insert_profile (Rls (Some "R")) (Demo.profile "pX" "B" "Kofi" "admin") Demo.fresh
    = Err e.
Proof.
  apply (direct_profile_insert_never_commits (Rls (Some "R"))
           (Demo.profile "pX" "B" "Kofi" "admin") Demo.fresh).
  reflexivity.
Defined.

(** ** Expenses need an existing category *)

Lemma map_untouched {R} (c : R -> bool) (set : R -> R) l :
  (forall x, In x l -> c x = false) ->
  map (fun x => if c x then set x else x) l = l.
Proof.
  intros H. rewrite <- (map_id l) at 2. apply map_ext_in.
  intros x Hx. now rewrite (H x Hx).
Qed.

(** X11. An expense whose category does not exist is never stored: the
    insertion is rejected whoever issues it, and saving the form of the
    expenses page with such a category, for a new record or for an edited
    one, leaves the database as it was. *)
Theorem unknown_category_rejected (d : db) (cat : uuid) :
  mem cat (map ExpenseCategory.id (expense_categories d)) = false ->
  (forall s r, ExpenseRecord.category_id r = cat ->
               exists e, insert_expense_record s r d = Err e)
  /\ (forall to_numeric user f editingRecord gen o,
        ExpenseForm.category_id f = cat ->
        ExpensesPage.handleSubmit to_numeric user f editingRecord gen d = Ok o ->
        state o = d /\ rows_affected o = 0%nat).
Proof.
  intros Hcat.
  assert (Hins : forall s r, ExpenseRecord.category_id r = cat ->
                   exists e, insert_expense_record s r d = Err e).
  { intros s r Hr. unfold insert_expense_record, rls_insert.
    destruct (numeric_15_2 _); cbn [guard bind]; [|eauto].
    destruct (can_insert _ _ _ _); cbn [guard bind]; [|eauto].
    assert (expense_records_constraints
              (set_expense_records (expense_records d ++ [r]) d) = false) as ->;
      [|cbn [guard bind]; eauto].
    unfold expense_records_constraints.
    cbn [expense_records expense_categories auth_users set_expense_records].
    rewrite forallb_app. cbn [forallb]. rewrite Hr, Hcat.
    now rewrite !andb_false_r. }
  split; [exact Hins|].
  intros to_numeric user f editingRecord gen o Hf H.
  unfold ExpensesPage.handleSubmit in H.
  destruct (falsy (ExpenseForm.amount f) || falsy (ExpenseForm.category_id f)).
  { match type of H with Ok ?x = Ok _ => assert (o = x) as -> by congruence end.
    now split. }
  destruct (to_numeric (ExpenseForm.amount f)) as [a|]; [|discriminate].
  destruct editingRecord as [r0|].
  - unfold update_expense_records in H.
    destruct (rls_update _ _ _ _ _ _) as [u|] eqn:U; cbn [bind] in H; [|discriminate].
    apply rls_update_inv in U. destruct U as [U1 U2].
    destruct (forallb _ (snd u)); cbn [guard bind] in H; [|discriminate].
    destruct (expense_records_constraints _) eqn:C; cbn [guard bind] in H;
      [|discriminate].
    match type of H with Ok ?x = Ok _ => assert (o = x) as -> by congruence end.
    clear H. cbn [state rows_affected].
    assert (Hnone : forall x, In x (expense_records d) ->
              String.eqb (ExpenseRecord.id x) (ExpenseRecord.id r0)
              && can_update expense_records_policies (Rls (Some user)) d x = false).
    { intros x Hx.
      destruct (String.eqb (ExpenseRecord.id x) (ExpenseRecord.id r0)
                && can_update expense_records_policies (Rls (Some user)) d x) eqn:E;
        [|reflexivity].
      exfalso. unfold expense_records_constraints in C.
      apply andb_true_iff in C. destruct C as [_ C].
      cbn [expense_records expense_categories auth_users set_expense_records] in C.
      rewrite forallb_forall in C.
      specialize (C (ExpensesPage.recordData_set user f a x)).
      rewrite U1 in C.
      assert (Hin : In (ExpensesPage.recordData_set user f a x)
                      (map (fun r =>
                              if String.eqb (ExpenseRecord.id r) (ExpenseRecord.id r0)
                                 && can_update expense_records_policies
                                      (Rls (Some user)) d r
                              then ExpensesPage.recordData_set user f a r else r)
                           (expense_records d))).
      { apply in_map_iff. exists x. now rewrite E. }
      specialize (C Hin).
      cbn [ExpensesPage.recordData_set ExpenseRecord.category_id] in C.
      rewrite Hf, Hcat, andb_false_r in C. discriminate. }
    rewrite U1, U2, (map_untouched _ _ _ Hnone), (filter_none _ _ Hnone).
    now rewrite set_expense_records_same.
  - destruct (Hins (Rls (Some user))
                (ExpensesPage.recordData_row user f a gen) Hf) as [e He].
    congruence.
Qed.

(** X11, witness: a category id nobody has seeded. *)
Lemma unknown_category_rejected_witness :
  exists e,
    insert_expense_record (Rls (Some "A")) (Demo.expense "e2" "A" "c9" 500) Demo.fresh
    = Err e.
Proof.
  destruct (unknown_category_rejected Demo.fresh "c9") as [Hins _].
  - reflexivity.
  - apply Hins. reflexivity.
Defined.

(** ** A caller's statements and the rows of the others *)

Section OwnerFrame.
Context {R : Type}.
Variable pols : list (policy R).
Variable owner : R -> uuid.
Variable U : uuid.
Hypothesis may_update : forall d r,
  can_update pols (Rls (Some U)) d r = true -> owner r = U.
Hypothesis may_write : forall d r,
  can_write_updated pols (Rls (Some U)) d r = true -> owner r = U.
Hypothesis may_delete : forall d r,
  can_delete pols (Rls (Some U)) d r = true -> owner r = U.
Hypothesis may_insert : forall d r,
  can_insert pols (Rls (Some U)) d r = true -> owner r = U.

Lemma update_frame d w set t : forall u,
  rls_update pols (Rls (Some U)) d w set t = Ok u ->
  List.filter (fun x => negb (String.eqb (owner x) U)) (fst u)
  = List.filter (fun x => negb (String.eqb (owner x) U)) t.
Proof.
  induction t as [|r t IH]; cbn [rls_update]; intros u H.
  - match type of H with Ok ?x = Ok _ => assert (u = x) as -> by congruence end.
    reflexivity.
  - destruct (w r && can_update pols (Rls (Some U)) d r) eqn:E.
    + destruct (can_write_updated pols (Rls (Some U)) d (set r)) eqn:W;
        cbn [guard bind] in H; [|discriminate].
      destruct (rls_update pols (Rls (Some U)) d w set t) as [rest|];
        cbn [bind] in H; [|discriminate].
      match type of H with Ok ?x = Ok _ => assert (u = x) as -> by congruence end.
      cbn [fst List.filter]. apply andb_true_iff in E. destruct E as [_ E].
      rewrite (may_write d _ W), (may_update d _ E), String.eqb_refl.
      cbn [negb]. now apply IH.
    + destruct (rls_update pols (Rls (Some U)) d w set t) as [rest|];
        cbn [bind] in H; [|discriminate].
      match type of H with Ok ?x = Ok _ => assert (u = x) as -> by congruence end.
      cbn [fst List.filter]. rewrite (IH rest eq_refl). reflexivity.
Qed.

Lemma delete_frame d w t :
  List.filter (fun x => negb (String.eqb (owner x) U))
    (fst (rls_delete pols (Rls (Some U)) d w t))
  = List.filter (fun x => negb (String.eqb (owner x) U)) t.
Proof.
  unfold rls_delete. cbn [fst]. rewrite <- filter_and.
  apply filter_ext. intros r.
  destruct (w r && can_delete pols (Rls (Some U)) d r) eqn:E; cbn [negb andb];
    [|reflexivity].
  apply andb_true_iff in E. destruct E as [_ E].
  now rewrite (may_delete d _ E), String.eqb_refl.
Qed.

Lemma insert_frame d r t t' :
  rls_insert pols (Rls (Some U)) d r t = Ok t' ->
  List.filter (fun x => negb (String.eqb (owner x) U)) t'
  = List.filter (fun x => negb (String.eqb (owner x) U)) t.
Proof.
  unfold rls_insert.
  destruct (can_insert pols (Rls (Some U)) d r) eqn:E; cbn [guard bind];
    [|discriminate].
  intros H. match type of H with Ok ?x = Ok _ => assert (t' = x) as -> by congruence end.
  rewrite List.filter_app. cbn [List.filter].
  rewrite (may_insert d _ E), String.eqb_refl. cbn [negb]. apply app_nil_r.
Qed.
End OwnerFrame.

Lemma income_frame U d :
  leaves_others IncomeRecord.user_id income_records
    insert_income_record update_income_records delete_income_records U d.
Proof.
  assert (Hown : forall c (d : db) r, c <> INSERT ->
            using_ok income_records_policies c d (Some U) r = true ->
            IncomeRecord.user_id r = U).
  { intros c d' r Hc H. rewrite income_using in H.
    destruct c; try contradiction; apply String.eqb_eq in H; now symmetry. }
  assert (Hu : forall d r, can_update income_records_policies (Rls (Some U)) d r = true ->
                           IncomeRecord.user_id r = U).
  { intros d' r H. apply andb_true_iff in H. destruct H as [_ H].
    apply (Hown UPDATE d' r); [discriminate | exact H]. }
  assert (Hd : forall d r, can_delete income_records_policies (Rls (Some U)) d r = true ->
                           IncomeRecord.user_id r = U).
  { intros d' r H. apply andb_true_iff in H. destruct H as [_ H].
    apply (Hown DELETE d' r); [discriminate | exact H]. }
  assert (Hi : forall d r, can_insert income_records_policies (Rls (Some U)) d r = true ->
                           IncomeRecord.user_id r = U).
  { intros d' r H. unfold can_insert in H. rewrite income_check in H.
    apply String.eqb_eq in H. now symmetry. }
  assert (Hw : forall d r,
            can_write_updated income_records_policies (Rls (Some U)) d r = true ->
            IncomeRecord.user_id r = U).
  { intros d' r H. unfold can_write_updated, check_ok, income_records_policies,
      check_qual, using_qual in H. simpl in H. rewrite orb_false_r in H.
    destruct (String.eqb U (IncomeRecord.user_id r)) eqn:E; [|discriminate].
    apply String.eqb_eq in E. now symmetry. }
  unfold leaves_others. split; [|split].
  - intros r o H. unfold insert_income_record in H.
    destruct (numeric_15_2 _); cbn [guard bind] in H; [|discriminate].
    destruct (rls_insert _ _ _ _ _) as [t'|] eqn:I; cbn [bind] in H; [|discriminate].
    destruct (income_records_constraints _); cbn [guard bind] in H; [|discriminate].
    match type of H with Ok ?x = Ok _ => assert (o = x) as -> by congruence end.
    cbn [state income_records set_income_records].
    exact (insert_frame income_records_policies IncomeRecord.user_id U Hi d r _ _ I).
  - intros w set o H. unfold update_income_records in H.
    destruct (rls_update _ _ _ _ _ _) as [u|] eqn:Up; cbn [bind] in H; [|discriminate].
    destruct (forallb _ (snd u)); cbn [guard bind] in H; [|discriminate].
    destruct (income_records_constraints _); cbn [guard bind] in H; [|discriminate].
    match type of H with Ok ?x = Ok _ => assert (o = x) as -> by congruence end.
    cbn [state income_records set_income_records].
    exact (update_frame income_records_policies IncomeRecord.user_id U Hu Hw d w set _ u Up).
  - intros w o H. unfold delete_income_records in H.
    match type of H with Ok ?x = Ok _ => assert (o = x) as -> by congruence end.
    cbn [state income_records set_income_records].
    exact (delete_frame income_records_policies IncomeRecord.user_id U Hd d w _).
Qed.

Lemma expense_frame U d :
  leaves_others ExpenseRecord.user_id expense_records
    insert_expense_record update_expense_records delete_expense_records U d.
Proof.
  assert (Hown : forall c (d : db) r, c <> INSERT ->
            using_ok expense_records_policies c d (Some U) r = true ->
            ExpenseRecord.user_id r = U).
  { intros c d' r Hc H. rewrite expense_using in H.
    destruct c; try contradiction; apply String.eqb_eq in H; now symmetry. }
  assert (Hu : forall d r, can_update expense_records_policies (Rls (Some U)) d r = true ->
                           ExpenseRecord.user_id r = U).
  { intros d' r H. apply andb_true_iff in H. destruct H as [_ H].
    apply (Hown UPDATE d' r); [discriminate | exact H]. }
  assert (Hd : forall d r, can_delete expense_records_policies (Rls (Some U)) d r = true ->
                           ExpenseRecord.user_id r = U).
  { intros d' r H. apply andb_true_iff in H. destruct H as [_ H].
    apply (Hown DELETE d' r); [discriminate | exact H]. }
  assert (Hi : forall d r, can_insert expense_records_policies (Rls (Some U)) d r = true ->
                           ExpenseRecord.user_id r = U).
  { intros d' r H. unfold can_insert in H. rewrite expense_check in H.
    apply String.eqb_eq in H. now symmetry. }
  assert (Hw : forall d r,
            can_write_updated expense_records_policies (Rls (Some U)) d r = true ->
            ExpenseRecord.user_id r = U).
  { intros d' r H. unfold can_write_updated, check_ok, expense_records_policies,
      check_qual, using_qual in H. simpl in H. rewrite orb_false_r in H.
    destruct (String.eqb U (ExpenseRecord.user_id r)) eqn:E; [|discriminate].
    apply String.eqb_eq in E. now symmetry. }
  unfold leaves_others. split; [|split].
  - intros r o H. unfold insert_expense_record in H.
    destruct (numeric_15_2 _); cbn [guard bind] in H; [|discriminate].
    destruct (rls_insert _ _ _ _ _) as [t'|] eqn:I; cbn [bind] in H; [|discriminate].
    destruct (expense_records_constraints _); cbn [guard bind] in H; [|discriminate].
    match type of H with Ok ?x = Ok _ => assert (o = x) as -> by congruence end.
    cbn [state expense_records set_expense_records].
    exact (insert_frame expense_records_policies ExpenseRecord.user_id U Hi d r _ _ I).
  - intros w set o H. unfold update_expense_records in H.
    destruct (rls_update _ _ _ _ _ _) as [u|] eqn:Up; cbn [bind] in H; [|discriminate].
    destruct (forallb _ (snd u)); cbn [guard bind] in H; [|discriminate].
    destruct (expense_records_constraints _); cbn [guard bind] in H; [|discriminate].
    match type of H with Ok ?x = Ok _ => assert (o = x) as -> by congruence end.
    cbn [state expense_records set_expense_records].
    exact (update_frame expense_records_policies ExpenseRecord.user_id U Hu Hw d w set _ u Up).
  - intros w o H. unfold delete_expense_records in H.
    match type of H with Ok ?x = Ok _ => assert (o = x) as -> by congruence end.
    cbn [state expense_records set_expense_records].
    exact (delete_frame expense_records_policies ExpenseRecord.user_id U Hd d w _).
Qed.

Lemma goals_frame U d :
  savings_constraints d = true ->
  leaves_others SavingsGoal.user_id savings_goals
    insert_savings_goal update_savings_goals delete_savings_goals U d.
Proof.
  intros Hc.
  assert (Hown : forall c (d : db) r, c <> INSERT ->
            using_ok savings_goals_policies c d (Some U) r = true ->
            SavingsGoal.user_id r = U).
  { intros c d' r Hne H. rewrite goals_using, sql_eq_some in H.
    destruct c; try contradiction; apply String.eqb_eq in H; now symmetry. }
  assert (Hu : forall d r, can_update savings_goals_policies (Rls (Some U)) d r = true ->
                           SavingsGoal.user_id r = U).
  { intros d' r H. apply andb_true_iff in H. destruct H as [_ H].
    apply (Hown UPDATE d' r); [discriminate | exact H]. }
  assert (Hd : forall d r, can_delete savings_goals_policies (Rls (Some U)) d r = true ->
                           SavingsGoal.user_id r = U).
  { intros d' r H. apply andb_true_iff in H. destruct H as [_ H].
    apply (Hown DELETE d' r); [discriminate | exact H]. }
  assert (Hi : forall d r, can_insert savings_goals_policies (Rls (Some U)) d r = true ->
                           SavingsGoal.user_id r = U).
  { intros d' r H. unfold can_insert in H.
    rewrite goals_check, sql_eq_some in H by auto.
    apply String.eqb_eq in H. now symmetry. }
  assert (Hw : forall d r,
            can_write_updated savings_goals_policies (Rls (Some U)) d r = true ->
            SavingsGoal.user_id r = U).
  { intros d' r H. unfold can_write_updated in H.
    rewrite goals_check, sql_eq_some in H by auto.
    apply String.eqb_eq in H. now symmetry. }
  unfold leaves_others. split; [|split].
  - intros r o H. unfold insert_savings_goal in H.
    destruct (_ && _); cbn [guard bind] in H; [|discriminate].
    destruct (rls_insert _ _ _ _ _) as [t'|] eqn:I; cbn [bind] in H; [|discriminate].
    destruct (savings_goals_constraints _); cbn [guard bind] in H; [|discriminate].
    match type of H with Ok ?x = Ok _ => assert (o = x) as -> by congruence end.
    cbn [state savings_goals set_savings_goals].
    exact (insert_frame savings_goals_policies SavingsGoal.user_id U Hi d r _ _ I).
  - intros w set o H. unfold update_savings_goals in H.
    destruct (rls_update _ _ _ _ _ _) as [u|] eqn:Up; cbn [bind] in H; [|discriminate].
    destruct (forallb _ (snd u)); cbn [guard bind] in H; [|discriminate].
    destruct (_ && _); cbn [guard bind] in H; [|discriminate].
    match type of H with Ok ?x = Ok _ => assert (o = x) as -> by congruence end.
    cbn [state savings_goals set_savings_goals].
    exact (update_frame savings_goals_policies SavingsGoal.user_id U Hu Hw d w set _ u Up).
  - intros w o H. rewrite (delete_goals_commits _ w d Hc) in H. cbv zeta in H.
    match type of H with Ok ?x = Ok _ => assert (o = x) as -> by congruence end.
    cbn [state savings_goals set_savings_goals set_savings_transactions].
    exact (delete_frame savings_goals_policies SavingsGoal.user_id U Hd d w _).
Qed.

(** X12. Whatever INSERT, UPDATE or DELETE a signed-in user issues on
    income records, expense records or savings goals, with any filter and
    any assignment, the rows of these tables that belong to other users are
    the same after the statement as before. *)
Theorem statements_leave_others_rows (U : uuid) (d : db) :
  savings_constraints d = true ->
  leaves_others IncomeRecord.user_id income_records
    insert_income_record update_income_records delete_income_records U d
  /\ leaves_others ExpenseRecord.user_id expense_records
       insert_expense_record update_expense_records delete_expense_records U d
  /\ leaves_others SavingsGoal.user_id savings_goals
       insert_savings_goal update_savings_goals delete_savings_goals U d.
Proof.
  intros Hc. split; [apply income_frame | split; [apply expense_frame|]].
  now apply goals_frame.
Qed.

(** X12, witness. *)
Lemma statements_leave_others_rows_witness :
  leaves_others SavingsGoal.user_id savings_goals
    insert_savings_goal update_savings_goals delete_savings_goals "B" Demo.used.
Proof.
  refine (proj2 (proj2 (statements_leave_others_rows "B" Demo.used _))).
  vm_compute. reflexivity.
Defined.

(** ** Creating and deleting an income record *)

(** X13. A record created through the form of the income page belongs to
    the caller and, being newer than every stored record, shows up at the
    head of the caller's list; deleting it from the page right away
    commits and gives back the database as it was before the creation. *)
Theorem income_create_then_delete (to_numeric : string -> option Z)
    (created_at : IncomeRecord.row -> Z) (user : uuid)
    (f : IncomeForm.data) (gen : uuid) (d : db) (o : outcome) :
  IncomePage.handleSubmit to_numeric user f None gen d = Ok o ->
  rows_affected o = 1%nat ->
  exists a,
    to_numeric (IncomeForm.amount f) = Some a
    /\ income_records (state o)
       = income_records d ++ [IncomePage.recordData_row user f a gen]
    /\ ((forall r, In r (income_records d) ->
           created_at r < created_at (IncomePage.recordData_row user f a gen)) ->
        exists rest,
          IncomePage.fetchIncomeRecords created_at user (state o)
          = IncomePage.recordData_row user f a gen :: rest
          /\ Permutation rest (IncomePage.fetchIncomeRecords created_at user d))
    /\ IncomePage.handleDelete user gen (state o)
       = Ok {| state := d; rows_affected := 1; fired := [] |}.
Proof.
  intros H Hrows. unfold IncomePage.handleSubmit in H.
  destruct (falsy (IncomeForm.amount f) || falsy (IncomeForm.source f)).
  { match type of H with Ok ?x = Ok _ => assert (o = x) as -> by congruence end.
    discriminate Hrows. }
  destruct (to_numeric (IncomeForm.amount f)) as [a|]; [|discriminate].
  exists a. split; [reflexivity|].
  unfold insert_income_record, rls_insert in H.
  destruct (numeric_15_2 _); cbn [guard bind] in H; [|discriminate].
  destruct (can_insert _ _ _ _); cbn [guard bind] in H; [|discriminate].
  destruct (income_records_constraints _) eqn:C; cbn [guard bind] in H; [|discriminate].
  match type of H with Ok ?x = Ok _ => assert (o = x) as -> by congruence end.
  clear H Hrows. cbn [state income_records set_income_records].
  split; [reflexivity|].
  unfold income_records_constraints in C. apply andb_true_iff in C.
  destruct C as [Hd _]. cbn [income_records set_income_records] in Hd.
  rewrite distinct_map_snoc in Hd. apply andb_true_iff in Hd.
  destruct Hd as [_ Hfresh]. apply negb_true_iff in Hfresh.
  cbn [IncomePage.recordData_row IncomeRecord.id] in Hfresh.
  assert (Hold : forall r, In r (income_records d) ->
            String.eqb (IncomeRecord.id r) gen = false).
  { intros r Hr. destruct (String.eqb _ gen) eqn:E; [|reflexivity].
    apply String.eqb_eq in E.
    rewrite <- E, (In_mem_key IncomeRecord.id) in Hfresh by assumption.
    discriminate. }
  split.
  - intros Hnew. eexists. split; [|reflexivity].
    unfold IncomePage.fetchIncomeRecords, select_income_records, rls_select.
    cbn [income_records set_income_records].
    rewrite List.filter_app.
    assert (E : List.filter
                  (fun r => String.eqb (IncomeRecord.user_id r) user
                            && can_select income_records_policies (Rls (Some user))
                                 (set_income_records
                                    (income_records d
                                     ++ [IncomePage.recordData_row user f a gen]) d) r)
                  [IncomePage.recordData_row user f a gen]
                = [IncomePage.recordData_row user f a gen]).
    { cbn [List.filter]. unfold can_select. rewrite income_using.
      cbn [IncomePage.recordData_row IncomeRecord.user_id].
      now rewrite !String.eqb_refl. }
    rewrite E.
    rewrite (filter_ext
               (fun r => String.eqb (IncomeRecord.user_id r) user
                         && can_select income_records_policies (Rls (Some user))
                              (set_income_records
                                 (income_records d
                                  ++ [IncomePage.recordData_row user f a gen]) d) r)
               (fun r => String.eqb (IncomeRecord.user_id r) user
                         && can_select income_records_policies (Rls (Some user)) d r))
      by (intros r; unfold can_select; now rewrite !income_using).
    apply order_by_snoc. intros y Hy. apply filter_In in Hy.
    destruct Hy as [Hy _]. unfold newest_first. apply Z.leb_gt. now apply Hnew.
  - unfold IncomePage.handleDelete, delete_income_records, rls_delete.
    cbn [fst snd income_records set_income_records].
    rewrite !List.filter_app.
    rewrite (filter_all _ (income_records d))
      by (intros r Hr; now rewrite (Hold r Hr)).
    rewrite (filter_none _ (income_records d))
      by (intros r Hr; now rewrite (Hold r Hr)).
    cbn [List.filter IncomePage.recordData_row IncomeRecord.id].
    rewrite String.eqb_refl. unfold can_delete. rewrite !income_using.
    cbn [IncomeRecord.user_id]. rewrite String.eqb_refl.
    cbn [andb negb app length]. rewrite app_nil_r.
    f_equal. f_equal. now destruct d.
Qed.

(** X13, witness: Ama books a bonus, sees it on top of her list and
    removes it again. *)
Lemma income_create_then_delete_witness :
  (exists rest,
     IncomePage.fetchIncomeRecords
       (fun r => if String.eqb (IncomeRecord.id r) "i2" then 2 else 1) "A"
       (set_income_records
          (income_records Demo.fresh
           ++ [IncomePage.recordData_row "A" DemoPages.income_form 600000 "i2"])
          Demo.fresh)
     = IncomePage.recordData_row "A" DemoPages.income_form 600000 "i2" :: rest
     /\ Permutation rest [Demo.income "i1" "A" 250000])
  /\ IncomePage.handleDelete "A" "i2"
       (set_income_records
          (income_records Demo.fresh
           ++ [IncomePage.recordData_row "A" DemoPages.income_form 600000 "i2"])
          Demo.fresh)
     = Ok {| state := Demo.fresh; rows_affected := 1; fired := [] |}.
Proof.
  destruct (income_create_then_delete (fun _ => Some 600000)
              (fun r => if String.eqb (IncomeRecord.id r) "i2" then 2 else 1) "A"
              DemoPages.income_form "i2" Demo.fresh
              {| state :=
                   set_income_records
                     (income_records Demo.fresh
                      ++ [IncomePage.recordData_row "A" DemoPages.income_form
                            600000 "i2"])
                     Demo.fresh;
                 rows_affected := 1; fired := [] |})
    as (a & Ha & _ & Hfetch & Hdel).
  - vm_compute. reflexivity.
  - reflexivity.
  - assert (a = 600000) as -> by congruence.
    split; [|exact Hdel].
    cbn [state] in Hfetch. apply Hfetch.
    intros r [<- | []]. reflexivity.
Defined.

(** ** Callers without an identity *)

Lemma no_identity_no_goal d gid : is_true (exists_own_goal d None gid) = false.
Proof.
  unfold exists_own_goal, sql_exists. rewrite is_true_Some.
  apply not_true_is_false. intros H. apply existsb_exists in H.
  destruct H as (g & _ & H). rewrite is_true_sql_and in H.
  apply andb_true_iff in H. destruct H as [_ H]. discriminate H.
Qed.

(** X14. A caller without an identity, for whom [auth.uid()] is NULL, gets
    no row of income records, expense records, savings goals or savings
    transactions, whatever the filter, and cannot insert into any of them
    nor into profiles: a comparison with NULL is never true. Of profiles,
    expense categories and currency rates such a caller reads nothing
    either, and writes nothing: these statements are refused for this
    caller as for every other. *)
Theorem no_identity_no_rows (d : db) :
  (forall w, select_income_records (Rls None) w d = [])
  /\ (forall w, select_expense_records (Rls None) w d = [])
  /\ (forall w, select_savings_goals (Rls None) w d = [])
  /\ (forall w, select_savings_transactions (Rls None) w d = [])
  /\ (forall r, exists e, insert_profile (Rls None) r d = Err e)
  /\ (forall r, exists e, insert_income_record (Rls None) r d = Err e)
  /\ (forall r, exists e, insert_expense_record (Rls None) r d = Err e)
  /\ (forall r, exists e, insert_savings_goal (Rls None) r d = Err e)
  /\ (forall r, exists e, insert_savings_transaction (Rls None) r d = Err e)
  /\ (forall w, select_profiles (Rls None) w d = Err InfiniteRecursion)
  /\ (forall w, select_expense_categories (Rls None) w d = Err InfiniteRecursion)
  /\ (forall w, select_currency_rates (Rls None) w d = Err InfiniteRecursion)
  /\ (forall r, insert_expense_category (Rls None) r d = Err InfiniteRecursion)
  /\ (forall r, insert_currency_rate (Rls None) r d = Err InfiniteRecursion).
Proof.
  repeat match goal with |- _ /\ _ => split end.
  - intros w. unfold select_income_records, rls_select. apply filter_none.
    intros r _. apply andb_false_r.
  - intros w. unfold select_expense_records, rls_select. apply filter_none.
    intros r _. apply andb_false_r.
  - intros w. unfold select_savings_goals, rls_select. apply filter_none.
    intros r _. apply andb_false_r.
  - intros w. unfold select_savings_transactions, rls_select. apply filter_none.
    intros r _. unfold can_select.
    rewrite transactions_select_policy, no_identity_no_goal. apply andb_false_r.
  - intros r. unfold insert_profile.
    rewrite profiles_recursion by (right; now left). cbn [bind]. eauto.
  - intros r. unfold insert_income_record, rls_insert.
    destruct (numeric_15_2 _); cbn [guard bind]; eauto.
  - intros r. unfold insert_expense_record, rls_insert.
    destruct (numeric_15_2 _); cbn [guard bind]; eauto.
  - intros r. unfold insert_savings_goal, rls_insert.
    destruct (_ && _); cbn [guard bind]; eauto.
  - intros r. unfold insert_savings_transaction, rls_insert, can_insert.
    rewrite transactions_insert_policy, no_identity_no_goal.
    destruct (numeric_15_2 _); cbn [guard bind]; eauto.
  - intros w. unfold select_profiles.
    now rewrite profiles_recursion by (left; now left).
  - intros w. unfold select_expense_categories, rights_select.
    now rewrite reference_recursion by now left.
  - intros w. unfold select_currency_rates, rights_select.
    now rewrite reference_recursion by now right.
  - intros r. unfold insert_expense_category, rights_insert.
    now rewrite reference_recursion by now left.
  - intros r. unfold insert_currency_rate, rights_insert.
    now rewrite reference_recursion by now right.
Qed.

(** * The further properties on the small database *)

(** X6, witness: Ama deletes her goal with its two transactions. *)
Lemma owner_deletes_goal_witness :
  exists o,
    handleDeleteGoal "A" "g1" Demo.used = Ok o
    /\ savings_goals (state o) = []
    /\ savings_transactions (state o) = [].
Proof.
  destruct (owner_deletes_goal "A" "g1" (Demo.goal "g1" "A" 7000) Demo.used)
    as (o & Ho & _ & Hg & Ht & _).
  - vm_compute. reflexivity.
  - now left.
  - reflexivity.
  - reflexivity.
  - exists o. split; [exact Ho|]. split.
    + rewrite Hg. reflexivity.
    + rewrite Ht. reflexivity.
Defined.
